(** * Deep-frying simulation: a shallow embedding and its verification

    The development embeds the physical core of the simulation
    (Potato.cpp, Bubble.cpp, Oil.cpp and the orchestration part of
    ofApp.cpp) and proves the properties stated for it.

    Modelling conventions.
    - A C++ [float] is an element of [R]: arithmetic is exact, so rounding,
      overflow and NaN of binary32 are outside the model.  [exp], [sin] and
      [sqrt] are the functions of the real-number library.
    - An [int] is an element of [Z]; the conversion [(int) x] truncates
      toward zero.
    - Mutating methods are state transformers on records; statements of
      the source appear as successive rebindings of the object.
    - The ambient inputs of a frame (last frame time, elapsed time, the
      pseudo-random generator) are explicit arguments.
    - The fry is heap allocated and reached through two pointers
      ([potatoFry], [currentDraggedFry]); allocations are numbered so that a
      stale pointer is distinguishable from the live one. *)

From Stdlib Require Import Reals Lra Lia ZArith List Bool Ascii.
Import ListNotations.

Open Scope R_scope.

(** ** Comparisons of the source language

    The C++ comparison operators on [float], as booleans. *)

Definition fltb (a b : R) : bool := if Rlt_dec a b then true else false.
Definition fgtb (a b : R) : bool := if Rgt_dec a b then true else false.
Definition fleb (a b : R) : bool := if Rle_dec a b then true else false.
Definition fgeb (a b : R) : bool := if Rge_dec a b then true else false.

Infix "<?" := fltb (at level 70, no associativity) : R_scope.
Infix ">?" := fgtb (at level 70, no associativity) : R_scope.
Infix "<=?" := fleb (at level 70, no associativity) : R_scope.
Infix ">=?" := fgeb (at level 70, no associativity) : R_scope.

(** ** openFrameworks arithmetic helpers (ofMath) *)

Definition FLT_EPSILON : R := / 2 ^ 23.

(** [ofClamp(value, min, max)] is
    [value < min ? min : value > max ? max : value]. *)
Definition ofClamp (value min max : R) : R :=
  if value <? min then min
  else if value >? max then max
  else value.

(** [ofMap(value, inputMin, inputMax, outputMin, outputMax, clamp)]. *)
Definition ofMap (value inputMin inputMax outputMin outputMax : R)
    (clamp : bool) : R :=
  if Rabs (inputMin - inputMax) <? FLT_EPSILON then outputMin
  else
    let outVal :=
      (value - inputMin) / (inputMax - inputMin) * (outputMax - outputMin)
      + outputMin in
    if clamp then
      if outputMax <? outputMin then
        if outVal <? outputMax then outputMax
        else if outVal >? outputMin then outputMin
        else outVal
      else
        if outVal >? outputMax then outputMax
        else if outVal <? outputMin then outputMin
        else outVal
    else outVal.

Definition ofLerp (start stop amt : R) : R := start + (stop - start) * amt.

(** [(int) x]: truncation toward zero. *)
Definition truncZ (x : R) : Z :=
  if 0 <=? x then Int_part x else (- Int_part (- x))%Z.

(** ** Pseudo-random source

    [ofRandom] reads a global generator.  The generator is a stream of
    numbers of [[0,1)]; drawing returns the head and the remaining stream. *)

Definition RNG : Type := nat -> R.

Definition Rand (A : Type) : Type := RNG -> A * RNG.

Definition ret {A} (a : A) : Rand A := fun g => (a, g).

Definition bind {A B} (m : Rand A) (k : A -> Rand B) : Rand B :=
  fun g => let (a, g') := m g in k a g'.

Notation "x <- m ;; k" := (bind m (fun x => k))
  (at level 61, m at next level, right associativity).

Definition draw : Rand R := fun g => (g O, fun n => g (S n)).

(** [ofRandom(x, y)]: uniform between the smaller and the larger bound. *)
Definition ofRandom2 (a b : R) : Rand R :=
  u <- draw ;; ret (Rmin a b + (Rmax a b - Rmin a b) * u).

(** [ofRandom(max)]. *)
Definition ofRandom1 (max : R) : Rand R :=
  u <- draw ;; ret (max * u).

(** ** Vectors and colours *)

Record ofVec2f : Type := mkVec { x : R; y : R }.

Definition vadd (a b : ofVec2f) : ofVec2f := mkVec (x a + x b) (y a + y b).
Definition vscale (a : ofVec2f) (k : R) : ofVec2f := mkVec (x a * k) (y a * k).
Definition vdistance (a b : ofVec2f) : R :=
  sqrt ((x a - x b) * (x a - x b) + (y a - y b) * (y a - y b)).

(** Channels are kept as reals; the 8-bit quantisation of [ofColor] is
    presentation only. *)
Record ofColor : Type := mkColor { cr : R; cg : R; cb : R; ca : R }.

Definition rgb (r g b : R) : ofColor := mkColor r g b 255.

Definition getLerped (c target : ofColor) (amount : R) : ofColor :=
  let invAmount := 1 - amount in
  mkColor (invAmount * cr c + amount * cr target)
          (invAmount * cg c + amount * cg target)
          (invAmount * cb c + amount * cb target)
          (invAmount * ca c + amount * ca target).

(** ** Potato (Potato.h, Potato.cpp) *)

Module Potato.

Record t : Type := mk {
  position : ofVec2f;
  size : ofVec2f;
  velocity : ofVec2f;
  moistureContent : R;
  temperature : R;
  cookedness : R;
  crustThickness : R;
  density : R;
  timeInOil : R;
  isInOil : bool;
  vigorousBubblingPhase : bool;
  currentColor : ofColor
}.

Definition set_position v p :=
  mk v (size p) (velocity p) (moistureContent p) (temperature p)
     (cookedness p) (crustThickness p) (density p) (timeInOil p) (isInOil p)
     (vigorousBubblingPhase p) (currentColor p).
Definition set_velocity v p :=
  mk (position p) (size p) v (moistureContent p) (temperature p)
     (cookedness p) (crustThickness p) (density p) (timeInOil p) (isInOil p)
     (vigorousBubblingPhase p) (currentColor p).
Definition set_moistureContent v p :=
  mk (position p) (size p) (velocity p) v (temperature p)
     (cookedness p) (crustThickness p) (density p) (timeInOil p) (isInOil p)
     (vigorousBubblingPhase p) (currentColor p).
Definition set_temperature v p :=
  mk (position p) (size p) (velocity p) (moistureContent p) v
     (cookedness p) (crustThickness p) (density p) (timeInOil p) (isInOil p)
     (vigorousBubblingPhase p) (currentColor p).
Definition set_cookedness v p :=
  mk (position p) (size p) (velocity p) (moistureContent p) (temperature p)
     v (crustThickness p) (density p) (timeInOil p) (isInOil p)
     (vigorousBubblingPhase p) (currentColor p).
Definition set_crustThickness v p :=
  mk (position p) (size p) (velocity p) (moistureContent p) (temperature p)
     (cookedness p) v (density p) (timeInOil p) (isInOil p)
     (vigorousBubblingPhase p) (currentColor p).
Definition set_density v p :=
  mk (position p) (size p) (velocity p) (moistureContent p) (temperature p)
     (cookedness p) (crustThickness p) v (timeInOil p) (isInOil p)
     (vigorousBubblingPhase p) (currentColor p).
Definition set_timeInOil v p :=
  mk (position p) (size p) (velocity p) (moistureContent p) (temperature p)
     (cookedness p) (crustThickness p) (density p) v (isInOil p)
     (vigorousBubblingPhase p) (currentColor p).
Definition set_isInOil v p :=
  mk (position p) (size p) (velocity p) (moistureContent p) (temperature p)
     (cookedness p) (crustThickness p) (density p) (timeInOil p) v
     (vigorousBubblingPhase p) (currentColor p).
Definition set_vigorousBubblingPhase v p :=
  mk (position p) (size p) (velocity p) (moistureContent p) (temperature p)
     (cookedness p) (crustThickness p) (density p) (timeInOil p) (isInOil p)
     v (currentColor p).
Definition set_currentColor v p :=
  mk (position p) (size p) (velocity p) (moistureContent p) (temperature p)
     (cookedness p) (crustThickness p) (density p) (timeInOil p) (isInOil p)
     (vigorousBubblingPhase p) v.

Definition set_position_y v p := set_position (mkVec (x (position p)) v) p.
Definition set_velocity_y v p := set_velocity (mkVec (x (velocity p)) v) p.

(** [Potato::Potato(startPos, sz)]: the raw potato. *)
Definition new (startPos sz : ofVec2f) : t :=
  {| position := startPos;
     size := sz;
     velocity := mkVec 0 0;
     moistureContent := 0.79;
     temperature := 20;
     cookedness := 0;
     crustThickness := 0;
     density := 1.08;
     timeInOil := 0;
     isInOil := false;
     vigorousBubblingPhase := false;
     currentColor := rgb 230 215 170 |}.

(** [Potato::getEffectiveHeatTransferCoefficient()]. *)
Definition getEffectiveHeatTransferCoefficient (p : t) : R :=
  let baseCoeff := 0.025 in
  let baseCoeff :=
    if vigorousBubblingPhase p then
      let bubbleBoost := 1 + 4 * exp (- timeInOil p / 20) in
      baseCoeff * bubbleBoost
    else baseCoeff in
  baseCoeff * (1 - 0.5 * crustThickness p).

(** [Potato::getCookingColor()]. *)
Definition getCookingColor (p : t) : ofColor :=
  let raw := rgb 235 220 175 in
  let veryLight := rgb 245 230 160 in
  let light := rgb 245 225 140 in
  let medium := rgb 240 205 120 in
  let golden := rgb 220 180 100 in
  let darkGolden := rgb 190 150 80 in
  let c := cookedness p in
  if c <? 0.25 then getLerped raw veryLight (c / 0.25)
  else if c <? 0.5 then getLerped veryLight light ((c - 0.25) / 0.25)
  else if c <? 0.65 then getLerped light medium ((c - 0.5) / 0.15)
  else if c <? 0.85 then getLerped medium golden ((c - 0.65) / 0.2)
  else getLerped golden darkGolden ((c - 0.85) / 0.15).

(** The submerged branch of [Potato::update] is a sequence of blocks, each
    introduced by a comment in the source; every block is a definition
    here, in the order of the source. *)

(** Entering the oil and time keeping. *)
Definition submerge (dt : R) (p : t) : t :=
  let p := if negb (isInOil p)
           then set_timeInOil 0 (set_isInOil true p) else p in
  let p := set_timeInOil (timeInOil p + dt) p in
  set_vigorousBubblingPhase (timeInOil p <? 20) p.

(** Moisture evaporation. *)
Definition evaporate (dt : R) (p : t) : t :=
  if temperature p >? 100 then
    let evaporationRateBase :=
      if timeInOil p <? 20 then 0.02 * dt * (temperature p - 100) / 75
      else 0.015 * dt * (temperature p - 100) / 75 in
    (* Crust acts as barrier *)
    let effectiveEvaporationRate :=
      evaporationRateBase * (1 - 0.3 * crustThickness p) in
    let p := set_moistureContent
               (moistureContent p - effectiveEvaporationRate) p in
    set_moistureContent (ofClamp (moistureContent p) 0.01 0.79) p
  else p.

(** Density model. *)
Definition updateDensity (p : t) : t :=
  let initial_moisture := 0.79 in
  let progress := 1 - moistureContent p / initial_moisture in
  let rho_raw := 1.08 in
  let rho_fried := 0.60 in
  let p := set_density (rho_raw - (rho_raw - rho_fried) * progress) p in
  set_density (ofClamp (density p) rho_fried rho_raw) p.

(** Crust formation. *)
Definition formCrust (dt : R) (p : t) : t :=
  let crustFormationCoeff :=
    if timeInOil p <? 40 then 0.035 else 0.010 in
  let p := set_crustThickness
             (crustThickness p
              + crustFormationCoeff * dt * (1 - crustThickness p)) p in
  set_crustThickness (ofClamp (crustThickness p) 0 1) p.

(** Heat transfer (Newton's law of cooling). *)
Definition heatTransfer (dt oilTemp : R) (p : t) : t :=
  let baseTempDiff := oilTemp - temperature p in
  let heatTransferCoeff := getEffectiveHeatTransferCoefficient p in
  let heatTransferRate := heatTransferCoeff * dt in
  let p := set_temperature
             (temperature p + baseTempDiff * heatTransferRate) p in
  set_temperature (ofClamp (temperature p) 20 oilTemp) p.

(** Cookedness. *)
Definition updateCookedness (p : t) : t :=
  if (temperature p >? 100) && (temperature p <? 170) then
    let tempProgression := (temperature p - 100) / 70 in
    let p := set_cookedness (tempProgression * tempProgression) p in
    set_cookedness (ofClamp (cookedness p) 0 1) p
  else if temperature p >=? 170 then set_cookedness 1 p
  else p.

(** Buoyancy and viscous drag, with the terminal velocity. *)
Definition applyBuoyancy (dt oilDensity : R) (p : t) : t :=
  let densityDiff := density p - oilDensity in
  let buoyancyAccel := densityDiff * 800 in
  let dragCoeff := 3 in
  let drag := - y (velocity p) * dragCoeff in
  let netAccel := buoyancyAccel + drag in
  let p := set_velocity_y (y (velocity p) + netAccel * dt) p in
  let terminalVelocity := 150 in
  set_velocity_y
    (ofClamp (y (velocity p)) (- terminalVelocity) terminalVelocity) p.

(** Surface behaviour when floating. *)
Definition settleAtSurface (oilSurfaceY oilDensity : R) (p : t) : t :=
  if (density p <? oilDensity) && (y (position p) <? oilSurfaceY + 20)
  then
    let p := set_velocity_y (y (velocity p) * 0.85) p in
    if y (position p) <? oilSurfaceY + 5 then
      let p := set_position_y (oilSurfaceY + 5) p in
      set_velocity_y (Rmax 0 (y (velocity p))) p
    else p
  else p.

(** Basket collision. *)
Definition collideWithBasket (basketBottomY : R) (p : t) : t :=
  if y (position p) >? basketBottomY - y (size p) / 2 then
    let p := set_position_y (basketBottomY - y (size p) / 2) p in
    set_velocity_y (- y (velocity p) * 0.3) p
  else p.

(** The thermal part of the submerged branch. *)
Definition cook (dt oilTemp : R) (p : t) : t :=
  let p := submerge dt p in
  let p := evaporate dt p in
  let p := updateDensity p in
  let p := formCrust dt p in
  let p := heatTransfer dt oilTemp p in
  updateCookedness p.

(** The kinematic part of the submerged branch. *)
Definition buoyancy (dt oilSurfaceY oilDensity basketBottomY : R) (p : t)
    : t :=
  let p := applyBuoyancy dt oilDensity p in
  let p := settleAtSurface oilSurfaceY oilDensity p in
  collideWithBasket basketBottomY p.

(** [Potato::update(dt, oilTemp, oilSurfaceY, oilDensity, basketBottomY)]. *)
Definition update (dt oilTemp oilSurfaceY oilDensity basketBottomY : R)
    (p : t) : t :=
  let p :=
    if y (position p) >? oilSurfaceY then
      buoyancy dt oilSurfaceY oilDensity basketBottomY (cook dt oilTemp p)
    else
      let p := set_isInOil false p in
      set_velocity_y (y (velocity p) + 600 * dt) p in
  let p := set_position (vadd (position p) (vscale (velocity p) dt)) p in
  set_currentColor (getCookingColor p) p.

(** [Potato::getSurfacePointForBubble()]. *)
Definition getSurfacePointForBubble (p : t) : Rand ofVec2f :=
  x_offset <- ofRandom2 (- x (size p) / 2) (x (size p) / 2) ;;
  y_offset <- ofRandom2 (- y (size p) / 2) (y (size p) / 2) ;;
  r1 <- ofRandom1 1 ;;
  offs <-
    (if r1 <? 0.90 then
       r2 <- ofRandom1 1 ;;
       if r2 <? 0.5 then
         r3 <- ofRandom1 1 ;;
         ret (x_offset,
              if r3 <? 0.5 then - y (size p) / 2 else y (size p) / 2)
       else
         r3 <- ofRandom1 1 ;;
         ret (if r3 <? 0.5 then - x (size p) / 2 else x (size p) / 2,
              y_offset)
     else ret (x_offset, y_offset)) ;;
  ret (mkVec (x (position p) + fst offs) (y (position p) + snd offs)).

(** [Potato::getBubbleGenerationFactor(oilTemp)]. *)
Definition getBubbleGenerationFactor (oilTemp : R) (p : t) : R :=
  if negb (isInOil p) then 0
  else if moistureContent p <? 0.01 then 0
  else
    let tempDiff := oilTemp - temperature p in
    if tempDiff <? 5 then 0
    else
      let timeBasedFactor :=
        if timeInOil p <? 20 then
          let timeBasedFactor := exp (- timeInOil p / 8) in
          ofMap timeBasedFactor 0 1 0 1 true
        else if timeInOil p <? 90 then
          ofMap (timeInOil p) 20 90 1 0 true
        else 0.02 in
      let moistureFactor :=
        if moistureContent p >? 0.1 then 1
        else if moistureContent p >? 0.01 then
          let moistureRatio := moistureContent p / 0.1 in
          moistureRatio * moistureRatio
        else 0.01 in
      let tempDiffFactor := ofMap tempDiff 5 100 0.1 1 true in
      let baseFactor := moistureFactor * tempDiffFactor * timeBasedFactor in
      let baseFactor := baseFactor * (1 - 0.5 * crustThickness p) in
      if moistureContent p >? 0.01 then Rmax baseFactor 0.01
      else baseFactor.

End Potato.

(** ** Bubble (Bubble.h, Bubble.cpp) *)

Module Bubble.

Record t : Type := mk {
  position : ofVec2f;
  velocity : ofVec2f;
  acceleration : ofVec2f;
  startSize : R;
  endSize : R;
  size : R;
  lifespan : R;
  life : R;
  oscillation : R;
  oscillationSpeed : R;
  wobblePhase : R;
  oilSurfaceY : R;
  initialDepth : R;
  bubbleType : Z;
  isDead : bool;
  reachedSurface : bool;
  color : ofColor;
  trail : list ofVec2f;
  maxTrailLength : Z
}.

Definition set_position v b :=
  mk v (velocity b) (acceleration b) (startSize b) (endSize b) (size b)
    (lifespan b) (life b) (oscillation b) (oscillationSpeed b)
    (wobblePhase b) (oilSurfaceY b) (initialDepth b) (bubbleType b)
    (isDead b) (reachedSurface b) (color b) (trail b) (maxTrailLength b).
Definition set_velocity v b :=
  mk (position b) v (acceleration b) (startSize b) (endSize b) (size b)
    (lifespan b) (life b) (oscillation b) (oscillationSpeed b)
    (wobblePhase b) (oilSurfaceY b) (initialDepth b) (bubbleType b)
    (isDead b) (reachedSurface b) (color b) (trail b) (maxTrailLength b).
Definition set_acceleration v b :=
  mk (position b) (velocity b) v (startSize b) (endSize b) (size b)
    (lifespan b) (life b) (oscillation b) (oscillationSpeed b)
    (wobblePhase b) (oilSurfaceY b) (initialDepth b) (bubbleType b)
    (isDead b) (reachedSurface b) (color b) (trail b) (maxTrailLength b).
Definition set_size v b :=
  mk (position b) (velocity b) (acceleration b) (startSize b) (endSize b) v
    (lifespan b) (life b) (oscillation b) (oscillationSpeed b)
    (wobblePhase b) (oilSurfaceY b) (initialDepth b) (bubbleType b)
    (isDead b) (reachedSurface b) (color b) (trail b) (maxTrailLength b).
Definition set_life v b :=
  mk (position b) (velocity b) (acceleration b) (startSize b) (endSize b)
    (size b) (lifespan b) v (oscillation b) (oscillationSpeed b)
    (wobblePhase b) (oilSurfaceY b) (initialDepth b) (bubbleType b)
    (isDead b) (reachedSurface b) (color b) (trail b) (maxTrailLength b).
Definition set_oscillation v b :=
  mk (position b) (velocity b) (acceleration b) (startSize b) (endSize b)
    (size b) (lifespan b) (life b) v (oscillationSpeed b) (wobblePhase b)
    (oilSurfaceY b) (initialDepth b) (bubbleType b) (isDead b)
    (reachedSurface b) (color b) (trail b) (maxTrailLength b).
Definition set_isDead v b :=
  mk (position b) (velocity b) (acceleration b) (startSize b) (endSize b)
    (size b) (lifespan b) (life b) (oscillation b) (oscillationSpeed b)
    (wobblePhase b) (oilSurfaceY b) (initialDepth b) (bubbleType b) v
    (reachedSurface b) (color b) (trail b) (maxTrailLength b).
Definition set_reachedSurface v b :=
  mk (position b) (velocity b) (acceleration b) (startSize b) (endSize b)
    (size b) (lifespan b) (life b) (oscillation b) (oscillationSpeed b)
    (wobblePhase b) (oilSurfaceY b) (initialDepth b) (bubbleType b)
    (isDead b) v (color b) (trail b) (maxTrailLength b).
Definition set_color v b :=
  mk (position b) (velocity b) (acceleration b) (startSize b) (endSize b)
    (size b) (lifespan b) (life b) (oscillation b) (oscillationSpeed b)
    (wobblePhase b) (oilSurfaceY b) (initialDepth b) (bubbleType b)
    (isDead b) (reachedSurface b) v (trail b) (maxTrailLength b).
Definition set_trail v b :=
  mk (position b) (velocity b) (acceleration b) (startSize b) (endSize b)
    (size b) (lifespan b) (life b) (oscillation b) (oscillationSpeed b)
    (wobblePhase b) (oilSurfaceY b) (initialDepth b) (bubbleType b)
    (isDead b) (reachedSurface b) (color b) v (maxTrailLength b).

Definition TWO_PI : R := 2 * PI.

(** [Bubble::Bubble(pos, oilTemp, depthBelowSurface, surfaceY)]. *)
Definition new (pos : ofVec2f) (oilTemp depthBelowSurface surfaceY : R)
    : Rand t :=
  estimatedRadius <- ofRandom2 2.5 7.0 ;;
  let h_R_ratio := depthBelowSurface / estimatedRadius in
  let bubbleType : Z :=
    if h_R_ratio <? 0.5 then 0%Z
    else if h_R_ratio <? 1.5 then 1%Z
    else 2%Z in
  (* type-specific initialisation: velocity, startSize, endSize, lifespan,
     oscillationSpeed, maxTrailLength *)
  init <-
    (if (bubbleType =? 0)%Z then
       vx <- ofRandom2 (-70) 70 ;;
       vy <- ofRandom2 (-140) (-200) ;;
       startSize <- ofRandom2 3 7 ;;
       k <- ofRandom2 0.15 0.35 ;;
       lifespan <- ofRandom2 0.4 0.9 ;;
       ret (mkVec vx vy, startSize, startSize * k, lifespan, 0, 3%Z)
     else if (bubbleType =? 1)%Z then
       vx <- ofRandom2 (-20) 20 ;;
       vy <- ofRandom2 (-150) (-220) ;;
       startSize <- ofRandom2 3 6 ;;
       k <- ofRandom2 1.8 2.8 ;;
       lifespan <- ofRandom2 0.7 1.4 ;;
       ret (mkVec vx vy, startSize, startSize * k, lifespan, 0, 6%Z)
     else
       vx <- ofRandom2 (-25) 25 ;;
       vy <- ofRandom2 (-80) (-130) ;;
       startSize <- ofRandom2 6 14 ;;
       k <- ofRandom2 0.9 1.3 ;;
       lifespan <- ofRandom2 1.2 2.5 ;;
       oscillationSpeed <- ofRandom2 14 30 ;;
       ret (mkVec vx vy, startSize, startSize * k, lifespan,
            oscillationSpeed, 8%Z)) ;;
  let '(velocity, startSize, endSize, lifespan, oscillationSpeed,
        maxTrailLength) := init in
  (* common initialisation *)
  let oscillationSpeed :=
    if negb (bubbleType =? 2)%Z then 0 else oscillationSpeed in
  wobblePhase <- ofRandom2 0 TWO_PI ;;
  let baseIntensity : Z := truncZ (ofMap oilTemp 160 190 200 255 true) in
  ret {| position := pos;
         velocity := velocity;
         acceleration := mkVec 0 0;
         startSize := startSize;
         endSize := endSize;
         size := startSize;
         lifespan := lifespan;
         life := 1;
         oscillation := 0;
         oscillationSpeed := oscillationSpeed;
         wobblePhase := wobblePhase;
         oilSurfaceY := surfaceY;
         initialDepth := depthBelowSurface;
         bubbleType := bubbleType;
         isDead := false;
         reachedSurface := false;
         color := mkColor (IZR baseIntensity) (IZR (baseIntensity - 5))
                          (IZR (baseIntensity - 30)) 200;
         trail := [];
         maxTrailLength := maxTrailLength |}.

(** [Bubble::applyForce(force)]. *)
Definition applyForce (force : ofVec2f) (b : t) : t :=
  set_acceleration (vadd (acceleration b) force) b.

(** [Bubble::update] after its early return is a sequence of blocks, each
    introduced by a comment in the source; every block is a definition
    here, in the order of the source. *)

(** Surface detection. *)
Definition detectSurface (b : t) : t :=
  if (y (position b) <=? oilSurfaceY b + 5) && negb (reachedSurface b)
  then
    let b := set_reachedSurface true b in
    set_life (Rmin (life b) 0.15) b
  else b.

(** Viscous drag, horizontal wobble and integration; [now] is the value
    that [ofGetElapsedTimef()] returns. *)
Definition move (now dt oilViscosity : R) (b : t) : t :=
  let dragCoeff := 20 in
  let drag :=
    vscale (vscale (vscale (velocity b) (-1)) oilViscosity) dragCoeff in
  let b := applyForce drag b in
  let wobble := sin (wobblePhase b + now * 8) * 15 in
  let b := set_acceleration
             (mkVec (x (acceleration b) + wobble * dt)
                    (y (acceleration b))) b in
  let b := set_velocity (vadd (velocity b) (vscale (acceleration b) dt)) b in
  set_position (vadd (position b) (vscale (velocity b) dt)) b.

(** Size interpolation with quadratic easing, and the size variation of
    an oscillating bubble. *)
Definition resize (dt : R) (b : t) : t :=
  let lifeRatio := 1 - life b in
  let easedRatio := lifeRatio * lifeRatio in
  let b := set_size (ofLerp (startSize b) (endSize b) easedRatio) b in
  if (bubbleType b =? 2)%Z then
    let b := set_oscillation (oscillation b + oscillationSpeed b * dt) b in
    let oscillationAmount := sin (oscillation b) * (startSize b * 0.22) in
    set_size (size b + oscillationAmount) b
  else b.

(** Trail update. *)
Definition updateTrail (b : t) : t :=
  if (Nat.eqb (length (trail b)) 0)
     || (vdistance (position b) (last (trail b) (position b)) >? 3)
  then
    let b := set_trail (trail b ++ [position b]) b in
    if (Z.of_nat (length (trail b)) >? maxTrailLength b)%Z
    then set_trail (tl (trail b)) b
    else b
  else b.

(** Alpha fade. *)
Definition fade (b : t) : t :=
  let alphaBase := 200 in
  if reachedSurface b then
    let popProgress := 1 - life b / 0.15 in
    let b := set_color
               (mkColor (cr (color b)) (cg (color b)) (cb (color b))
                        (ofMap popProgress 0 1 alphaBase 0 false)) b in
    set_size (size b * (1 + popProgress * 0.5)) b
  else
    set_color
      (mkColor (cr (color b)) (cg (color b)) (cb (color b))
               (ofMap (life b) 0 1 60 alphaBase true)) b.

(** [Bubble::update(dt, oilViscosity)]. *)
Definition update (now dt oilViscosity : R) (b : t) : t :=
  let b := set_life (life b - dt / lifespan b) b in
  if life b <=? 0 then set_isDead true b
  else
    let b := detectSurface b in
    let b := move now dt oilViscosity b in
    let b := resize dt b in
    let b := updateTrail b in
    let b := fade b in
    set_acceleration (vscale (acceleration b) 0) b.

End Bubble.

(** ** Oil (Oil.h, Oil.cpp) *)

Module Oil.

Record t : Type := mk {
  surfaceY : R;
  temperature : R;
  time : R
}.

(** [Oil::Oil(y, temp)]. *)
Definition new (y0 temp : R) : t :=
  {| surfaceY := y0; temperature := temp; time := 0 |}.

(** [Oil::update(deltaTime)]. *)
Definition update (deltaTime : R) (o : t) : t :=
  mk (surfaceY o) (temperature o) (time o + deltaTime).

Definition set_temperature (v : R) (o : t) : t :=
  mk (surfaceY o) v (time o).

(** [Oil::getTemperatureColor()]. *)
Definition getTemperatureColor (o : t) : ofColor :=
  let coolOil := mkColor 210 170 70 180 in
  let mediumOil := mkColor 230 185 85 190 in
  let hotOil := mkColor 245 200 100 200 in
  let t0 := ofMap (temperature o) 160 190 0 1 true in
  if t0 <? 0.5 then getLerped coolOil mediumOil (t0 / 0.5)
  else getLerped mediumOil hotOil ((t0 - 0.5) / 0.5).

End Oil.

(** ** ofApp (ofApp.h, ofApp.cpp): the simulation loop *)

Module ofApp.

(** Scene layout, fixed by [setup]. *)
Record Geometry : Type := mkGeometry {
  screenWidth : R;
  screenHeight : R;
  fryerLeftX : R;
  fryerRightX : R;
  fryerTopY : R;
  oilTopY : R;
  oilBottomY : R;
  basketLeftX : R;
  basketRightX : R;
  basketTopY : R;
  basketBottomY : R
}.

(** A [Potato*] is [None] for [nullptr] or the number of an allocation;
    [heap] holds the live [Potato] objects and [nextAddr] numbers the next
    allocation, so a deleted object is never confused with a later one. *)
Record t : Type := mk {
  geom : Geometry;
  oilTemperature : R;
  targetTemperature : R;
  oilViscosity : R;
  oilSurface : Oil.t;
  potatoFry : option nat;
  currentDraggedFry : option nat;
  heap : nat -> option Potato.t;
  nextAddr : nat;
  particles : list Bubble.t;
  elapsedTime : R;
  fryInOil : bool;
  isPaused : bool;
  dragPosition : ofVec2f
}.

Definition set_oilTemperature v s :=
  mk (geom s) v (targetTemperature s) (oilViscosity s) (oilSurface s)
    (potatoFry s) (currentDraggedFry s) (heap s) (nextAddr s) (particles s)
    (elapsedTime s) (fryInOil s) (isPaused s) (dragPosition s).
Definition set_targetTemperature v s :=
  mk (geom s) (oilTemperature s) v (oilViscosity s) (oilSurface s)
    (potatoFry s) (currentDraggedFry s) (heap s) (nextAddr s) (particles s)
    (elapsedTime s) (fryInOil s) (isPaused s) (dragPosition s).
Definition set_oilViscosity v s :=
  mk (geom s) (oilTemperature s) (targetTemperature s) v (oilSurface s)
    (potatoFry s) (currentDraggedFry s) (heap s) (nextAddr s) (particles s)
    (elapsedTime s) (fryInOil s) (isPaused s) (dragPosition s).
Definition set_oilSurface v s :=
  mk (geom s) (oilTemperature s) (targetTemperature s) (oilViscosity s) v
    (potatoFry s) (currentDraggedFry s) (heap s) (nextAddr s) (particles s)
    (elapsedTime s) (fryInOil s) (isPaused s) (dragPosition s).
Definition set_potatoFry v s :=
  mk (geom s) (oilTemperature s) (targetTemperature s) (oilViscosity s)
    (oilSurface s) v (currentDraggedFry s) (heap s) (nextAddr s)
    (particles s) (elapsedTime s) (fryInOil s) (isPaused s) (dragPosition s).
Definition set_currentDraggedFry v s :=
  mk (geom s) (oilTemperature s) (targetTemperature s) (oilViscosity s)
    (oilSurface s) (potatoFry s) v (heap s) (nextAddr s) (particles s)
    (elapsedTime s) (fryInOil s) (isPaused s) (dragPosition s).
Definition set_heap v s :=
  mk (geom s) (oilTemperature s) (targetTemperature s) (oilViscosity s)
    (oilSurface s) (potatoFry s) (currentDraggedFry s) v (nextAddr s)
    (particles s) (elapsedTime s) (fryInOil s) (isPaused s) (dragPosition s).
Definition set_nextAddr v s :=
  mk (geom s) (oilTemperature s) (targetTemperature s) (oilViscosity s)
    (oilSurface s) (potatoFry s) (currentDraggedFry s) (heap s) v
    (particles s) (elapsedTime s) (fryInOil s) (isPaused s) (dragPosition s).
Definition set_particles v s :=
  mk (geom s) (oilTemperature s) (targetTemperature s) (oilViscosity s)
    (oilSurface s) (potatoFry s) (currentDraggedFry s) (heap s) (nextAddr s)
    v (elapsedTime s) (fryInOil s) (isPaused s) (dragPosition s).
Definition set_elapsedTime v s :=
  mk (geom s) (oilTemperature s) (targetTemperature s) (oilViscosity s)
    (oilSurface s) (potatoFry s) (currentDraggedFry s) (heap s) (nextAddr s)
    (particles s) v (fryInOil s) (isPaused s) (dragPosition s).
Definition set_fryInOil v s :=
  mk (geom s) (oilTemperature s) (targetTemperature s) (oilViscosity s)
    (oilSurface s) (potatoFry s) (currentDraggedFry s) (heap s) (nextAddr s)
    (particles s) (elapsedTime s) v (isPaused s) (dragPosition s).
Definition set_isPaused v s :=
  mk (geom s) (oilTemperature s) (targetTemperature s) (oilViscosity s)
    (oilSurface s) (potatoFry s) (currentDraggedFry s) (heap s) (nextAddr s)
    (particles s) (elapsedTime s) (fryInOil s) v (dragPosition s).
Definition set_dragPosition v s :=
  mk (geom s) (oilTemperature s) (targetTemperature s) (oilViscosity s)
    (oilSurface s) (potatoFry s) (currentDraggedFry s) (heap s) (nextAddr s)
    (particles s) (elapsedTime s) (fryInOil s) (isPaused s) v.

Definition store (a : nat) (v : option Potato.t) (s : t) : t :=
  set_heap (fun a' => if Nat.eqb a' a then v else heap s a') s.

(** [new Potato(...)]. *)
Definition alloc (p : Potato.t) (s : t) : nat * t :=
  let a := nextAddr s in
  (a, set_nextAddr (S a) (store a (Some p) s)).

(** [delete ptr]. *)
Definition delete (a : nat) (s : t) : t := store a None s.

Inductive Key : Type :=
| KeyChar (c : ascii)
| OF_KEY_UP
| OF_KEY_DOWN
| KeyOther.

Definition is_char (key : Key) (c : ascii) : bool :=
  match key with KeyChar c' => Ascii.eqb c' c | _ => false end.
Definition is_up (key : Key) : bool :=
  match key with OF_KEY_UP => true | _ => false end.
Definition is_down (key : Key) : bool :=
  match key with OF_KEY_DOWN => true | _ => false end.

(** The ambient values read during one call of [ofApp::update]:
    [ofGetLastFrameTime()], [ofGetElapsedTimef()] and the generator behind
    [ofRandom]. *)
Record Frame : Type := mkFrame {
  lastFrameTime : R;
  elapsedTimef : R;
  rng : RNG
}.

(** [ofApp::updateOilViscosity()]. *)
Definition updateOilViscosity (s : t) : t :=
  let T_Kelvin := oilTemperature s + 273.15 in
  let viscosity_inf := 0.00001 in
  let Ea_R := 2500 in
  let s := set_oilViscosity (viscosity_inf * exp (Ea_R / T_Kelvin)) s in
  set_oilViscosity (ofClamp (oilViscosity s) 0.003 0.030) s.

(** [ofApp::getOilDensity()]. *)
Definition getOilDensity (s : t) : R :=
  0.915 - 0.00064 * (oilTemperature s - 20).

(** [ofApp::setup()]; [w] and [h] are [ofGetWidth()] and [ofGetHeight()]. *)
Definition setup (w h : Z) : t :=
  let screenWidth := IZR w in
  let screenHeight := IZR h in
  let fryerLeftX := screenWidth * 0.5 - screenWidth * 0.5 / 2 in
  let fryerRightX := screenWidth * 0.5 + screenWidth * 0.5 / 2 in
  let fryerTopY := 280 in
  let oilBottomY := fryerTopY + screenHeight * 0.35 in
  let oilTopY := fryerTopY + 35 in
  let basketLeftX := fryerLeftX + 40 in
  let basketRightX := fryerRightX - 40 in
  let basketBottomY := oilBottomY - 40 in
  let basketTopY := oilTopY + 30 in
  let oilTemperature := 175 in
  let s :=
    updateOilViscosity
      {| geom := mkGeometry screenWidth screenHeight fryerLeftX fryerRightX
                   fryerTopY oilTopY oilBottomY basketLeftX basketRightX
                   basketTopY basketBottomY;
         oilTemperature := oilTemperature;
         targetTemperature := 175;
         oilViscosity := 0;
         oilSurface := Oil.new oilTopY oilTemperature;
         potatoFry := None;
         currentDraggedFry := None;
         heap := fun _ => None;
         nextAddr := O;
         particles := [];
         elapsedTime := 0;
         fryInOil := false;
         isPaused := false;
         dragPosition := mkVec 0 0 |} in
  s.

(** [ofApp::spawnBubble(position, temperature, depthBelowSurface)]. *)
Definition spawnBubble (position : ofVec2f)
    (temperature depthBelowSurface : R) (s : t) : Rand t :=
  b <- Bubble.new position temperature depthBelowSurface
         (oilTopY (geom s)) ;;
  ret (set_particles (particles s ++ [b]) s).

(** The loop [for (int i = 0; i < numBubbles; i++)] of [ofApp::update]. *)
Fixpoint spawnLoop (numBubbles : nat) (fry : Potato.t) (s : t) : Rand t :=
  match numBubbles with
  | O => ret s
  | S n =>
      bubblePos <- Potato.getSurfacePointForBubble fry ;;
      let bubblePos :=
        mkVec (x bubblePos)
              (ofClamp (y bubblePos) (oilTopY (geom s) + 5)
                       (oilBottomY (geom s) - 5)) in
      let depthBelowSurface := y bubblePos - oilTopY (geom s) in
      s <- spawnBubble bubblePos (oilTemperature s) depthBelowSurface s ;;
      spawnLoop n fry s
  end.

(** Bubble generation in [ofApp::update]. *)
Definition generateBubbles (fry : Potato.t) (s : t) : Rand t :=
  let bubbleGenerationFactor :=
    Potato.getBubbleGenerationFactor (oilTemperature s) fry in
  if bubbleGenerationFactor >? 0 then
    let minBubblesTarget := 0.5 in
    let maxBubblesTarget := 20 in
    let targetNumBubbles :=
      ofMap bubbleGenerationFactor 0 1 minBubblesTarget maxBubblesTarget
            true in
    r <- ofRandom2 (Rmax 0 (targetNumBubbles - 3)) (targetNumBubbles + 3) ;;
    let numBubbles := truncZ r in
    let numBubbles :=
      truncZ (ofClamp (IZR numBubbles) 0 (IZR (truncZ maxBubblesTarget))) in
    (* Sporadic generation at low rates *)
    numBubbles <-
      (if (numBubbles <? 2)%Z then
         u <- ofRandom1 1 ;;
         ret (if u >? bubbleGenerationFactor * 8 then 0%Z else numBubbles)
       else ret numBubbles) ;;
    spawnLoop (Z.to_nat numBubbles) fry s
  else ret s.

(** The body of the loop of [ofApp::updatePhysics]: one bubble is advanced
    and kept between the walls of the oil container. *)
Definition updateParticle (now dt oilViscosity oilLeft oilRight : R)
    (p : Bubble.t) : Bubble.t :=
  let p := Bubble.update now dt oilViscosity p in
  (* Boundary constraints *)
  let p :=
    if x (Bubble.position p) <? oilLeft
    then Bubble.set_position (mkVec oilLeft (y (Bubble.position p))) p
    else p in
  if x (Bubble.position p) >? oilRight
  then Bubble.set_position (mkVec oilRight (y (Bubble.position p))) p
  else p.

(** [ofApp::updatePhysics(dt)]. *)
Definition updatePhysics (now dt : R) (s : t) : t :=
  let oilLeft := fryerLeftX (geom s) + 15 in
  let oilRight := fryerRightX (geom s) - 15 in
  set_particles
    (map (updateParticle now dt (oilViscosity s) oilLeft oilRight)
         (particles s)) s.

(** The override of the fry movement while dragging, in [ofApp::update]:
    [currentDraggedFry->position = dragPosition] and
    [currentDraggedFry->velocity = ofVec2f(0, 0)].  Writing through a
    pointer that is not live is undefined behaviour ([None]). *)
Definition dragOverride (s : t) : option t :=
  match currentDraggedFry s with
  | Some d =>
      match heap s d with
      | Some dragged =>
          let dragged := Potato.set_position (dragPosition s) dragged in
          let dragged := Potato.set_velocity (mkVec 0 0) dragged in
          Some (store d (Some dragged) s)
      | None => None
      end
  | None => Some s
  end.

(** The fry part of [ofApp::update]: physics, drag override and bubble
    generation. *)
Definition updateFry (deltaTime : R) (s : t) : option (Rand t) :=
  match potatoFry s with
  | Some a =>
      if fryInOil s then
        match heap s a with
        | Some fry =>
            let oilDensity := getOilDensity s in
            let fry := Potato.update deltaTime (oilTemperature s)
                         (oilTopY (geom s)) oilDensity
                         (basketBottomY (geom s)) fry in
            let s := store a (Some fry) s in
            match dragOverride s with
            | Some s =>
                match heap s a with
                | Some fry => Some (generateBubbles fry s)
                | None => None
                end
            | None => None
            end
        | None => None
        end
      else Some (ret s)
  | None => Some (ret s)
  end.

(** The oil part of [ofApp::update]: exponential smoothing of the
    temperature toward the target, then the viscosity. *)
Definition updateOil (s : t) : t :=
  let s := set_oilTemperature
             (oilTemperature s
              + (targetTemperature s - oilTemperature s) * 0.05) s in
  let s := set_oilTemperature (ofClamp (oilTemperature s) 160 190) s in
  let s := set_oilSurface
             (Oil.set_temperature (oilTemperature s) (oilSurface s)) s in
  updateOilViscosity s.

(** The end of [ofApp::update]: bubbles are advanced and the dead ones are
    erased. *)
Definition updateParticles (now deltaTime : R) (s : t) : t :=
  let s := updatePhysics now deltaTime s in
  let s := set_oilSurface (Oil.update deltaTime (oilSurface s)) s in
  set_particles (filter (fun p => negb (Bubble.isDead p)) (particles s)) s.

(** [ofApp::update()]. *)
Definition update (f : Frame) (s : t) : option t :=
  if isPaused s then Some s
  else
    let deltaTime := ofClamp (lastFrameTime f) 0 0.1 in
    let s := set_elapsedTime (elapsedTime s + deltaTime) s in
    let s := updateOil s in
    match updateFry deltaTime s with
    | Some m =>
        let s := fst (m (rng f)) in
        Some (updateParticles (elapsedTimef f) deltaTime s)
    | None => None
    end.

(** [ofApp::keyPressed(key)]. *)
Definition keyPressed (key : Key) (s : t) : t :=
  if is_char key "p" || is_char key "P" then
    set_isPaused (negb (isPaused s)) s
  else if is_up key then
    set_targetTemperature (ofClamp (targetTemperature s + 5) 160 190) s
  else if is_down key then
    set_targetTemperature (ofClamp (targetTemperature s - 5) 160 190) s
  else if is_char key " " then
    if fryInOil s then
      let s :=
        match potatoFry s with
        | Some a => set_potatoFry None (delete a s)
        | None => s
        end in
      set_fryInOil false s
    else
      let fryPos :=
        mkVec (screenWidth (geom s) / 2) (oilTopY (geom s) - 80) in
      let (a, s) := alloc (Potato.new fryPos (mkVec 120 20)) s in
      let s := set_potatoFry (Some a) s in
      let s := store a (Some (Potato.set_velocity (mkVec 0 100)
                                (Potato.new fryPos (mkVec 120 20)))) s in
      set_fryInOil true s
  else if is_char key "r" || is_char key "R" then
    let s :=
      match potatoFry s with
      | Some a => set_potatoFry None (delete a s)
      | None => s
      end in
    let s := set_fryInOil false s in
    let s := set_elapsedTime 0 s in
    set_particles [] s
  else s.

(** [ofApp::mousePressed(x, y, button)]. *)
Definition mousePressed (mx my : Z) (s : t) : option t :=
  match potatoFry s with
  | Some a =>
      match heap s a with
      | Some fry =>
          let dx := IZR mx - x (Potato.position fry) in
          let dy := IZR my - y (Potato.position fry) in
          if sqrt (dx * dx + dy * dy) <? 60 then
            let s := set_currentDraggedFry (potatoFry s) s in
            Some (set_dragPosition (mkVec (IZR mx) (IZR my)) s)
          else Some s
      | None => None
      end
  | None => Some s
  end.

(** [ofApp::mouseDragged(x, y, button)]. *)
Definition mouseDragged (mx my : Z) (s : t) : t :=
  match currentDraggedFry s with
  | Some _ => set_dragPosition (mkVec (IZR mx) (IZR my)) s
  | None => s
  end.

(** [ofApp::mouseReleased(x, y, button)]. *)
Definition mouseReleased (s : t) : t := set_currentDraggedFry None s.

(** The events the framework delivers to the application. *)
Inductive Event : Type :=
| EKeyPressed (key : Key)
| EMousePressed (mx my : Z)
| EMouseDragged (mx my : Z)
| EMouseReleased
| EUpdate (f : Frame).

Definition handle (e : Event) (s : t) : option t :=
  match e with
  | EKeyPressed key => Some (keyPressed key s)
  | EMousePressed mx my => mousePressed mx my s
  | EMouseDragged mx my => Some (mouseDragged mx my s)
  | EMouseReleased => Some (mouseReleased s)
  | EUpdate f => update f s
  end.

(** Running a sequence of events, oldest first. *)
Fixpoint run (es : list Event) (s : t) : option t :=
  match es with
  | [] => Some s
  | e :: es' =>
      match handle e s with
      | Some s' => run es' s'
      | None => None
      end
  end.

End ofApp.

(** * Vocabulary of the specification

    Definitions used to state and prove the properties: values the source
    computes named block by block, invariants, reachable states and the
    concrete scenarios. *)

(** ** Arithmetic helpers *)

Ltac fcmp :=
  unfold fltb, fgtb, fleb, fgeb in *;
  repeat match goal with
    | |- context [Rlt_dec ?a ?b] => destruct (Rlt_dec a b)
    | |- context [Rgt_dec ?a ?b] => destruct (Rgt_dec a b)
    | |- context [Rle_dec ?a ?b] => destruct (Rle_dec a b)
    | |- context [Rge_dec ?a ?b] => destruct (Rge_dec a b)
    end.

(** ** Oil viscosity *)

(** The Arrhenius law as the design states it. *)
Definition arrhenius (temperature : R) : R :=
  let A := 1 / 100000 in
  let Ea_R := 2500 in
  let T_K := temperature + 273.15 in
  A * exp (Ea_R / T_K).

Definition viscosity_spec (temperature : R) : R :=
  Rmax 0.003 (Rmin 0.030 (arrhenius temperature)).

(** ** The bubble generation factor *)

(** The three factors of [getBubbleGenerationFactor], as the source
    computes them once the guards are passed. *)
Definition timeBasedFactor (p : Potato.t) : R :=
  if Potato.timeInOil p <? 20 then
    ofMap (exp (- Potato.timeInOil p / 8)) 0 1 0 1 true
  else if Potato.timeInOil p <? 90 then
    ofMap (Potato.timeInOil p) 20 90 1 0 true
  else 0.02.

Definition moistureFactor (p : Potato.t) : R :=
  if Potato.moistureContent p >? 0.1 then 1
  else if Potato.moistureContent p >? 0.01 then
    Potato.moistureContent p / 0.1 * (Potato.moistureContent p / 0.1)
  else 0.01.

Definition tempDiffFactor (oilTemp : R) (p : Potato.t) : R :=
  ofMap (oilTemp - Potato.temperature p) 5 100 0.1 1 true.

(** ** Bubbles *)

Ltac split_ifs :=
  repeat match goal with
    | |- context [if ?c then _ else _] => destruct c eqn:?
    end.

Ltac eval_minmax :=
  repeat match goal with
    | |- context [Rmin ?a ?b] =>
        first [rewrite (Rmin_left a b) by lra
              |rewrite (Rmin_right a b) by lra]
    | |- context [Rmax ?a ?b] =>
        first [rewrite (Rmax_right a b) by lra
              |rewrite (Rmax_left a b) by lra]
    end.

(** The fields that carry the life cycle and the motion of a bubble. *)
Definition core (b : Bubble.t) :=
  (Bubble.life b, Bubble.isDead b, Bubble.reachedSurface b,
   Bubble.lifespan b, Bubble.oilSurfaceY b,
   Bubble.velocity b, Bubble.acceleration b, Bubble.position b).

(** The life of one particle over successive frames: each frame
    [updatePhysics] advances it, and the erase at the end of
    [ofApp::update] removes it ([None]) in the frame that marks it dead.
    A frame is given by the elapsed time, the time step and the oil
    viscosity of that frame. *)
Fixpoint lifecycle (oilLeft oilRight : R) (frames : list (R * R * R))
    (p : Bubble.t) : option Bubble.t :=
  match frames with
  | [] => Some p
  | (now, dt, oilViscosity) :: frames' =>
      let p := ofApp.updateParticle now dt oilViscosity oilLeft oilRight p in
      if Bubble.isDead p then None
      else lifecycle oilLeft oilRight frames' p
  end.

(** Time step of a frame and accumulated time of a list of frames. *)
Definition frame_dt (f : R * R * R) : R := snd (fst f).

Definition sum_dt (frames : list (R * R * R)) : R :=
  fold_right (fun f acc => frame_dt f + acc) 0 frames.

(** The particle stays more than 5 units below the oil surface in every
    frame in which it is still in the particle list. *)
Fixpoint no_contact (oilLeft oilRight : R) (frames : list (R * R * R))
    (p : Bubble.t) : Prop :=
  match frames with
  | [] => True
  | (now, dt, visc) :: frames' =>
      y (Bubble.position p) > Bubble.oilSurfaceY p + 5 /\
      let p' := ofApp.updateParticle now dt visc oilLeft oilRight p in
      if Bubble.isDead p' then True
      else no_contact oilLeft oilRight frames' p'
  end.

(** Successive calls of [Bubble::update], one per frame. *)
Definition updates (frames : list (R * R * R)) (b : Bubble.t) : Bubble.t :=
  fold_left (fun b f => Bubble.update (fst (fst f)) (snd (fst f)) (snd f) b)
            frames b.

(** A slow oscillating bubble in its last frame, 3 units below the
    surface. *)
Definition late_bubble : Bubble.t :=
  {| Bubble.position := mkVec 500 318;
     Bubble.velocity := mkVec 0 (-100);
     Bubble.acceleration := mkVec 0 0;
     Bubble.startSize := 6;
     Bubble.endSize := 6;
     Bubble.size := 6;
     Bubble.lifespan := 1.25;
     Bubble.life := 0.04;
     Bubble.oscillation := 0;
     Bubble.oscillationSpeed := 14;
     Bubble.wobblePhase := 0;
     Bubble.oilSurfaceY := 315;
     Bubble.initialDepth := 125;
     Bubble.bubbleType := 2;
     Bubble.isDead := false;
     Bubble.reachedSurface := false;
     Bubble.color := mkColor 227 222 197 200;
     Bubble.trail := [];
     Bubble.maxTrailLength := 8 |}.

(** Draws of the generator for which [Bubble::Bubble] builds an oscillating
    bubble with vertical velocity -100 and lifespan 1.25. *)
Definition bubble_draws : RNG :=
  fun n => match n with 2%nat => 0.6 | 5%nat => / 26 | _ => 0 end.

(** The bubble spawned [depth] units below the oil surface (at 315) in oil
    of 175 degrees, with these draws. *)
Definition spawned_bubble (depth : R) : Bubble.t :=
  fst (Bubble.new (mkVec 500 (315 + depth)) 175 depth 315 bubble_draws).

(** A fresh oscillating bubble 200 units below the surface. *)
Definition deep_bubble : Bubble.t := spawned_bubble 200.

Definition tenth_frames (n : nat) : list (R * R * R) :=
  repeat (0, 0.1, 0.003) n.

(** ** The thermal model of the fry *)

Ltac potato_red :=
  cbv beta iota zeta delta
    [Potato.cook Potato.submerge Potato.evaporate Potato.updateDensity
     Potato.formCrust Potato.heatTransfer Potato.updateCookedness
     Potato.getEffectiveHeatTransferCoefficient
     Potato.buoyancy Potato.applyBuoyancy Potato.settleAtSurface
     Potato.collideWithBasket
     Potato.set_position Potato.set_velocity Potato.set_moistureContent
     Potato.set_temperature Potato.set_cookedness Potato.set_crustThickness
     Potato.set_density Potato.set_timeInOil Potato.set_isInOil
     Potato.set_vigorousBubblingPhase Potato.set_currentColor
     Potato.set_position_y Potato.set_velocity_y
     Potato.position Potato.size Potato.velocity Potato.moistureContent
     Potato.temperature Potato.cookedness Potato.crustThickness
     Potato.density Potato.timeInOil Potato.isInOil
     Potato.vigorousBubblingPhase Potato.currentColor
     negb x y].

(** The values [cook] computes, block by block. *)
Definition cook_time (dt : R) (p : Potato.t) : R :=
  (if Potato.isInOil p then Potato.timeInOil p else 0) + dt.

Definition cook_moisture (dt : R) (p : Potato.t) : R :=
  if Potato.temperature p >? 100 then
    ofClamp
      (Potato.moistureContent p
       - (if cook_time dt p <? 20
          then 0.02 * dt * (Potato.temperature p - 100) / 75
          else 0.015 * dt * (Potato.temperature p - 100) / 75)
         * (1 - 0.3 * Potato.crustThickness p))
      0.01 0.79
  else Potato.moistureContent p.

Definition cook_density (dt : R) (p : Potato.t) : R :=
  ofClamp (1.08 - (1.08 - 0.60) * (1 - cook_moisture dt p / 0.79))
          0.60 1.08.

Definition cook_crust (dt : R) (p : Potato.t) : R :=
  ofClamp
    (Potato.crustThickness p
     + (if cook_time dt p <? 40 then 0.035 else 0.010) * dt
       * (1 - Potato.crustThickness p))
    0 1.

Definition cook_coeff (dt : R) (p : Potato.t) : R :=
  (if cook_time dt p <? 20
   then 0.025 * (1 + 4 * exp (- cook_time dt p / 20))
   else 0.025)
  * (1 - 0.5 * cook_crust dt p).

Definition cook_temperature (dt oilTemp : R) (p : Potato.t) : R :=
  ofClamp
    (Potato.temperature p
     + (oilTemp - Potato.temperature p) * (cook_coeff dt p * dt))
    20 oilTemp.

Definition cook_cookedness (dt oilTemp : R) (p : Potato.t) : R :=
  if (cook_temperature dt oilTemp p >? 100)
     && (cook_temperature dt oilTemp p <? 170)
  then
    ofClamp ((cook_temperature dt oilTemp p - 100) / 70
             * ((cook_temperature dt oilTemp p - 100) / 70))
            0 1
  else if cook_temperature dt oilTemp p >=? 170 then 1
  else Potato.cookedness p.

(** The thermal state of the fry. *)
Definition thermal (p : Potato.t) :=
  (Potato.moistureContent p, Potato.temperature p, Potato.cookedness p,
   Potato.crustThickness p, Potato.density p, Potato.timeInOil p,
   Potato.isInOil p, Potato.vigorousBubblingPhase p, Potato.size p).

(** The declared domains of the bounded fields of the fry; the
    temperature is bounded by the hottest oil. *)
Definition fry_domain (p : Potato.t) : Prop :=
  0.01 <= Potato.moistureContent p <= 0.79 /\
  20 <= Potato.temperature p <= 190 /\
  0 <= Potato.cookedness p <= 1 /\
  0 <= Potato.crustThickness p <= 1 /\
  0.60 <= Potato.density p <= 1.08.

(** ** The simulation loop *)

(** The state of the simulation apart from the particles and the clocks. *)
Definition sim (s : ofApp.t) :=
  (ofApp.geom s, ofApp.oilTemperature s, ofApp.targetTemperature s,
   ofApp.oilViscosity s, ofApp.potatoFry s, ofApp.currentDraggedFry s,
   ofApp.heap s, ofApp.nextAddr s, ofApp.fryInOil s, ofApp.isPaused s,
   ofApp.dragPosition s).

(** The oil temperature after one step of exponential smoothing. *)
Definition smoothed (s : ofApp.t) : R :=
  ofClamp (ofApp.oilTemperature s
           + (ofApp.targetTemperature s - ofApp.oilTemperature s) * 0.05)
          160 190.

(** The fry as the drag override leaves it. *)
Definition held (pos : ofVec2f) (p : Potato.t) : Potato.t :=
  Potato.set_velocity (mkVec 0 0) (Potato.set_position pos p).

(** The fry after the fry part of a frame in oil of temperature [T]:
    physics, then the override when it is being dragged. *)
Definition fry_step (dt T : R) (s : ofApp.t) (fry : Potato.t) : Potato.t :=
  let fry1 :=
    Potato.update dt T (ofApp.oilTopY (ofApp.geom s))
      (0.915 - 0.00064 * (T - 20)) (ofApp.basketBottomY (ofApp.geom s))
      fry in
  match ofApp.currentDraggedFry s with
  | Some _ => held (ofApp.dragPosition s) fry1
  | None => fry1
  end.

(** Only the object [potatoFry] points to is live. *)
Definition single_fry (s : ofApp.t) : Prop :=
  forall a p, ofApp.heap s a = Some p -> ofApp.potatoFry s = Some a.

(** ** Reachable states and the bounded fields *)

(** A fry is within its domains, and not hotter than the oil while it is
    flagged as in oil. *)
Definition fry_ok (oilTemp : R) (p : Potato.t) : Prop :=
  fry_domain p /\
  (Potato.isInOil p = true -> Potato.temperature p <= oilTemp).

Definition app_inv (s : ofApp.t) : Prop :=
  160 <= ofApp.oilTemperature s <= 190 /\
  160 <= ofApp.targetTemperature s <= 190 /\
  0.003 <= ofApp.oilViscosity s <= 0.030 /\
  single_fry s /\
  (forall a, ofApp.potatoFry s = Some a -> ofApp.fryInOil s = true) /\
  (forall a p, ofApp.heap s a = Some p -> fry_ok (ofApp.oilTemperature s) p).

(** The states the application can be in: [setup], then any sequence of
    events whose handling is defined. *)
Inductive reachable : ofApp.t -> Prop :=
| reach_setup (w h : Z) : reachable (ofApp.setup w h)
| reach_step (s s' : ofApp.t) (e : ofApp.Event) :
    reachable s -> ofApp.handle e s = Some s' -> reachable s'.

(** Deleting the fry, as [keyPressed] does for the space bar and for
    reset. *)
Definition release (s : ofApp.t) : ofApp.t :=
  match ofApp.potatoFry s with
  | Some a => ofApp.set_potatoFry None (ofApp.delete a s)
  | None => s
  end.

(** ** Reset followed by one frame *)

Definition is_reset_key (key : ofApp.Key) : Prop :=
  key = ofApp.KeyChar "r" \/ key = ofApp.KeyChar "R".

Definition frame16 : ofApp.Frame := ofApp.mkFrame 0.016 0 (fun _ => 0).

(** ** Runs of the application with the fry held by the pointer *)

(** The fry [fry] lives at address 0 and is held at [pos] by the pointer;
    the layout is the one of a 1024 x 768 window. *)
Definition dragging (pos : ofVec2f) (s : ofApp.t) (fry : Potato.t) : Prop :=
  ofApp.isPaused s = false /\
  ofApp.potatoFry s = Some O /\
  ofApp.fryInOil s = true /\
  ofApp.currentDraggedFry s = Some O /\
  ofApp.dragPosition s = pos /\
  ofApp.geom s = ofApp.geom (ofApp.setup 1024 768) /\
  single_fry s /\
  ofApp.heap s O = Some fry.

Definition frame10 : ofApp.Frame := ofApp.mkFrame 0.1 0 (fun _ => 0).



(** Space bar, grabbing the fry where it appears, moving the pointer to
    85 units below the oil surface. *)
Definition grab_events : list ofApp.Event :=
  [ofApp.EKeyPressed (ofApp.KeyChar " ");
   ofApp.EMousePressed 512 235;
   ofApp.EMouseDragged 512 400].

Definition raw_fry : Potato.t :=
  Potato.set_velocity (mkVec 0 100)
    (Potato.new (mkVec (1024 / 2) (280 + 35 - 80)) (mkVec 120 20)).





(** ** Cookedness *)

(** Cookedness as a function of the fry temperature: zero up to 100
    degrees, a quadratic ramp between 100 and 170, one from 170 on. *)
Definition cooked_at (T : R) : R :=
  if T <=? 100 then 0
  else if T <? 170 then (T - 100) / 70 * ((T - 100) / 70)
  else 1.

(** The fry states the program can produce: a raw fry, external writes of
    position and velocity (spawn, drag override), and updates with a time
    step in [[0,0.1]] and oil between 160 and 190 degrees. *)
Inductive fry_reachable : Potato.t -> Prop :=
| fr_new (pos sz : ofVec2f) : fry_reachable (Potato.new pos sz)
| fr_position (pos : ofVec2f) (p : Potato.t) :
    fry_reachable p -> fry_reachable (Potato.set_position pos p)
| fr_velocity (vel : ofVec2f) (p : Potato.t) :
    fry_reachable p -> fry_reachable (Potato.set_velocity vel p)
| fr_update (dt oilTemp oilSurfaceY oilDensity basketBottomY : R)
    (p : Potato.t) :
    fry_reachable p ->
    0 <= dt <= 0.1 -> 160 <= oilTemp <= 190 ->
    fry_reachable
      (Potato.update dt oilTemp oilSurfaceY oilDensity basketBottomY p).

(** What every reachable fry satisfies. *)
Definition fry_sound (p : Potato.t) : Prop :=
  fry_domain p /\
  0 <= Potato.timeInOil p /\
  Potato.cookedness p = cooked_at (Potato.temperature p).

(** A fry that has been cooked for a while in oil of 170.2 degrees. *)
Definition cooked_fry : Potato.t :=
  {| Potato.position := mkVec 512 400;
     Potato.size := mkVec 120 20;
     Potato.velocity := mkVec 0 0;
     Potato.moistureContent := 0.01;
     Potato.temperature := 170.2;
     Potato.cookedness := 1;
     Potato.crustThickness := 1;
     Potato.density := 0.61;
     Potato.timeInOil := 120;
     Potato.isInOil := true;
     Potato.vigorousBubblingPhase := false;
     Potato.currentColor := rgb 190 150 80 |}.

(** ** Convergence of a fry held in oil of 180 degrees *)

(** One frame of the fry as [ofApp::update] runs it: [Potato::update],
    then the drag override when the fry is held at [pos]. *)
Definition fry_frame (oilTemp oilSurfaceY oilDensity basketBottomY : R)
    (f : R * option ofVec2f) (p : Potato.t) : Potato.t :=
  let q := Potato.update (fst f) oilTemp oilSurfaceY oilDensity
             basketBottomY p in
  match snd f with
  | Some pos => held pos q
  | None => q
  end.

Fixpoint fry_run (oilTemp oilSurfaceY oilDensity basketBottomY : R)
    (frames : list (R * option ofVec2f)) (p : Potato.t) : Potato.t :=
  match frames with
  | [] => p
  | f :: frames' =>
      fry_run oilTemp oilSurfaceY oilDensity basketBottomY frames'
        (fry_frame oilTemp oilSurfaceY oilDensity basketBottomY f p)
  end.




(** ** Further vocabulary

    Definitions for the properties of the remaining code: the random
    source, the state a bubble is constructed in, the invariants of the
    particle list and of the heap. *)

(** ** The random source

    The numbers behind [ofRandom] lie between 0 and 1. *)
Definition unit_draws (g : RNG) : Prop := forall n : nat, 0 <= g n <= 1.

(** The ranges [Bubble::Bubble] draws from, by bubble type; [ofRandom]
    orders its two bounds. *)
Definition type_ranges (b : Bubble.t) : Prop :=
  let vx := x (Bubble.velocity b) in
  let vy := y (Bubble.velocity b) in
  let s0 := Bubble.startSize b in
  let s1 := Bubble.endSize b in
  let L := Bubble.lifespan b in
  match Bubble.bubbleType b with
  | 0%Z =>
      -70 <= vx <= 70 /\ -200 <= vy <= -140 /\ 3 <= s0 <= 7 /\
      s0 * 0.15 <= s1 <= s0 * 0.35 /\ 0.4 <= L <= 0.9 /\
      Bubble.oscillationSpeed b = 0 /\ Bubble.maxTrailLength b = 3%Z
  | 1%Z =>
      -20 <= vx <= 20 /\ -220 <= vy <= -150 /\ 3 <= s0 <= 6 /\
      s0 * 1.8 <= s1 <= s0 * 2.8 /\ 0.7 <= L <= 1.4 /\
      Bubble.oscillationSpeed b = 0 /\ Bubble.maxTrailLength b = 6%Z
  | 2%Z =>
      -25 <= vx <= 25 /\ -130 <= vy <= -80 /\ 6 <= s0 <= 14 /\
      s0 * 0.9 <= s1 <= s0 * 1.3 /\ 1.2 <= L <= 2.5 /\
      14 <= Bubble.oscillationSpeed b <= 30 /\
      Bubble.maxTrailLength b = 8%Z
  | _ => False
  end.

(** The state every bubble is constructed in. *)
Definition fresh_bubble (pos : ofVec2f) (depth surfaceY : R)
    (b : Bubble.t) : Prop :=
  Bubble.position b = pos /\
  Bubble.oilSurfaceY b = surfaceY /\
  Bubble.initialDepth b = depth /\
  Bubble.acceleration b = mkVec 0 0 /\
  Bubble.size b = Bubble.startSize b /\
  Bubble.life b = 1 /\
  Bubble.oscillation b = 0 /\
  Bubble.isDead b = false /\
  Bubble.reachedSurface b = false /\
  Bubble.trail b = [] /\
  0 <= Bubble.wobblePhase b <= Bubble.TWO_PI.

(** The fields of a bubble that are fixed at construction. *)
Definition shape (b : Bubble.t) :=
  (Bubble.bubbleType b, Bubble.startSize b, Bubble.endSize b,
   Bubble.lifespan b, Bubble.oscillationSpeed b, Bubble.wobblePhase b,
   Bubble.maxTrailLength b, Bubble.initialDepth b, Bubble.oilSurfaceY b).

(** The trail holds at most [maxTrailLength] points. *)
Definition trail_bounded (b : Bubble.t) : Prop :=
  (Z.of_nat (length (Bubble.trail b)) <= Bubble.maxTrailLength b)%Z.


(** The clocks and the oil object of the simulation. *)
Definition clocks (s : ofApp.t) := (ofApp.oilSurface s, ofApp.elapsedTime s).

(** The walls of the oil container: [oilLeft] and [oilRight] of
    [ofApp::updatePhysics]. *)
Definition wall_left (s : ofApp.t) : R :=
  ofApp.fryerLeftX (ofApp.geom s) + 15.

Definition wall_right (s : ofApp.t) : R :=
  ofApp.fryerRightX (ofApp.geom s) - 15.


(** The part of the state that only [update] and the keys touch. *)
Definition scene (s : ofApp.t) :=
  (ofApp.geom s, ofApp.oilTemperature s, ofApp.targetTemperature s,
   ofApp.oilViscosity s, ofApp.oilSurface s, ofApp.elapsedTime s,
   ofApp.particles s, ofApp.isPaused s).

(** The settings of the thermostat: 160 to 190 degrees in steps of 5. *)
Definition thermostat_setting (T : R) : Prop :=
  exists k : Z, (0 <= k <= 6)%Z /\ T = 160 + 5 * IZR k.

(** The [Oil] object agrees with the fields of the application. *)
Definition oil_mirrored (s : ofApp.t) : Prop :=
  Oil.temperature (ofApp.oilSurface s) = ofApp.oilTemperature s /\
  Oil.surfaceY (ofApp.oilSurface s) = ofApp.oilTopY (ofApp.geom s) /\
  0 <= ofApp.elapsedTime s <= Oil.time (ofApp.oilSurface s).

(** Pausing, a number of frames, and resuming. *)
Definition paused_run (fs : list ofApp.Frame) : list ofApp.Event :=
  ofApp.EKeyPressed (ofApp.KeyChar "p")
  :: map ofApp.EUpdate fs ++ [ofApp.EKeyPressed (ofApp.KeyChar "P")].

(** The fry pointer is live, and every live object was allocated. *)
Definition heap_ok (s : ofApp.t) : Prop :=
  (forall a, ofApp.potatoFry s = Some a ->
             exists p, ofApp.heap s a = Some p) /\
  (forall a p, ofApp.heap s a = Some p -> (a < ofApp.nextAddr s)%nat).

(** The drag pointer is null or points to the present fry. *)
Definition drag_ok (s : ofApp.t) : Prop :=
  ofApp.currentDraggedFry s = None \/
  ofApp.currentDraggedFry s = ofApp.potatoFry s.

(** The space bar: drops a fry, or removes the one present. *)
Definition space : ofApp.Event := ofApp.EKeyPressed (ofApp.KeyChar " ").

(** Channel by channel comparison of two colours. *)
Definition color_le (c d : ofColor) : Prop :=
  cr c <= cr d /\ cg c <= cg d /\ cb c <= cb d /\ ca c <= ca d.

(** Names for the successive blocks of [Bubble::update]. *)
Ltac name_update_blocks now dt visc :=
  match goal with
  | |- context [Bubble.detectSurface ?b0] =>
      let b1 := fresh "b1" in
      let b2 := fresh "b2" in
      let b3 := fresh "b3" in
      let b4 := fresh "b4" in
      let b5 := fresh "b5" in
      set (b1 := Bubble.detectSurface b0);
      set (b2 := Bubble.move now dt visc b1);
      set (b3 := Bubble.resize dt b2);
      set (b4 := Bubble.updateTrail b3);
      set (b5 := Bubble.fade b4)
  end.

(** * Verification *)

(** ** Arithmetic helpers *)

Lemma fltb_true (a b : R) : a < b -> (a <? b) = true.
Proof. intros; fcmp; [reflexivity | lra]. Qed.

Lemma fltb_false (a b : R) : b <= a -> (a <? b) = false.
Proof. intros; fcmp; [lra | reflexivity]. Qed.

Lemma fgtb_true (a b : R) : b < a -> (a >? b) = true.
Proof. intros; fcmp; [reflexivity | lra]. Qed.

Lemma fgtb_false (a b : R) : a <= b -> (a >? b) = false.
Proof. intros; fcmp; [lra | reflexivity]. Qed.

Lemma fleb_true (a b : R) : a <= b -> (a <=? b) = true.
Proof. intros; fcmp; [reflexivity | lra]. Qed.

Lemma fleb_false (a b : R) : b < a -> (a <=? b) = false.
Proof. intros; fcmp; [lra | reflexivity]. Qed.

Lemma fgeb_true (a b : R) : b <= a -> (a >=? b) = true.
Proof. intros; fcmp; [reflexivity | lra]. Qed.

Lemma fgeb_false (a b : R) : a < b -> (a >=? b) = false.
Proof. intros; fcmp; [lra | reflexivity]. Qed.

Lemma ofClamp_bounds (v lo hi : R) :
  lo <= hi -> lo <= ofClamp v lo hi <= hi.
Proof. intros; unfold ofClamp; fcmp; lra. Qed.

Lemma ofClamp_id (v lo hi : R) : lo <= v <= hi -> ofClamp v lo hi = v.
Proof. intros; unfold ofClamp; fcmp; lra. Qed.

Lemma ofClamp_minmax (v lo hi : R) :
  lo <= hi -> ofClamp v lo hi = Rmax lo (Rmin hi v).
Proof.
  intros; unfold ofClamp, Rmin; fcmp; unfold Rmax; fcmp; lra.
Qed.

Lemma ofMap_clamped_bounds (v a b c d : R) :
  Rmin c d <= ofMap v a b c d true <= Rmax c d.
Proof.
  unfold ofMap, Rmin, Rmax; fcmp; lra.
Qed.

(** ** Oil viscosity *)

Lemma arrhenius_decreasing (T1 T2 : R) :
  0 <= T1 -> T1 < T2 -> arrhenius T2 < arrhenius T1.
Proof.
  intros H1 H2. unfold arrhenius; cbv zeta.
  apply Rmult_lt_compat_l; [lra|].
  apply exp_increasing.
  unfold Rdiv. apply Rmult_lt_compat_l; [lra|].
  apply Rinv_lt_contravar; [|lra].
  apply Rmult_lt_0_compat; lra.
Qed.

Lemma updateOilViscosity_spec (s : ofApp.t) :
  ofApp.oilViscosity (ofApp.updateOilViscosity s)
  = viscosity_spec (ofApp.oilTemperature s).
Proof.
  unfold ofApp.updateOilViscosity, viscosity_spec, arrhenius; cbn.
  rewrite ofClamp_minmax by lra.
  replace (1 / 100000) with 0.00001 by lra. reflexivity.
Qed.

(** C4. [updateOilViscosity] computes the Arrhenius form
    [A * exp ((Ea/R) / T_K)] with [T_K = temperature + 273.15], [A = 1e-5]
    and [Ea/R = 2500], clamped to [[0.003, 0.030]]; for [T1 < T2] in
    [[160, 190]] the viscosity at [T1] is at least the viscosity at [T2],
    and both lie in [[0.003, 0.030]]. *)
Theorem C4_viscosity_arrhenius_monotone (s1 s2 : ofApp.t) :
  160 <= ofApp.oilTemperature s1 ->
  ofApp.oilTemperature s1 < ofApp.oilTemperature s2 ->
  ofApp.oilTemperature s2 <= 190 ->
  let mu1 := ofApp.oilViscosity (ofApp.updateOilViscosity s1) in
  let mu2 := ofApp.oilViscosity (ofApp.updateOilViscosity s2) in
  mu1 = viscosity_spec (ofApp.oilTemperature s1) /\
  mu2 = viscosity_spec (ofApp.oilTemperature s2) /\
  mu1 >= mu2 /\
  0.003 <= mu1 <= 0.030 /\ 0.003 <= mu2 <= 0.030.
Proof.
  intros H1 H12 H2 mu1 mu2.
  assert (E1 : mu1 = viscosity_spec (ofApp.oilTemperature s1))
    by apply updateOilViscosity_spec.
  assert (E2 : mu2 = viscosity_spec (ofApp.oilTemperature s2))
    by apply updateOilViscosity_spec.
  assert (Hd : arrhenius (ofApp.oilTemperature s2)
               < arrhenius (ofApp.oilTemperature s1))
    by (apply arrhenius_decreasing; lra).
  clearbody mu1 mu2. subst mu1 mu2.
  unfold viscosity_spec, Rmin; fcmp; unfold Rmax; fcmp; repeat split; lra.
Qed.

Lemma C4_viscosity_witness :
  let s1 := ofApp.set_oilTemperature 160 (ofApp.setup 1024 768) in
  let s2 := ofApp.set_oilTemperature 190 (ofApp.setup 1024 768) in
  ofApp.oilViscosity (ofApp.updateOilViscosity s1)
  >= ofApp.oilViscosity (ofApp.updateOilViscosity s2).
Proof.
  intros s1 s2.
  apply (C4_viscosity_arrhenius_monotone s1 s2); simpl; lra.
Defined.

(** ** The bubble generation factor *)

Lemma timeBasedFactor_bounds (p : Potato.t) : 0 <= timeBasedFactor p <= 1.
Proof.
  unfold timeBasedFactor.
  destruct (Potato.timeInOil p <? 20);
    [|destruct (Potato.timeInOil p <? 90)];
    try lra.
  - pose proof (ofMap_clamped_bounds
                  (exp (- Potato.timeInOil p / 8)) 0 1 0 1) as H.
    rewrite Rmin_left, Rmax_right in H; lra.
  - pose proof (ofMap_clamped_bounds (Potato.timeInOil p) 20 90 1 0) as H.
    rewrite Rmin_right, Rmax_left in H; lra.
Qed.

Lemma moistureFactor_bounds (p : Potato.t) : 0 <= moistureFactor p <= 1.
Proof.
  unfold moistureFactor. fcmp; try lra.
  set (m := Potato.moistureContent p) in *. split; nra.
Qed.

Lemma tempDiffFactor_bounds (oilTemp : R) (p : Potato.t) :
  0.1 <= tempDiffFactor oilTemp p <= 1.
Proof.
  unfold tempDiffFactor.
  pose proof (ofMap_clamped_bounds
                (oilTemp - Potato.temperature p) 5 100 0.1 1) as H.
  rewrite Rmin_left, Rmax_right in H; lra.
Qed.

Lemma getBubbleGenerationFactor_unfold (oilTemp : R) (p : Potato.t) :
  Potato.getBubbleGenerationFactor oilTemp p =
  if negb (Potato.isInOil p) then 0
  else if Potato.moistureContent p <? 0.01 then 0
  else if oilTemp - Potato.temperature p <? 5 then 0
  else
    let baseFactor :=
      moistureFactor p * tempDiffFactor oilTemp p * timeBasedFactor p
      * (1 - 0.5 * Potato.crustThickness p) in
    if Potato.moistureContent p >? 0.01 then Rmax baseFactor 0.01
    else baseFactor.
Proof. reflexivity. Qed.

(** C5. [getBubbleGenerationFactor] returns 0 when the fry is not in oil,
    when its moisture is below 0.01 or when the oil is less than 5 degrees
    hotter than the fry; when none of these holds and the moisture is above
    0.01 the result is at least 0.01. *)
Theorem C5_bubble_factor_guards_and_floor (oilTemp : R) (p : Potato.t) :
  (Potato.isInOil p = false \/ Potato.moistureContent p < 0.01
   \/ oilTemp - Potato.temperature p < 5 ->
   Potato.getBubbleGenerationFactor oilTemp p = 0) /\
  (Potato.isInOil p = true -> Potato.moistureContent p > 0.01 ->
   ~ oilTemp - Potato.temperature p < 5 ->
   Potato.getBubbleGenerationFactor oilTemp p >= 0.01).
Proof.
  rewrite getBubbleGenerationFactor_unfold. split.
  - intros [H | [H | H]].
    + rewrite H; reflexivity.
    + destruct (negb (Potato.isInOil p)); [reflexivity|].
      now rewrite fltb_true.
    + destruct (negb (Potato.isInOil p)); [reflexivity|].
      destruct (Potato.moistureContent p <? 0.01); [reflexivity|].
      now rewrite fltb_true.
  - intros Hin Hm Hd. rewrite Hin; cbn [negb].
    rewrite fltb_false by lra. rewrite fltb_false by lra.
    cbv zeta. rewrite fgtb_true by lra.
    apply Rle_ge, Rmax_r.
Qed.

Lemma C5_bubble_factor_witness :
  let p := Potato.set_isInOil true (Potato.new (mkVec 0 0) (mkVec 120 20)) in
  Potato.getBubbleGenerationFactor 175 p >= 0.01.
Proof.
  intros p.
  apply (proj2 (C5_bubble_factor_guards_and_floor 175 p));
    simpl; [reflexivity | lra | lra].
Defined.

(** C10. For a fry whose crust thickness is in its domain [[0,1]], the
    bubble generation factor lies in [[0,1]] for every oil temperature:
    the moisture, temperature-difference and time factors and the crust
    damping are each between 0 and 1, and the floor 0.01 keeps the product
    in range. *)
Theorem C10_bubble_factor_range (oilTemp : R) (p : Potato.t) :
  0 <= Potato.crustThickness p <= 1 ->
  0 <= Potato.getBubbleGenerationFactor oilTemp p <= 1.
Proof.
  intros Hc. rewrite getBubbleGenerationFactor_unfold.
  destruct (negb (Potato.isInOil p)); [lra|].
  destruct (Potato.moistureContent p <? 0.01); [lra|].
  destruct (oilTemp - Potato.temperature p <? 5); [lra|].
  pose proof (timeBasedFactor_bounds p) as Ht.
  pose proof (moistureFactor_bounds p) as Hm.
  pose proof (tempDiffFactor_bounds oilTemp p) as Hd.
  cbv zeta.
  set (tf := timeBasedFactor p) in *. set (mf := moistureFactor p) in *.
  set (df := tempDiffFactor oilTemp p) in *.
  set (c := Potato.crustThickness p) in *.
  assert (H1 : 0 <= mf * df <= 1) by (split; nra).
  assert (H2 : 0 <= mf * df * tf <= 1) by (split; nra).
  assert (H3 : 0 <= mf * df * tf * (1 - 0.5 * c) <= 1) by (split; nra).
  destruct (Potato.moistureContent p >? 0.01); [|lra].
  unfold Rmax; fcmp; lra.
Qed.

Lemma C10_bubble_factor_range_witness :
  0 <= Potato.getBubbleGenerationFactor 175
         (Potato.set_isInOil true (Potato.new (mkVec 0 0) (mkVec 120 20)))
    <= 1.
Proof.
  apply C10_bubble_factor_range; simpl; lra.
Defined.

(** ** The airborne branch of the fry update *)

(** C9. When the fry is at or above the oil surface at the start of
    [update], the call changes only [isInOil], [velocity], [position] and
    the display colour: moisture, temperature, cookedness, crust thickness,
    density and time in oil (and size and the bubbling flag) are unchanged;
    the fry is marked out of oil, falls with 600 units/s^2 and moves by its
    velocity. *)
Theorem C9_airborne_update_frame
    (dt oilTemp oilSurfaceY oilDensity basketBottomY : R) (p : Potato.t) :
  y (Potato.position p) <= oilSurfaceY ->
  let q := Potato.update dt oilTemp oilSurfaceY oilDensity basketBottomY p in
  Potato.moistureContent q = Potato.moistureContent p /\
  Potato.temperature q = Potato.temperature p /\
  Potato.cookedness q = Potato.cookedness p /\
  Potato.crustThickness q = Potato.crustThickness p /\
  Potato.density q = Potato.density p /\
  Potato.timeInOil q = Potato.timeInOil p /\
  Potato.size q = Potato.size p /\
  Potato.vigorousBubblingPhase q = Potato.vigorousBubblingPhase p /\
  Potato.isInOil q = false /\
  Potato.velocity q =
    mkVec (x (Potato.velocity p)) (y (Potato.velocity p) + 600 * dt) /\
  Potato.position q =
    vadd (Potato.position p) (vscale (Potato.velocity q) dt).
Proof.
  intros Hy q. subst q. unfold Potato.update.
  rewrite fgtb_false by exact Hy. cbn. repeat split; reflexivity.
Qed.

Lemma C9_airborne_update_frame_witness :
  let p := Potato.new (mkVec 512 235) (mkVec 120 20) in
  Potato.temperature (Potato.update 0.016 175 315 0.8158 508.8 p)
  = Potato.temperature p.
Proof.
  intros p.
  apply (C9_airborne_update_frame 0.016 175 315 0.8158 508.8 p).
  simpl; lra.
Defined.

(** ** Bubbles *)

Lemma resize_core (dt : R) (b : Bubble.t) : core (Bubble.resize dt b) = core b.
Proof. unfold Bubble.resize; cbv zeta; split_ifs; reflexivity. Qed.

Lemma updateTrail_core (b : Bubble.t) : core (Bubble.updateTrail b) = core b.
Proof. unfold Bubble.updateTrail; cbv zeta; split_ifs; reflexivity. Qed.

Lemma fade_core (b : Bubble.t) : core (Bubble.fade b) = core b.
Proof. unfold Bubble.fade; cbv zeta; split_ifs; reflexivity. Qed.

Lemma core_eq (b c : Bubble.t) :
  core b = core c ->
  Bubble.life b = Bubble.life c /\
  Bubble.isDead b = Bubble.isDead c /\
  Bubble.reachedSurface b = Bubble.reachedSurface c /\
  Bubble.lifespan b = Bubble.lifespan c /\
  Bubble.oilSurfaceY b = Bubble.oilSurfaceY c /\
  Bubble.velocity b = Bubble.velocity c /\
  Bubble.acceleration b = Bubble.acceleration c /\
  Bubble.position b = Bubble.position c.
Proof. unfold core; intros H; injection H; intros; repeat split; assumption. Qed.

Section BubbleUpdate.

Variables now dt oilViscosity : R.
Variable b : Bubble.t.

(** The update of a bubble whose life is used up: it is marked dead and
    nothing else but [life] changes. *)
Lemma update_expired :
  Bubble.life b - dt / Bubble.lifespan b <= 0 ->
  Bubble.update now dt oilViscosity b
  = Bubble.set_isDead true
      (Bubble.set_life (Bubble.life b - dt / Bubble.lifespan b) b).
Proof.
  intros H. unfold Bubble.update. cbv zeta.
  change (Bubble.life (Bubble.set_life ?l b)) with l.
  rewrite fleb_true by exact H. reflexivity.
Qed.

(** The fields of a surviving bubble that carry its life cycle and its
    vertical motion. *)
Lemma update_alive :
  0 < Bubble.life b - dt / Bubble.lifespan b ->
  let life' := Bubble.life b - dt / Bubble.lifespan b in
  let arrives :=
    (y (Bubble.position b) <=? Bubble.oilSurfaceY b + 5)
    && negb (Bubble.reachedSurface b) in
  let b' := Bubble.update now dt oilViscosity b in
  Bubble.isDead b' = Bubble.isDead b /\
  Bubble.lifespan b' = Bubble.lifespan b /\
  Bubble.oilSurfaceY b' = Bubble.oilSurfaceY b /\
  Bubble.reachedSurface b' = (arrives || Bubble.reachedSurface b)%bool /\
  Bubble.life b' = (if arrives then Rmin life' 0.15 else life') /\
  Bubble.acceleration b' = vscale (mkVec
     (x (Bubble.acceleration b)
      + x (Bubble.velocity b) * -1 * oilViscosity * 20
      + sin (Bubble.wobblePhase b + now * 8) * 15 * dt)
     (y (Bubble.acceleration b)
      + y (Bubble.velocity b) * -1 * oilViscosity * 20)) 0 /\
  y (Bubble.velocity b') =
    y (Bubble.velocity b)
    + (y (Bubble.acceleration b)
       + y (Bubble.velocity b) * -1 * oilViscosity * 20) * dt /\
  y (Bubble.position b') =
    y (Bubble.position b) + y (Bubble.velocity b') * dt.
Proof.
  intros H life' arrives b'. subst b'. unfold Bubble.update. cbv zeta.
  change (Bubble.life (Bubble.set_life ?l b)) with l.
  rewrite fleb_false by exact H.
  fold life'.
  set (b2 := Bubble.move now dt oilViscosity _).
  destruct (core_eq _ _ (fade_core (Bubble.updateTrail (Bubble.resize dt b2))))
    as (Fl & Fd & Fr & FL & Fs & Fv & Fa & Fp).
  destruct (core_eq _ _ (updateTrail_core (Bubble.resize dt b2)))
    as (Tl & Td & Tr & TL & Ts & Tv & Ta & Tp).
  destruct (core_eq _ _ (resize_core dt b2))
    as (Rl & Rd & Rr & RL & Rs & Rv & Ra & Rp).
  set (b5 := Bubble.fade (Bubble.updateTrail (Bubble.resize dt b2))) in *.
  cbn [Bubble.set_acceleration Bubble.life Bubble.isDead
    Bubble.reachedSurface Bubble.lifespan Bubble.oilSurfaceY
    Bubble.velocity Bubble.acceleration Bubble.position].
  rewrite Fl, Fd, Fr, FL, Fs, Fv, Fa, Fp, Tl, Td, Tr, TL, Ts, Tv, Ta,
    Tp, Rl, Rd, Rr, RL, Rs, Rv, Ra, Rp.
  clear. subst b2.
  change (Bubble.detectSurface (Bubble.set_life life' b))
    with (if arrives
          then Bubble.set_life (Rmin life' 0.15)
                 (Bubble.set_reachedSurface true (Bubble.set_life life' b))
          else Bubble.set_life life' b).
  clearbody life'. subst arrives.
  destruct (_ && _)%bool; cbn; repeat split; reflexivity.
Qed.

End BubbleUpdate.

Lemma updateParticle_fields (now dt visc oilLeft oilRight : R)
    (p : Bubble.t) :
  let q := Bubble.update now dt visc p in
  let r := ofApp.updateParticle now dt visc oilLeft oilRight p in
  Bubble.life r = Bubble.life q /\
  Bubble.isDead r = Bubble.isDead q /\
  Bubble.reachedSurface r = Bubble.reachedSurface q /\
  Bubble.lifespan r = Bubble.lifespan q /\
  Bubble.oilSurfaceY r = Bubble.oilSurfaceY q /\
  Bubble.velocity r = Bubble.velocity q /\
  Bubble.acceleration r = Bubble.acceleration q /\
  y (Bubble.position r) = y (Bubble.position q).
Proof.
  intros q r. subst r. unfold ofApp.updateParticle. fold q.
  split_ifs; cbn; repeat split; reflexivity.
Qed.

Lemma sum_dt_nonneg (frames : list (R * R * R)) :
  Forall (fun f => 0 <= frame_dt f) frames -> 0 <= sum_dt frames.
Proof.
  induction 1 as [|f fs Hf _ IH].
  - cbn; lra.
  - change (sum_dt (f :: fs)) with (frame_dt f + sum_dt fs). lra.
Qed.

Lemma Rdiv_le_0_iff (a l d : R) : 0 < l -> (a - d / l <= 0 <-> a * l <= d).
Proof.
  intros Hl. unfold Rdiv.
  assert (Hi : 0 < / l) by now apply Rinv_0_lt_compat.
  assert (E : a - d * / l = (a * l - d) * / l) by (field; lra).
  rewrite E. split; intros H.
  - assert (a * l - d <= 0); [|lra].
    apply Rmult_le_reg_r with (/ l); [assumption|]. lra.
  - assert ((a * l - d) * / l <= 0 * / l); [|lra].
    apply Rmult_le_compat_r; lra.
Qed.

(** Without surface contact a live particle stays in the list exactly as
    long as the accumulated time is below [life * lifespan]; its life is
    then reduced by the accumulated time over the lifespan. *)
Lemma lifecycle_without_contact (oilLeft oilRight : R)
    (frames : list (R * R * R)) :
  Forall (fun f => 0 <= frame_dt f) frames ->
  forall p : Bubble.t,
  0 < Bubble.lifespan p ->
  0 < Bubble.life p ->
  Bubble.isDead p = false ->
  no_contact oilLeft oilRight frames p ->
  (sum_dt frames < Bubble.life p * Bubble.lifespan p ->
   exists q, lifecycle oilLeft oilRight frames p = Some q /\
     Bubble.life q = Bubble.life p - sum_dt frames / Bubble.lifespan p /\
     Bubble.lifespan q = Bubble.lifespan p /\
     Bubble.reachedSurface q = Bubble.reachedSurface p /\
     Bubble.oilSurfaceY q = Bubble.oilSurfaceY p /\
     Bubble.isDead q = false) /\
  (Bubble.life p * Bubble.lifespan p <= sum_dt frames ->
   lifecycle oilLeft oilRight frames p = None).
Proof.
  induction 1 as [|[[now dt] visc] fs Hdt Hfs IH]; intros p HL Hlife Hd Hnc.
  - cbn. split.
    + intros _. exists p. repeat split; try assumption.
      unfold Rdiv; lra.
    + intros H. nra.
  - cbn [sum_dt fold_right frame_dt fst snd] in *.
    fold (sum_dt fs) in *.
    pose proof (sum_dt_nonneg fs Hfs) as Hs.
    destruct Hnc as [Hy Hnc]. cbn [lifecycle].
    pose proof (updateParticle_fields now dt visc oilLeft oilRight p) as U.
    cbv zeta in U, Hnc.
    set (r := ofApp.updateParticle now dt visc oilLeft oilRight p) in *.
    destruct U as (Ul & Ud & Ur & ULs & Us & _).
    destruct (Rle_dec (Bubble.life p - dt / Bubble.lifespan p) 0)
      as [Hexp|Halive].
    + (* the life is used up in this frame *)
      rewrite (update_expired now dt visc p Hexp) in Ud. cbn in Ud.
      rewrite Ud. apply Rdiv_le_0_iff in Hexp; [|assumption].
      split; [intros; lra | reflexivity].
    + apply Rnot_le_lt in Halive.
      destruct (update_alive now dt visc p Halive)
        as (Ad & ALs & As & Ar & Al & _).
      rewrite fleb_false in Ar, Al by lra. cbn in Ar, Al.
      rewrite Ad, Hd in Ud. rewrite Ud in *.
      assert (Hn : ~ Bubble.life p - dt / Bubble.lifespan p <= 0) by lra.
      rewrite Rdiv_le_0_iff in Hn by assumption.
      destruct (IH r) as [IH1 IH2];
        [lra | lra | assumption | assumption |].
      rewrite Ul, Al, ULs, ALs in IH1, IH2.
      assert (E : (Bubble.life p - dt / Bubble.lifespan p)
                  * Bubble.lifespan p
                  = Bubble.life p * Bubble.lifespan p - dt)
        by (field; lra).
      rewrite E in IH1, IH2.
      split.
      * intros Hlt. destruct IH1 as (q & Hq & Hql & HqL & Hqr & Hqs & Hqd);
          [lra|].
        exists q. repeat split; try assumption.
        -- rewrite Hql. field; lra.
        -- now rewrite Hqr, Ur, Ar.
        -- now rewrite Hqs, Us, As.
      * intros Hge. apply IH2; lra.
Qed.

Lemma update_life_decreases (now dt visc : R) (b : Bubble.t) :
  0 < Bubble.lifespan b -> 0 < dt ->
  Bubble.life (Bubble.update now dt visc b) < Bubble.life b.
Proof.
  intros HL Hdt.
  assert (Hq : 0 < dt / Bubble.lifespan b)
    by (apply Rdiv_lt_0_compat; assumption).
  destruct (Rle_dec (Bubble.life b - dt / Bubble.lifespan b) 0) as [He|Ha].
  - rewrite (update_expired now dt visc b He). cbn. lra.
  - apply Rnot_le_lt in Ha.
    destruct (update_alive now dt visc b Ha) as (_ & _ & _ & _ & Al & _).
    rewrite Al. destruct (_ && _)%bool; [|lra].
    pose proof (Rmin_l (Bubble.life b - dt / Bubble.lifespan b) 0.15). lra.
Qed.

Lemma update_keeps_reachedSurface (now dt visc : R) (b : Bubble.t) :
  Bubble.reachedSurface b = true ->
  Bubble.reachedSurface (Bubble.update now dt visc b) = true.
Proof.
  intros Hr.
  destruct (Rle_dec (Bubble.life b - dt / Bubble.lifespan b) 0) as [He|Ha].
  - rewrite (update_expired now dt visc b He). exact Hr.
  - apply Rnot_le_lt in Ha.
    destruct (update_alive now dt visc b Ha) as (_ & _ & _ & Ar & _).
    rewrite Ar, Hr. apply orb_true_r.
Qed.

Lemma sum_dt_removelast_nonneg (frames : list (R * R * R)) :
  Forall (fun f => 0 <= frame_dt f) frames ->
  0 <= sum_dt (removelast frames).
Proof.
  intros H. apply sum_dt_nonneg. apply Forall_forall. intros f Hf.
  rewrite Forall_forall in H. apply H.
  destruct frames as [|f0 fs]; [contradiction|].
  rewrite (app_removelast_last f0 (l := f0 :: fs)) by discriminate.
  apply in_or_app. now left.
Qed.

(** A particle that starts deep enough for its speed stays more than 5
    units below the surface up to and including the last frame's test:
    drag only slows it down. *)
Lemma no_contact_by_speed (oilLeft oilRight : R)
    (frames : list (R * R * R)) :
  Forall (fun f => 0 <= frame_dt f /\ 0 <= snd f * 20 * frame_dt f <= 1)
         frames ->
  forall (p : Bubble.t) (V : R),
  y (Bubble.acceleration p) = 0 ->
  - V <= y (Bubble.velocity p) <= V ->
  Bubble.oilSurfaceY p + 5
    < y (Bubble.position p) - V * sum_dt (removelast frames) ->
  no_contact oilLeft oilRight frames p.
Proof.
  induction 1 as [|[[now dt] visc] fs [Hdt Hk] Hfs IH]; intros p V Ha Hv Hy.
  - exact I.
  - assert (HV : 0 <= V) by lra.
    assert (Hs : 0 <= sum_dt (removelast fs)).
    { apply sum_dt_removelast_nonneg. eapply Forall_impl; [|exact Hfs].
      intros f [Hf _]; exact Hf. }
    cbn [frame_dt fst snd] in *.
    assert (Hy0 : Bubble.oilSurfaceY p + 5 < y (Bubble.position p)).
    { destruct fs; [cbn in Hy; lra|].
      change (removelast ((now, dt, visc) :: p0 :: fs))
        with ((now, dt, visc) :: removelast (p0 :: fs)) in Hy.
      change (sum_dt ((now, dt, visc) :: removelast (p0 :: fs)))
        with (dt + sum_dt (removelast (p0 :: fs))) in Hy.
      nra. }
    cbn [no_contact]. split; [lra|]. cbv zeta.
    pose proof (updateParticle_fields now dt visc oilLeft oilRight p) as U.
    cbv zeta in U.
    set (r := ofApp.updateParticle now dt visc oilLeft oilRight p) in *.
    destruct U as (_ & Ud & _ & _ & Us & Uv & Ua & Uy).
    destruct (Bubble.isDead r) eqn:Hdead; [exact I|].
    destruct fs as [|f2 fs']; [exact I|].
    change (removelast ((now, dt, visc) :: f2 :: fs'))
      with ((now, dt, visc) :: removelast (f2 :: fs')) in Hy.
    change (sum_dt ((now, dt, visc) :: removelast (f2 :: fs')))
      with (dt + sum_dt (removelast (f2 :: fs'))) in Hy.
    set (fs := f2 :: fs') in *.
    destruct (Rle_dec (Bubble.life p - dt / Bubble.lifespan p) 0)
      as [Hexp|Halive].
    + rewrite (update_expired now dt visc p Hexp) in Ud. cbn in Ud.
      congruence.
    + apply Rnot_le_lt in Halive.
      destruct (update_alive now dt visc p Halive)
        as (_ & _ & As & _ & _ & Aa & Av & Ay).
      rewrite Ha in Av.
      assert (Ev : y (Bubble.velocity r)
                   = y (Bubble.velocity p) * (1 - visc * 20 * dt))
        by (rewrite Uv, Av; ring).
      assert (Hb : - V <= y (Bubble.velocity r) <= V)
        by (rewrite Ev; split; nra).
      apply (IH r V).
      * rewrite Ua, Aa. cbn. ring.
      * exact Hb.
      * rewrite Us, As, Uy, Ay, <- Uv.
        assert (- V * dt <= y (Bubble.velocity r) * dt) by nra.
        nra.
Qed.

Lemma sum_dt_tenth_frames (n : nat) : sum_dt (tenth_frames n) = INR n * 0.1.
Proof.
  induction n as [|n IH].
  - cbn. lra.
  - change (sum_dt (tenth_frames (S n))) with (0.1 + sum_dt (tenth_frames n)).
    rewrite IH, S_INR. lra.
Qed.

Lemma tenth_frames_valid (n : nat) :
  Forall (fun f => 0 <= frame_dt f /\ 0 <= snd f * 20 * frame_dt f <= 1)
         (tenth_frames n).
Proof.
  apply Forall_forall. intros f Hf. apply repeat_spec in Hf. subst f.
  cbn. lra.
Qed.

Lemma tenth_frames_nonneg (n : nat) :
  Forall (fun f => 0 <= frame_dt f) (tenth_frames n).
Proof.
  eapply Forall_impl; [|apply tenth_frames_valid]. intros f [H _]; exact H.
Qed.

Lemma removelast_tenth_frames (n : nat) :
  removelast (tenth_frames (S n)) = tenth_frames n.
Proof.
  induction n as [|n IH]; [reflexivity|].
  change (tenth_frames (S (S n)))
    with ((0, 0.1, 0.003) :: tenth_frames (S n)).
  change (tenth_frames (S n)) with ((0, 0.1, 0.003) :: tenth_frames n) at 1.
  change (removelast ((0, 0.1, 0.003) :: (0, 0.1, 0.003) :: tenth_frames n))
    with ((0, 0.1, 0.003)
            :: removelast ((0, 0.1, 0.003) :: tenth_frames n)).
  change ((0, 0.1, 0.003) :: tenth_frames n) with (tenth_frames (S n)).
  now rewrite IH.
Qed.

(** A rising particle that survives [n] frames of 0.1 s has climbed at
    least its slowest speed times the elapsed time. *)
Lemma rise_bound (oilLeft oilRight : R) (n : nat) :
  forall (p q : Bubble.t) (W : R),
  0 <= W ->
  y (Bubble.acceleration p) = 0 ->
  y (Bubble.velocity p) <= - W ->
  lifecycle oilLeft oilRight (tenth_frames n) p = Some q ->
  y (Bubble.position q)
    <= y (Bubble.position p) - W * 0.994 ^ n * (0.1 * INR n).
Proof.
  induction n as [|n IH]; intros p q W HW Ha Hv Hq.
  - cbn in Hq. injection Hq as <-. cbn [INR]. lra.
  - change (tenth_frames (S n)) with ((0, 0.1, 0.003) :: tenth_frames n)
      in Hq.
    cbn [lifecycle] in Hq. cbv zeta in Hq.
    pose proof (updateParticle_fields 0 0.1 0.003 oilLeft oilRight p) as U.
    cbv zeta in U.
    set (r := ofApp.updateParticle 0 0.1 0.003 oilLeft oilRight p) in *.
    destruct U as (_ & Ud & _ & _ & _ & Uv & Ua & Uy).
    destruct (Bubble.isDead r) eqn:Hdead; [discriminate|].
    destruct (Rle_dec (Bubble.life p - 0.1 / Bubble.lifespan p) 0)
      as [Hexp|Halive].
    + rewrite (update_expired 0 0.1 0.003 p Hexp) in Ud. cbn in Ud.
      congruence.
    + apply Rnot_le_lt in Halive.
      destruct (update_alive 0 0.1 0.003 p Halive)
        as (_ & _ & _ & _ & _ & Aa & Av & Ay).
      rewrite Ha in Av.
      assert (Ev : y (Bubble.velocity r) = y (Bubble.velocity p) * 0.994)
        by (rewrite Uv, Av; lra).
      assert (HW' : 0 <= W * 0.994) by lra.
      assert (Hr : y (Bubble.position q)
                   <= y (Bubble.position r)
                      - W * 0.994 * 0.994 ^ n * (0.1 * INR n)).
      { apply (IH r q (W * 0.994) HW'); [|lra|exact Hq].
        rewrite Ua, Aa. cbn. ring. }
      rewrite Uy, Ay, <- Uv, Ev in Hr.
      assert (Hp : 0 <= 0.994 ^ n <= 1).
      { split; [apply pow_le; lra|].
        rewrite <- (pow1 n). apply pow_incr. lra. }
      rewrite S_INR. cbn [pow].
      assert (Hm : W * 0.994 * 0.994 ^ n <= W * 0.994)
        by (rewrite <- (Rmult_1_r (W * 0.994)) at 2;
            apply Rmult_le_compat_l; lra).
      lra.
Qed.

(** The fields of the spawned bubble that its life cycle depends on. *)
Lemma spawned_bubble_fields (depth : R) :
  3.75 <= depth ->
  let b := spawned_bubble depth in
  Bubble.position b = mkVec 500 (315 + depth) /\
  y (Bubble.velocity b) = -100 /\
  Bubble.acceleration b = mkVec 0 0 /\
  Bubble.lifespan b = 1.25 /\
  Bubble.life b = 1 /\
  Bubble.isDead b = false /\
  Bubble.reachedSurface b = false /\
  Bubble.oilSurfaceY b = 315.
Proof.
  intros Hd b.
  assert (E : exists vx s0 s1 o w c,
             b = Bubble.mk (mkVec 500 (315 + depth))
                   (mkVec vx (-130 + (-80 - -130) * 0.6))
                   (mkVec 0 0) s0 s1 s0 (1.2 + (2.5 - 1.2) * / 26) 1 0 o w
                   315 depth 2 false false c [] 8).
  { subst b. unfold spawned_bubble, Bubble.new, bind, ofRandom2, draw, ret.
    cbn -[Rmin Rmax ofMap truncZ Bubble.TWO_PI fltb Z.eqb]. eval_minmax.
    replace (2.5 + (7.0 - 2.5) * 0) with 2.5 by lra.
    rewrite (fltb_false (depth / 2.5) 0.5) by lra.
    rewrite (fltb_false (depth / 2.5) 1.5) by lra.
    cbn -[Rmin Rmax ofMap truncZ Bubble.TWO_PI]. eval_minmax.
    do 6 eexists. reflexivity. }
  destruct E as (vx & s0 & s1 & o & w & c & ->). cbn.
  repeat split; try reflexivity; lra.
Qed.

Lemma spawned_bubble_no_contact (depth : R) (n : nat) :
  3.75 <= depth ->
  5 + 10 * INR n < depth ->
  no_contact 271 753 (tenth_frames (S n)) (spawned_bubble depth).
Proof.
  intros Hd Hn.
  destruct (spawned_bubble_fields depth Hd)
    as (Hp & Hv & Ha & _ & _ & _ & _ & Hs).
  apply (no_contact_by_speed 271 753 _ (tenth_frames_valid (S n))
           (spawned_bubble depth) 100).
  - now rewrite Ha.
  - rewrite Hv. lra.
  - rewrite removelast_tenth_frames, sum_dt_tenth_frames, Hp, Hs.
    cbn [y]. lra.
Qed.

Lemma deep_bubble_no_contact (n : nat) :
  (n <= 13)%nat -> no_contact 271 753 (tenth_frames n) deep_bubble.
Proof.
  intros Hn. destruct n as [|n]; [exact I|].
  apply spawned_bubble_no_contact; [lra|].
  assert (H : (n <= 12)%nat) by lia. apply le_INR in H.
  replace (INR 12) with 12 in H by (simpl; lra). lra.
Qed.

Lemma deep_bubble_fields :
  Bubble.lifespan deep_bubble = 1.25 /\ Bubble.life deep_bubble = 1 /\
  Bubble.isDead deep_bubble = false.
Proof.
  destruct (spawned_bubble_fields 200 ltac:(lra))
    as (_ & _ & _ & HL & Hl & Hd & _).
  now repeat split.
Qed.

(** C8 (amended). Once [reachedSurface] is true it stays true under any
    further updates.  On an update that finds the bubble within 5 units of
    the surface with the flag unset, the flag is set and the remaining life
    is capped at 0.15 provided the bubble survives the life decrement of
    that update; if the decrement uses up its life the bubble is marked dead
    by the early return and the flag stays unset. *)
Theorem C8_reached_surface_one_way (now dt visc : R) (b : Bubble.t) :
  (forall frames, Bubble.reachedSurface b = true ->
     Bubble.reachedSurface (updates frames b) = true) /\
  (y (Bubble.position b) <= Bubble.oilSurfaceY b + 5 ->
   Bubble.reachedSurface b = false ->
   0 < Bubble.life b - dt / Bubble.lifespan b ->
   let b' := Bubble.update now dt visc b in
   Bubble.reachedSurface b' = true /\ Bubble.life b' <= 0.15 /\
   Bubble.isDead b' = Bubble.isDead b) /\
  (y (Bubble.position b) <= Bubble.oilSurfaceY b + 5 ->
   Bubble.reachedSurface b = false ->
   Bubble.life b - dt / Bubble.lifespan b <= 0 ->
   let b' := Bubble.update now dt visc b in
   Bubble.isDead b' = true /\ Bubble.reachedSurface b' = false).
Proof.
  split; [|split].
  - intros frames. revert b.
    induction frames as [|[[n d] v] fs IH]; intros b0 Hr; cbn.
    + exact Hr.
    + apply IH. now apply update_keeps_reachedSurface.
  - intros Hy Hr Ha b'. subst b'.
    destruct (update_alive now dt visc b Ha) as (Ad & _ & _ & Ar & Al & _).
    rewrite fleb_true in Ar, Al by exact Hy.
    rewrite Hr in Ar, Al. cbn in Ar, Al.
    repeat split; try assumption.
    rewrite Al. apply Rmin_r.
  - intros Hy Hr He b'. subst b'.
    rewrite (update_expired now dt visc b He). cbn. now split.
Qed.

Lemma C8_reached_surface_witness :
  let b := Bubble.set_life 1 late_bubble in
  let b' := Bubble.update 0 0.1 0.003 b in
  Bubble.reachedSurface b' = true /\ Bubble.life b' <= 0.15 /\
  Bubble.isDead b' = Bubble.isDead b.
Proof.
  intros b.
  apply (proj1 (proj2 (C8_reached_surface_one_way 0 0.1 0.003 b)));
    cbn; [lra | reflexivity | lra].
Defined.

(** C8, as stated, fails: the bubble is within 5 units of the surface for
    the first time, but the update uses up its life, returns early and
    leaves [reachedSurface] unset.  First on a bubble written out field by
    field; then on the bubble that [Bubble::Bubble] builds 116 units below
    the surface, which after 12 frames of 0.1 s is in that situation. *)
Lemma C8_counterexample :
  (y (Bubble.position late_bubble) <= Bubble.oilSurfaceY late_bubble + 5 /\
   Bubble.reachedSurface late_bubble = false /\
   Bubble.isDead late_bubble = false /\
   0 < Bubble.life late_bubble /\
   Bubble.reachedSurface (Bubble.update 0 0.1 0.003 late_bubble) = false /\
   Bubble.isDead (Bubble.update 0 0.1 0.003 late_bubble) = true) /\
  (exists b,
     lifecycle 271 753 (tenth_frames 12) (spawned_bubble 116) = Some b /\
     no_contact 271 753 (tenth_frames 12) (spawned_bubble 116) /\
     y (Bubble.position b) <= Bubble.oilSurfaceY b + 5 /\
     Bubble.reachedSurface b = false /\
     Bubble.isDead b = false /\
     0 < Bubble.life b /\
     Bubble.reachedSurface (Bubble.update 0 0.1 0.003 b) = false /\
     Bubble.isDead (Bubble.update 0 0.1 0.003 b) = true).
Proof.
  split.
  - assert (E : Bubble.life late_bubble - 0.1 / Bubble.lifespan late_bubble
                <= 0) by (cbn; lra).
    rewrite (update_expired 0 0.1 0.003 late_bubble E).
    cbn. repeat split; try reflexivity; lra.
  - assert (S12 : sum_dt (tenth_frames 12) = 1.2)
      by (rewrite sum_dt_tenth_frames; simpl; lra).
    destruct (spawned_bubble_fields 116 ltac:(lra))
      as (Hp & Hv & Ha & HL & Hl & Hd & Hr & Hs).
    assert (Hnc : no_contact 271 753 (tenth_frames 12) (spawned_bubble 116)).
    { apply spawned_bubble_no_contact; [lra|]. simpl; lra. }
    destruct (lifecycle_without_contact 271 753 (tenth_frames 12)
                (tenth_frames_nonneg 12) (spawned_bubble 116)) as [H _];
      [rewrite HL; lra | rewrite Hl; lra | exact Hd | exact Hnc |].
    destruct H as (b & Hb & Hbl & HbL & Hbr & Hbs & Hbd);
      [rewrite Hl, HL, S12; lra|].
    rewrite Hl, HL, S12 in Hbl. rewrite HL in HbL. rewrite Hr in Hbr.
    rewrite Hs in Hbs.
    assert (Hy : y (Bubble.position b)
                 <= y (Bubble.position (spawned_bubble 116))
                    - 100 * 0.994 ^ 12 * (0.1 * INR 12)).
    { apply (rise_bound 271 753 12 (spawned_bubble 116) b 100);
        [lra | now rewrite Ha | rewrite Hv; lra | exact Hb]. }
    rewrite Hp in Hy. cbn [y] in Hy.
    assert (E : Bubble.life b - 0.1 / Bubble.lifespan b <= 0)
      by (rewrite Hbl, HbL; lra).
    exists b. rewrite (update_expired 0 0.1 0.003 b E).
    cbn [Bubble.set_isDead Bubble.set_life Bubble.reachedSurface
           Bubble.isDead].
    split; [exact Hb|]. split; [exact Hnc|]. split; [|split; [exact Hbr|]].
    + rewrite Hbs. simpl in Hy. lra.
    + split; [exact Hbd|]. split; [rewrite Hbl; lra|].
      split; [exact Hbr | reflexivity].
Qed.

(** C7 (amended). On every update with a positive time step the life of a
    bubble strictly decreases.  A fresh bubble of lifespan [L] that never
    comes within 5 units of the surface is removed in the first frame at
    which the accumulated time step reaches or exceeds [L]: it is gone
    after a run of frames exactly when [L <= sum_dt frames], and while it
    is present its life is [1 - sum_dt frames / L]. *)
Theorem C7_bubble_life_cycle (oilLeft oilRight : R)
    (frames : list (R * R * R)) (p : Bubble.t) :
  Forall (fun f => 0 <= frame_dt f) frames ->
  0 < Bubble.lifespan p ->
  Bubble.life p = 1 ->
  Bubble.isDead p = false ->
  no_contact oilLeft oilRight frames p ->
  (forall now dt visc b, 0 < Bubble.lifespan b -> 0 < dt ->
     Bubble.life (Bubble.update now dt visc b) < Bubble.life b) /\
  (lifecycle oilLeft oilRight frames p = None
   <-> Bubble.lifespan p <= sum_dt frames) /\
  (forall q, lifecycle oilLeft oilRight frames p = Some q ->
     Bubble.life q = 1 - sum_dt frames / Bubble.lifespan p).
Proof.
  intros Hdt HL Hlife Hd Hnc.
  destruct (lifecycle_without_contact oilLeft oilRight frames Hdt p HL
              ltac:(lra) Hd Hnc) as [H1 H2].
  rewrite Hlife, Rmult_1_l in H1, H2.
  split; [|split].
  - intros; now apply update_life_decreases.
  - split.
    + intros Hnone.
      destruct (Rle_dec (Bubble.lifespan p) (sum_dt frames)) as [|Hn];
        [assumption|].
      destruct H1 as (q & Hq & _); [lra|]. congruence.
    + exact H2.
  - intros q Hq.
    destruct (Rle_dec (Bubble.lifespan p) (sum_dt frames)) as [Hle|Hn].
    + rewrite (H2 Hle) in Hq. discriminate.
    + destruct H1 as (q' & Hq' & Hl & _); [lra|]. congruence.
Qed.

Lemma C7_bubble_life_cycle_witness :
  lifecycle 271 753 (tenth_frames 13) deep_bubble = None
  <-> Bubble.lifespan deep_bubble <= sum_dt (tenth_frames 13).
Proof.
  destruct deep_bubble_fields as (HL & Hl & Hd).
  apply (C7_bubble_life_cycle 271 753 (tenth_frames 13) deep_bubble).
  - apply tenth_frames_nonneg.
  - rewrite HL; lra.
  - exact Hl.
  - exact Hd.
  - apply deep_bubble_no_contact; lia.
Defined.

(** C7, as stated, fails: the bubble has lifespan 1.25 and never comes near
    the surface; with frames of 0.1 s it is still present after 12 frames
    (1.2 s) and is removed in the 13th, after 1.3 s, not after 1.25 s. *)
Lemma C7_counterexample :
  Bubble.lifespan deep_bubble = 1.25 /\
  no_contact 271 753 (tenth_frames 13) deep_bubble /\
  lifecycle 271 753 (tenth_frames 12) deep_bubble <> None /\
  lifecycle 271 753 (tenth_frames 13) deep_bubble = None /\
  sum_dt (tenth_frames 12) < 1.25 < sum_dt (tenth_frames 13).
Proof.
  assert (S12 : sum_dt (tenth_frames 12) = 1.2)
    by (rewrite sum_dt_tenth_frames; simpl; lra).
  assert (S13 : sum_dt (tenth_frames 13) = 1.3)
    by (rewrite sum_dt_tenth_frames; simpl; lra).
  destruct deep_bubble_fields as (L & Hl & Hd).
  split; [exact L|]. split; [apply deep_bubble_no_contact; lia|].
  split; [|split].
  - destruct (lifecycle_without_contact 271 753 (tenth_frames 12)
                (tenth_frames_nonneg 12) deep_bubble) as [H _];
      [rewrite L; lra | rewrite Hl; lra | exact Hd
      | apply deep_bubble_no_contact; lia |].
    destruct H as (q & Hq & _); [rewrite Hl, L, S12; lra|].
    congruence.
  - destruct (lifecycle_without_contact 271 753 (tenth_frames 13)
                (tenth_frames_nonneg 13) deep_bubble) as [_ H];
      [rewrite L; lra | rewrite Hl; lra | exact Hd
      | apply deep_bubble_no_contact; lia |].
    apply H. rewrite Hl, L, S13. lra.
  - rewrite S12, S13. lra.
Qed.

(** ** The thermal model of the fry *)

Lemma cook_fields (dt oilTemp : R) (p : Potato.t) :
  let q := Potato.cook dt oilTemp p in
  Potato.timeInOil q = cook_time dt p /\
  Potato.isInOil q = true /\
  Potato.vigorousBubblingPhase q = (cook_time dt p <? 20) /\
  Potato.moistureContent q = cook_moisture dt p /\
  Potato.density q = cook_density dt p /\
  Potato.crustThickness q = cook_crust dt p /\
  Potato.temperature q = cook_temperature dt oilTemp p /\
  Potato.cookedness q = cook_cookedness dt oilTemp p /\
  Potato.position q = Potato.position p /\
  Potato.velocity q = Potato.velocity p /\
  Potato.size q = Potato.size p.
Proof.
  unfold cook_cookedness, cook_temperature, cook_coeff, cook_crust,
    cook_density, cook_moisture, cook_time.
  destruct p as [pos sz vel m T k c d t inOil vig col].
  destruct inOil; potato_red;
    destruct (T >? 100) eqn:HT; potato_red;
    destruct (_ <? 20) eqn:H20; potato_red;
    match goal with
    | |- context [(?a >? 100) && (?a <? 170)] =>
        destruct ((a >? 100) && (a <? 170))%bool eqn:Hk;
        [|destruct (a >=? 170) eqn:Hk']
    end; repeat split; reflexivity.
Qed.

Lemma thermal_eq (p q : Potato.t) :
  thermal p = thermal q ->
  Potato.moistureContent p = Potato.moistureContent q /\
  Potato.temperature p = Potato.temperature q /\
  Potato.cookedness p = Potato.cookedness q /\
  Potato.crustThickness p = Potato.crustThickness q /\
  Potato.density p = Potato.density q /\
  Potato.timeInOil p = Potato.timeInOil q /\
  Potato.isInOil p = Potato.isInOil q /\
  Potato.vigorousBubblingPhase p = Potato.vigorousBubblingPhase q /\
  Potato.size p = Potato.size q.
Proof.
  unfold thermal; intros H; injection H; intros; repeat split; assumption.
Qed.

Lemma buoyancy_thermal (dt oilSurfaceY oilDensity basketBottomY : R)
    (p : Potato.t) :
  thermal (Potato.buoyancy dt oilSurfaceY oilDensity basketBottomY p)
  = thermal p.
Proof.
  unfold Potato.buoyancy. cbv zeta.
  set (p1 := Potato.applyBuoyancy dt oilDensity p).
  assert (E1 : thermal p1 = thermal p) by reflexivity.
  set (p2 := Potato.settleAtSurface oilSurfaceY oilDensity p1).
  assert (E2 : thermal p2 = thermal p1).
  { subst p2. unfold Potato.settleAtSurface. cbv zeta.
    split_ifs; reflexivity. }
  assert (E3 : thermal (Potato.collideWithBasket basketBottomY p2)
               = thermal p2).
  { unfold Potato.collideWithBasket. cbv zeta. split_ifs; reflexivity. }
  congruence.
Qed.

(** In the submerged branch the thermal state after [update] is the one
    [cook] computes. *)
Lemma update_submerged_thermal
    (dt oilTemp oilSurfaceY oilDensity basketBottomY : R) (p : Potato.t) :
  oilSurfaceY < y (Potato.position p) ->
  thermal (Potato.update dt oilTemp oilSurfaceY oilDensity basketBottomY p)
  = thermal (Potato.cook dt oilTemp p).
Proof.
  intros Hy. unfold Potato.update. rewrite fgtb_true by exact Hy.
  cbv zeta. rewrite <- (buoyancy_thermal dt oilSurfaceY oilDensity
                          basketBottomY (Potato.cook dt oilTemp p)).
  reflexivity.
Qed.

Lemma update_airborne_thermal
    (dt oilTemp oilSurfaceY oilDensity basketBottomY : R) (p : Potato.t) :
  y (Potato.position p) <= oilSurfaceY ->
  thermal (Potato.update dt oilTemp oilSurfaceY oilDensity basketBottomY p)
  = thermal (Potato.set_isInOil false p).
Proof.
  intros Hy. unfold Potato.update. rewrite fgtb_false by exact Hy.
  reflexivity.
Qed.

Lemma cook_domain (dt oilTemp : R) (p : Potato.t) :
  20 <= oilTemp <= 190 ->
  fry_domain p ->
  fry_domain (Potato.cook dt oilTemp p) /\
  Potato.temperature (Potato.cook dt oilTemp p) <= oilTemp.
Proof.
  intros Ho (Hm & HT & Hk & Hc & Hd).
  destruct (cook_fields dt oilTemp p)
    as (_ & _ & _ & Em & Ed & Ec & ET & Ek & _).
  unfold fry_domain. rewrite Em, Ed, Ec, ET, Ek.
  assert (HT' : 20 <= cook_temperature dt oilTemp p <= oilTemp)
    by (apply ofClamp_bounds; lra).
  repeat split; try lra.
  - unfold cook_moisture. destruct (_ >? 100); [|lra].
    apply ofClamp_bounds; lra.
  - unfold cook_moisture. destruct (_ >? 100); [|lra].
    apply ofClamp_bounds; lra.
  - unfold cook_cookedness. destruct (_ && _)%bool.
    + apply ofClamp_bounds; lra.
    + destruct (_ >=? 170); lra.
  - unfold cook_cookedness. destruct (_ && _)%bool.
    + apply ofClamp_bounds; lra.
    + destruct (_ >=? 170); lra.
  - apply ofClamp_bounds; lra.
  - apply ofClamp_bounds; lra.
  - apply ofClamp_bounds; lra.
  - apply ofClamp_bounds; lra.
Qed.

(** Every call of [update] keeps the bounded fields in their domains; a
    fry that the call leaves flagged as in oil is not hotter than the oil
    of that call. *)
Lemma update_domain (dt oilTemp oilSurfaceY oilDensity basketBottomY : R)
    (p : Potato.t) :
  20 <= oilTemp <= 190 ->
  fry_domain p ->
  let q := Potato.update dt oilTemp oilSurfaceY oilDensity basketBottomY p in
  fry_domain q /\
  (Potato.isInOil q = true -> Potato.temperature q <= oilTemp).
Proof.
  intros Ho Hp q. subst q.
  destruct (Rlt_dec oilSurfaceY (y (Potato.position p))) as [Hy|Hy].
  - destruct (thermal_eq _ _ (update_submerged_thermal dt oilTemp
                oilSurfaceY oilDensity basketBottomY p Hy))
      as (Em & ET & Ek & Ec & Ed & _).
    destruct (cook_domain dt oilTemp p Ho Hp) as [Hq Hle].
    unfold fry_domain in *. rewrite Em, ET, Ek, Ec, Ed. split; [exact Hq|].
    intros _. exact Hle.
  - apply Rnot_lt_le in Hy.
    destruct (thermal_eq _ _ (update_airborne_thermal dt oilTemp
                oilSurfaceY oilDensity basketBottomY p Hy))
      as (Em & ET & Ek & Ec & Ed & _ & Ei & _).
    unfold fry_domain in *. rewrite Em, ET, Ek, Ec, Ed, Ei.
    split; [exact Hp|]. cbn. discriminate.
Qed.

(** ** The simulation loop *)

Lemma sim_eq (s s' : ofApp.t) :
  sim s = sim s' ->
  ofApp.geom s = ofApp.geom s' /\
  ofApp.oilTemperature s = ofApp.oilTemperature s' /\
  ofApp.targetTemperature s = ofApp.targetTemperature s' /\
  ofApp.oilViscosity s = ofApp.oilViscosity s' /\
  ofApp.potatoFry s = ofApp.potatoFry s' /\
  ofApp.currentDraggedFry s = ofApp.currentDraggedFry s' /\
  ofApp.heap s = ofApp.heap s' /\
  ofApp.nextAddr s = ofApp.nextAddr s' /\
  ofApp.fryInOil s = ofApp.fryInOil s' /\
  ofApp.isPaused s = ofApp.isPaused s' /\
  ofApp.dragPosition s = ofApp.dragPosition s'.
Proof.
  unfold sim; intros H; injection H; intros; repeat split; assumption.
Qed.

Lemma spawnBubble_sim (pos : ofVec2f) (T d : R) (s : ofApp.t) (g : RNG) :
  sim (fst (ofApp.spawnBubble pos T d s g)) = sim s.
Proof.
  unfold ofApp.spawnBubble, bind, ret.
  destruct (Bubble.new pos T d (ofApp.oilTopY (ofApp.geom s)) g).
  reflexivity.
Qed.

Lemma spawnLoop_sim (n : nat) (fry : Potato.t) :
  forall (s : ofApp.t) (g : RNG),
  sim (fst (ofApp.spawnLoop n fry s g)) = sim s.
Proof.
  induction n as [|n IH]; intros s g.
  - reflexivity.
  - cbn [ofApp.spawnLoop]. unfold bind at 1.
    destruct (Potato.getSurfacePointForBubble fry g) as [pos g1].
    unfold bind at 1.
    match goal with
    | |- context [ofApp.spawnBubble ?a ?b ?c s g1] =>
        pose proof (spawnBubble_sim a b c s g1) as E;
        destruct (ofApp.spawnBubble a b c s g1) as [s1 g2]
    end.
    cbn [fst] in E. rewrite IH. exact E.
Qed.

Lemma generateBubbles_sim (fry : Potato.t) (s : ofApp.t) (g : RNG) :
  sim (fst (ofApp.generateBubbles fry s g)) = sim s.
Proof.
  unfold ofApp.generateBubbles. cbv zeta.
  destruct (_ >? 0); [|reflexivity].
  unfold bind at 1. destruct (ofRandom2 _ _ g) as [r g1].
  unfold bind at 1.
  match goal with
  | |- context [let (a, g') := ?m g1 in _] => destruct (m g1) as [n g2]
  end.
  apply spawnLoop_sim.
Qed.

Lemma updateParticles_sim (now dt : R) (s : ofApp.t) :
  sim (ofApp.updateParticles now dt s) = sim s.
Proof. reflexivity. Qed.

Lemma updateParticles_alive (now dt : R) (s : ofApp.t) :
  ofApp.particles (ofApp.updateParticles now dt s)
  = filter (fun p => negb (Bubble.isDead p))
      (map (ofApp.updateParticle now dt (ofApp.oilViscosity s)
              (ofApp.fryerLeftX (ofApp.geom s) + 15)
              (ofApp.fryerRightX (ofApp.geom s) - 15))
           (ofApp.particles s)).
Proof. reflexivity. Qed.

Lemma updateOil_fields (s : ofApp.t) :
  let s' := ofApp.updateOil s in
  ofApp.oilTemperature s' = smoothed s /\
  ofApp.oilViscosity s' = viscosity_spec (smoothed s) /\
  ofApp.geom s' = ofApp.geom s /\
  ofApp.targetTemperature s' = ofApp.targetTemperature s /\
  ofApp.potatoFry s' = ofApp.potatoFry s /\
  ofApp.currentDraggedFry s' = ofApp.currentDraggedFry s /\
  ofApp.heap s' = ofApp.heap s /\
  ofApp.nextAddr s' = ofApp.nextAddr s /\
  ofApp.fryInOil s' = ofApp.fryInOil s /\
  ofApp.isPaused s' = ofApp.isPaused s /\
  ofApp.dragPosition s' = ofApp.dragPosition s /\
  ofApp.particles s' = ofApp.particles s.
Proof.
  intros s'. subst s'. unfold ofApp.updateOil. cbv zeta.
  rewrite updateOilViscosity_spec.
  repeat split; reflexivity.
Qed.

Lemma heap_store (a : nat) (v : option Potato.t) (s : ofApp.t) (a' : nat) :
  ofApp.heap (ofApp.store a v s) a'
  = if Nat.eqb a' a then v else ofApp.heap s a'.
Proof. reflexivity. Qed.

Lemma updateFry_result (dt : R) (s : ofApp.t) (m : Rand ofApp.t) (g : RNG) :
  single_fry s ->
  ofApp.updateFry dt s = Some m ->
  let s' := fst (m g) in
  ofApp.geom s' = ofApp.geom s /\
  ofApp.oilTemperature s' = ofApp.oilTemperature s /\
  ofApp.targetTemperature s' = ofApp.targetTemperature s /\
  ofApp.oilViscosity s' = ofApp.oilViscosity s /\
  ofApp.potatoFry s' = ofApp.potatoFry s /\
  ofApp.currentDraggedFry s' = ofApp.currentDraggedFry s /\
  ofApp.nextAddr s' = ofApp.nextAddr s /\
  ofApp.fryInOil s' = ofApp.fryInOil s /\
  ofApp.isPaused s' = ofApp.isPaused s /\
  ofApp.dragPosition s' = ofApp.dragPosition s /\
  (((ofApp.potatoFry s = None \/ ofApp.fryInOil s = false) /\
    ofApp.heap s' = ofApp.heap s /\ ofApp.particles s' = ofApp.particles s)
   \/
   (exists a fry,
      ofApp.potatoFry s = Some a /\ ofApp.fryInOil s = true /\
      ofApp.heap s a = Some fry /\
      forall a', ofApp.heap s' a'
                 = if Nat.eqb a' a then Some (fry_step dt (ofApp.oilTemperature s) s fry)
                   else ofApp.heap s a')).
Proof.
  intros Hsingle Hm s'. subst s'. unfold ofApp.updateFry in Hm.
  destruct (ofApp.potatoFry s) as [a|] eqn:Hp.
  2:{ injection Hm as <-. cbn. repeat split; try reflexivity; try assumption.
      left. repeat split; auto. }
  destruct (ofApp.fryInOil s) eqn:Hin.
  2:{ injection Hm as <-. cbn. repeat split; try reflexivity; try assumption.
      left. repeat split; auto. }
  destruct (ofApp.heap s a) as [fry|] eqn:Hfry; [|discriminate].
  cbv zeta in Hm.
  set (fry1 := Potato.update dt _ _ _ _ fry) in Hm.
  set (s1 := ofApp.store a (Some fry1) s) in Hm.
  unfold ofApp.dragOverride in Hm.
  change (ofApp.currentDraggedFry s1) with (ofApp.currentDraggedFry s) in Hm.
  change (ofApp.dragPosition s1) with (ofApp.dragPosition s) in Hm.
  unfold fry_step. fold (ofApp.getOilDensity s). fold fry1.
  destruct (ofApp.currentDraggedFry s) as [d|] eqn:Hd.
  - (* dragging *)
    change (ofApp.heap s1 d)
      with (if Nat.eqb d a then Some fry1 else ofApp.heap s d) in Hm.
    destruct (Nat.eqb d a) eqn:Hda.
    + apply Nat.eqb_eq in Hda. subst d. cbv zeta in Hm.
      fold (held (ofApp.dragPosition s) fry1) in Hm.
      set (s2 := ofApp.store a (Some (held (ofApp.dragPosition s) fry1)) s1)
        in Hm.
      change (ofApp.heap s2 a)
        with (if Nat.eqb a a then Some (held (ofApp.dragPosition s) fry1)
              else ofApp.heap s1 a) in Hm.
      rewrite Nat.eqb_refl in Hm. injection Hm as <-.
      destruct (sim_eq _ _ (generateBubbles_sim
                  (held (ofApp.dragPosition s) fry1) s2 g))
        as (Eg & ET & Et & Ev & Ep & Ec & Eh & En & Ei & Eq & Ed).
      rewrite Eg, ET, Et, Ev, Ep, Ec, Eh, En, Ei, Eq, Ed.
      repeat split; try reflexivity; try assumption.
      right. exists a, fry. repeat split; try assumption.
      intros a'. subst s2 s1. rewrite !heap_store.
      destruct (Nat.eqb a' a); reflexivity.
    + destruct (ofApp.heap s d) as [q|] eqn:Hq; [|discriminate].
      apply Hsingle in Hq. rewrite Hp in Hq. injection Hq as ->.
      rewrite Nat.eqb_refl in Hda. discriminate.
  - (* not dragging *)
    change (ofApp.heap s1 a)
      with (if Nat.eqb a a then Some fry1 else ofApp.heap s a) in Hm.
    rewrite Nat.eqb_refl in Hm. injection Hm as <-.
    destruct (sim_eq _ _ (generateBubbles_sim fry1 s1 g))
      as (Eg & ET & Et & Ev & Ep & Ec & Eh & En & Ei & Eq & Ed).
    rewrite Eg, ET, Et, Ev, Ep, Ec, Eh, En, Ei, Eq, Ed.
    repeat split; try reflexivity; try assumption.
    right. exists a, fry. repeat split; assumption.
Qed.

(** One unpaused frame: the oil is smoothed toward its target, a present
    fry makes one [fry_step] in the new oil, and nothing else of the
    simulation state changes. *)
Lemma update_result (f : ofApp.Frame) (s s' : ofApp.t) :
  single_fry s ->
  ofApp.isPaused s = false ->
  ofApp.update f s = Some s' ->
  let dt := ofClamp (ofApp.lastFrameTime f) 0 0.1 in
  ofApp.oilTemperature s' = smoothed s /\
  ofApp.oilViscosity s' = viscosity_spec (smoothed s) /\
  ofApp.geom s' = ofApp.geom s /\
  ofApp.targetTemperature s' = ofApp.targetTemperature s /\
  ofApp.potatoFry s' = ofApp.potatoFry s /\
  ofApp.currentDraggedFry s' = ofApp.currentDraggedFry s /\
  ofApp.nextAddr s' = ofApp.nextAddr s /\
  ofApp.fryInOil s' = ofApp.fryInOil s /\
  ofApp.isPaused s' = false /\
  ofApp.dragPosition s' = ofApp.dragPosition s /\
  (((ofApp.potatoFry s = None \/ ofApp.fryInOil s = false) /\
    ofApp.heap s' = ofApp.heap s /\
    ofApp.particles s'
    = filter (fun p => negb (Bubble.isDead p))
        (map (ofApp.updateParticle (ofApp.elapsedTimef f) dt
                (viscosity_spec (smoothed s))
                (ofApp.fryerLeftX (ofApp.geom s) + 15)
                (ofApp.fryerRightX (ofApp.geom s) - 15))
             (ofApp.particles s)))
   \/
   (exists a fry,
      ofApp.potatoFry s = Some a /\ ofApp.fryInOil s = true /\
      ofApp.heap s a = Some fry /\
      forall a', ofApp.heap s' a'
                 = if Nat.eqb a' a then Some (fry_step dt (smoothed s) s fry)
                   else ofApp.heap s a')).
Proof.
  intros Hsingle Hp Hu dt. unfold ofApp.update in Hu. rewrite Hp in Hu.
  cbv zeta in Hu. fold dt in Hu.
  set (s1 := ofApp.set_elapsedTime _ s) in Hu.
  pose proof (updateOil_fields s1) as O. cbv zeta in O.
  set (s2 := ofApp.updateOil s1) in *.
  change (smoothed s1) with (smoothed s) in O.
  change (ofApp.geom s1) with (ofApp.geom s) in O.
  change (ofApp.targetTemperature s1) with (ofApp.targetTemperature s) in O.
  change (ofApp.potatoFry s1) with (ofApp.potatoFry s) in O.
  change (ofApp.currentDraggedFry s1) with (ofApp.currentDraggedFry s) in O.
  change (ofApp.heap s1) with (ofApp.heap s) in O.
  change (ofApp.nextAddr s1) with (ofApp.nextAddr s) in O.
  change (ofApp.fryInOil s1) with (ofApp.fryInOil s) in O.
  change (ofApp.isPaused s1) with (ofApp.isPaused s) in O.
  change (ofApp.dragPosition s1) with (ofApp.dragPosition s) in O.
  change (ofApp.particles s1) with (ofApp.particles s) in O.
  destruct O as (OT & Ov & Og & Ot & Op & Oc & Oh & On & Oi & Oq & Od & Ops).
  destruct (ofApp.updateFry dt s2) as [m|] eqn:Hm; [|discriminate].
  injection Hu as <-.
  assert (Hs2 : single_fry s2).
  { intros a p. rewrite Oh, Op. apply Hsingle. }
  pose proof (updateFry_result dt s2 m (ofApp.rng f) Hs2 Hm) as F.
  cbv zeta in F. set (s3 := fst (m (ofApp.rng f))) in *.
  destruct F as (Fg & FT & Ft & Fv & Fp & Fc & Fn & Fi & Fq & Fd & Fh).
  destruct (sim_eq _ _ (updateParticles_sim (ofApp.elapsedTimef f) dt s3))
    as (Ug & UT & Ut & Uv & Up & Uc & Uh & Un & Ui & Uq & Ud).
  rewrite Ug, UT, Ut, Uv, Up, Uc, Un, Ui, Uq, Ud.
  rewrite Fg, FT, Ft, Fv, Fp, Fc, Fn, Fi, Fq, Fd.
  rewrite Og, OT, Ot, Ov, Op, Oc, On, Oi, Oq, Od.
  repeat split; try reflexivity; try exact Hp.
  destruct Fh as [(Hno & Hh & Hps)|(a & fry & Ha & Hin & Hfry & Hh)].
  - left. rewrite Op, Oi in Hno. split; [exact Hno|].
    rewrite Uh, Hh, Oh. split; [reflexivity|].
    rewrite updateParticles_alive, Hps, Fv, Fg, Ov, Og, Ops. reflexivity.
  - right. exists a, fry. rewrite <- Op, <- Oi, <- Oh.
    repeat split; assumption.
Qed.

(** ** Reachable states and the bounded fields *)

Lemma viscosity_spec_bounds (T : R) : 0.003 <= viscosity_spec T <= 0.030.
Proof.
  unfold viscosity_spec, Rmin. fcmp; unfold Rmax; fcmp; lra.
Qed.

Lemma smoothed_bounds (s : ofApp.t) : 160 <= smoothed s <= 190.
Proof. apply ofClamp_bounds; lra. Qed.

Lemma new_fry_ok (pos sz vel : ofVec2f) (T : R) :
  fry_ok T (Potato.set_velocity vel (Potato.new pos sz)).
Proof.
  unfold fry_ok, fry_domain. cbn. repeat split; try lra; discriminate.
Qed.

Lemma setup_inv (w h : Z) : app_inv (ofApp.setup w h).
Proof.
  unfold app_inv, ofApp.setup. cbv zeta.
  rewrite updateOilViscosity_spec. cbn.
  pose proof (viscosity_spec_bounds 175).
  repeat split; try lra; intros; discriminate.
Qed.

Lemma release_empty (s : ofApp.t) :
  single_fry s ->
  ofApp.potatoFry (release s) = None /\
  (forall a, ofApp.heap (release s) a = None) /\
  ofApp.oilTemperature (release s) = ofApp.oilTemperature s /\
  ofApp.targetTemperature (release s) = ofApp.targetTemperature s /\
  ofApp.oilViscosity (release s) = ofApp.oilViscosity s /\
  ofApp.isPaused (release s) = ofApp.isPaused s /\
  ofApp.particles (release s) = ofApp.particles s /\
  ofApp.geom (release s) = ofApp.geom s.
Proof.
  intros Hs. unfold release.
  destruct (ofApp.potatoFry s) as [a|] eqn:Hp.
  - repeat split; try reflexivity.
    intros a'. cbn. destruct (Nat.eqb a' a) eqn:E; [reflexivity|].
    destruct (ofApp.heap s a') as [p|] eqn:Hh; [|reflexivity].
    apply Hs in Hh. rewrite Hp in Hh. injection Hh as ->.
    rewrite Nat.eqb_refl in E. discriminate.
  - repeat split; try assumption.
    intros a'. destruct (ofApp.heap s a') as [p|] eqn:Hh; [|reflexivity].
    apply Hs in Hh. congruence.
Qed.

Lemma app_inv_ext (s s' : ofApp.t) :
  ofApp.oilTemperature s' = ofApp.oilTemperature s ->
  160 <= ofApp.targetTemperature s' <= 190 ->
  ofApp.oilViscosity s' = ofApp.oilViscosity s ->
  ofApp.heap s' = ofApp.heap s ->
  ofApp.potatoFry s' = ofApp.potatoFry s ->
  ofApp.fryInOil s' = ofApp.fryInOil s ->
  app_inv s -> app_inv s'.
Proof.
  intros ET Et Ev Eh Ep Ei (HT & Ht & Hv & Hs & Hf & Hok).
  unfold app_inv, single_fry in *. rewrite ET, Ev, Eh, Ep, Ei.
  split; [|split; [|split; [|split; [|split]]]]; assumption.
Qed.

Lemma app_inv_empty (s : ofApp.t) :
  160 <= ofApp.oilTemperature s <= 190 ->
  160 <= ofApp.targetTemperature s <= 190 ->
  0.003 <= ofApp.oilViscosity s <= 0.030 ->
  ofApp.potatoFry s = None ->
  (forall a, ofApp.heap s a = None) ->
  app_inv s.
Proof.
  intros HT Ht Hv Hp Hh. unfold app_inv, single_fry.
  split; [|split; [|split; [|split; [|split]]]]; try assumption.
  - intros a p H. rewrite Hh in H. discriminate.
  - intros a H. congruence.
  - intros a p H. rewrite Hh in H. discriminate.
Qed.

Lemma keyPressed_inv (key : ofApp.Key) (s : ofApp.t) :
  app_inv s -> app_inv (ofApp.keyPressed key s).
Proof.
  intros Inv. pose proof Inv as (HT & Ht & Hv & Hs & Hf & Hok).
  unfold ofApp.keyPressed.
  destruct (_ || _)%bool.
  { now apply (app_inv_ext s). }
  destruct (ofApp.is_up key).
  { apply (app_inv_ext s); try reflexivity; try assumption.
    apply ofClamp_bounds; lra. }
  destruct (ofApp.is_down key).
  { apply (app_inv_ext s); try reflexivity; try assumption.
    apply ofClamp_bounds; lra. }
  destruct (ofApp.is_char key " ").
  { destruct (ofApp.fryInOil s) eqn:Hin.
    - fold (release s).
      destruct (release_empty s Hs) as (Rp & Rh & RT & Rt & Rv & _).
      apply app_inv_empty.
      + change (160 <= ofApp.oilTemperature (release s) <= 190).
        now rewrite RT.
      + change (160 <= ofApp.targetTemperature (release s) <= 190).
        now rewrite Rt.
      + change (0.003 <= ofApp.oilViscosity (release s) <= 0.030).
        now rewrite Rv.
      + exact Rp.
      + exact Rh.
    - assert (Hnone : ofApp.potatoFry s = None).
      { destruct (ofApp.potatoFry s) as [a|] eqn:Hp; [|reflexivity].
        specialize (Hf a eq_refl). congruence. }
      assert (Hempty : forall a, ofApp.heap s a = None).
      { intros a. destruct (ofApp.heap s a) as [p|] eqn:Hh; [|reflexivity].
        apply Hs in Hh. congruence. }
      unfold app_inv, single_fry. cbn.
      split; [|split; [|split; [|split; [|split]]]]; try assumption.
      + intros a p. destruct (Nat.eqb a (ofApp.nextAddr s)) eqn:E.
        * apply Nat.eqb_eq in E. now subst a.
        * rewrite Hempty. discriminate.
      + reflexivity.
      + intros a p. destruct (Nat.eqb a (ofApp.nextAddr s)) eqn:E.
        * intros H. injection H as <-. apply new_fry_ok.
        * rewrite Hempty. discriminate. }
  destruct (_ || _)%bool.
  { fold (release s). cbv zeta.
    destruct (release_empty s Hs) as (Rp & Rh & RT & Rt & Rv & _).
    apply app_inv_empty.
    + change (160 <= ofApp.oilTemperature (release s) <= 190).
      now rewrite RT.
    + change (160 <= ofApp.targetTemperature (release s) <= 190).
      now rewrite Rt.
    + change (0.003 <= ofApp.oilViscosity (release s) <= 0.030).
      now rewrite Rv.
    + exact Rp.
    + exact Rh. }
  exact Inv.
Qed.

Lemma mousePressed_inv (mx my : Z) (s s' : ofApp.t) :
  ofApp.mousePressed mx my s = Some s' -> app_inv s -> app_inv s'.
Proof.
  unfold ofApp.mousePressed. intros H Inv.
  pose proof Inv as (_ & Ht & _).
  destruct (ofApp.potatoFry s) as [a|]; [|now injection H as <-].
  destruct (ofApp.heap s a) as [fry|]; [|discriminate].
  cbv zeta in H. destruct (_ <? 60); injection H as <-; [|exact Inv].
  now apply (app_inv_ext s).
Qed.

Lemma mouseDragged_inv (mx my : Z) (s : ofApp.t) :
  app_inv s -> app_inv (ofApp.mouseDragged mx my s).
Proof.
  unfold ofApp.mouseDragged. intros Inv. pose proof Inv as (_ & Ht & _).
  destruct (ofApp.currentDraggedFry s); [|exact Inv].
  now apply (app_inv_ext s).
Qed.

Lemma mouseReleased_inv (s : ofApp.t) :
  app_inv s -> app_inv (ofApp.mouseReleased s).
Proof.
  intros Inv. pose proof Inv as (_ & Ht & _). now apply (app_inv_ext s).
Qed.

Lemma fry_step_ok (dt T : R) (s : ofApp.t) (fry : Potato.t) :
  20 <= T <= 190 -> fry_domain fry -> fry_ok T (fry_step dt T s fry).
Proof.
  intros HT Hd. unfold fry_step. cbv zeta.
  pose proof (update_domain dt T (ofApp.oilTopY (ofApp.geom s))
                (0.915 - 0.00064 * (T - 20))
                (ofApp.basketBottomY (ofApp.geom s)) fry HT Hd) as H.
  cbv zeta in H. destruct (ofApp.currentDraggedFry s); exact H.
Qed.

Lemma update_inv (f : ofApp.Frame) (s s' : ofApp.t) :
  ofApp.update f s = Some s' -> app_inv s -> app_inv s'.
Proof.
  intros Hu Inv. pose proof Inv as (HT & Ht & Hv & Hs & Hf & Hok).
  destruct (ofApp.isPaused s) eqn:Hp.
  { unfold ofApp.update in Hu. rewrite Hp in Hu. now injection Hu as <-. }
  destruct (update_result f s s' Hs Hp Hu)
    as (ET & Ev & _ & Et & Ep & _ & _ & Ei & _ & _ & Hh).
  pose proof (smoothed_bounds s) as Hsm.
  pose proof (viscosity_spec_bounds (smoothed s)) as Hvs.
  unfold app_inv, single_fry. rewrite ET, Ev, Et, Ep, Ei.
  split; [|split; [|split; [|split; [|split]]]]; try assumption.
  - destruct Hh as [(_ & Eh & _)|(a & fry & Ha & _ & _ & Eh)].
    + rewrite Eh. exact Hs.
    + intros a' p. rewrite Eh.
      destruct (Nat.eqb a' a) eqn:E.
      * apply Nat.eqb_eq in E. now subst a'.
      * apply Hs.
  - destruct Hh as [(Hno & Eh & _)|(a & fry & Ha & _ & Hfry & Eh)].
    + rewrite Eh. intros a p H.
      (* without a fry in the slot no object is live *)
      exfalso. apply Hs in H.
      destruct Hno as [Hn|Hn]; [congruence|].
      specialize (Hf a H). congruence.
    + intros a' p. rewrite Eh.
      destruct (Nat.eqb a' a) eqn:E.
      * intros H. injection H as <-.
        apply fry_step_ok; [lra|]. now apply (Hok a fry).
      * intros H. apply Hs in H. rewrite Ha in H. injection H as ->.
        rewrite Nat.eqb_refl in E. discriminate.
Qed.

Lemma handle_inv (e : ofApp.Event) (s s' : ofApp.t) :
  ofApp.handle e s = Some s' -> app_inv s -> app_inv s'.
Proof.
  destruct e as [key|mx my|mx my| |f]; cbn [ofApp.handle]; intros H Inv.
  - injection H as <-. now apply keyPressed_inv.
  - now apply (mousePressed_inv mx my s).
  - injection H as <-. now apply mouseDragged_inv.
  - injection H as <-. now apply mouseReleased_inv.
  - now apply (update_inv f s).
Qed.

Lemma reachable_inv (s : ofApp.t) : reachable s -> app_inv s.
Proof.
  induction 1 as [w h|s s' e _ IH He].
  - apply setup_inv.
  - now apply (handle_inv e s).
Qed.



(** ** Reset followed by one frame *)

Lemma update_without_fry (f : ofApp.Frame) (s : ofApp.t) :
  ofApp.potatoFry s = None ->
  exists s',
    ofApp.update f s = Some s' /\
    ofApp.potatoFry s' = None /\
    ofApp.particles s'
    = (if ofApp.isPaused s then ofApp.particles s
       else filter (fun p => negb (Bubble.isDead p))
              (map (ofApp.updateParticle (ofApp.elapsedTimef f)
                      (ofClamp (ofApp.lastFrameTime f) 0 0.1)
                      (viscosity_spec (smoothed s))
                      (ofApp.fryerLeftX (ofApp.geom s) + 15)
                      (ofApp.fryerRightX (ofApp.geom s) - 15))
                   (ofApp.particles s))) /\
    ofApp.oilTemperature s'
    = (if ofApp.isPaused s then ofApp.oilTemperature s else smoothed s).
Proof.
  intros Hp. unfold ofApp.update.
  destruct (ofApp.isPaused s) eqn:Hpause.
  { exists s. repeat split; assumption. }
  cbv zeta.
  set (s1 := ofApp.set_elapsedTime _ s).
  pose proof (updateOil_fields s1) as O. cbv zeta in O.
  set (s2 := ofApp.updateOil s1) in *.
  destruct O as (OT & Ov & Og & _ & Op & _ & _ & _ & _ & _ & _ & Ops).
  unfold ofApp.updateFry. rewrite Op.
  change (ofApp.potatoFry s1) with (ofApp.potatoFry s). rewrite Hp.
  eexists. split; [reflexivity|].
  cbn [ret fst].
  destruct (sim_eq _ _ (updateParticles_sim (ofApp.elapsedTimef f)
              (ofClamp (ofApp.lastFrameTime f) 0 0.1) s2))
    as (_ & UT & _ & _ & Up & _).
  rewrite Up, UT, Op, OT, updateParticles_alive, Ov, Og, Ops.
  repeat split; assumption.
Qed.

Lemma reset_fields (key : ofApp.Key) (s : ofApp.t) :
  is_reset_key key ->
  let r := ofApp.keyPressed key s in
  ofApp.oilTemperature r = ofApp.oilTemperature s /\
  ofApp.targetTemperature r = ofApp.targetTemperature s /\
  ofApp.oilViscosity r = ofApp.oilViscosity s /\
  ofApp.isPaused r = ofApp.isPaused s /\
  ofApp.potatoFry r = None /\
  ofApp.particles r = [] /\
  ofApp.fryInOil r = false /\
  ofApp.elapsedTime r = 0.
Proof.
  intros [-> | ->] r; subst r; unfold ofApp.keyPressed; cbn -[ofClamp];
    destruct (ofApp.potatoFry s) eqn:E; repeat split;
    try reflexivity; exact E.
Qed.

Lemma reset_then_step (key : ofApp.Key) (f : ofApp.Frame) (s : ofApp.t) :
  is_reset_key key ->
  exists s',
    ofApp.update f (ofApp.keyPressed key s) = Some s' /\
    ofApp.particles s' = [] /\
    ofApp.potatoFry s' = None /\
    ofApp.oilTemperature s'
    = (if ofApp.isPaused s then ofApp.oilTemperature s else smoothed s).
Proof.
  intros Hk.
  destruct (reset_fields key s Hk) as (RT & Rt & _ & Rp & Rf & Rps & _).
  destruct (update_without_fry f (ofApp.keyPressed key s) Rf)
    as (s' & Hu & Hf & Hps & HT).
  exists s'. split; [exact Hu|].
  rewrite Hps, HT, Rps, Rp, RT. unfold smoothed. rewrite RT, Rt.
  repeat split; try assumption.
  now destruct (ofApp.isPaused s).
Qed.

(** C6 (amended). A reset leaves the oil temperature, its target and the
    viscosity unchanged.  One frame with [dt = 0.016] after the reset
    leaves the particle collection empty and the fry slot unset; it moves
    the oil temperature 5% of the way to its target (no change while
    paused), so the temperature still equals its value before the reset
    exactly when the oil was already at its target or the simulation is
    paused. *)
Theorem C6_reset_then_step (key : ofApp.Key) (f : ofApp.Frame)
    (s : ofApp.t) :
  is_reset_key key ->
  ofApp.lastFrameTime f = 0.016 ->
  let r := ofApp.keyPressed key s in
  ofApp.oilTemperature r = ofApp.oilTemperature s /\
  ofApp.targetTemperature r = ofApp.targetTemperature s /\
  ofApp.oilViscosity r = ofApp.oilViscosity s /\
  exists s',
    ofApp.update f r = Some s' /\
    ofApp.particles s' = [] /\
    ofApp.potatoFry s' = None /\
    ofApp.oilTemperature s'
    = (if ofApp.isPaused s then ofApp.oilTemperature s
       else ofClamp (ofApp.oilTemperature s
                     + (ofApp.targetTemperature s - ofApp.oilTemperature s)
                       * 0.05) 160 190) /\
    (ofApp.targetTemperature s = ofApp.oilTemperature s ->
     160 <= ofApp.oilTemperature s <= 190 ->
     ofApp.oilTemperature s' = ofApp.oilTemperature s).
Proof.
  intros Hk _ r. subst r.
  destruct (reset_fields key s Hk) as (RT & Rt & Rv & _).
  destruct (reset_then_step key f s Hk) as (s' & Hu & Hps & Hf & HT).
  repeat split; try assumption.
  exists s'. repeat split; try assumption.
  intros Heq Hrange. rewrite HT. destruct (ofApp.isPaused s); [reflexivity|].
  unfold smoothed. rewrite Heq. rewrite ofClamp_id; lra.
Qed.

Lemma C6_reset_then_step_witness :
  exists s',
    ofApp.update frame16
      (ofApp.keyPressed (ofApp.KeyChar "r") (ofApp.setup 1024 768))
    = Some s' /\
    ofApp.particles s' = [] /\ ofApp.potatoFry s' = None.
Proof.
  destruct (C6_reset_then_step (ofApp.KeyChar "r") frame16
              (ofApp.setup 1024 768))
    as (_ & _ & _ & s' & Hu & Hp & Hf & _).
  - left; reflexivity.
  - reflexivity.
  - exists s'. repeat split; assumption.
Defined.

(** C6, as stated, fails: with the target raised to 180 before the reset,
    the frame after the reset heats the oil from 175 to 175.25. *)
Lemma C6_counterexample :
  let s := ofApp.keyPressed ofApp.OF_KEY_UP (ofApp.setup 1024 768) in
  reachable s /\
  ofApp.oilTemperature s = 175 /\
  exists s',
    ofApp.update frame16 (ofApp.keyPressed (ofApp.KeyChar "r") s) = Some s' /\
    ofApp.potatoFry s' = None /\
    ofApp.oilTemperature s' = 175.25.
Proof.
  intros s.
  assert (Ht : ofApp.targetTemperature s = 180).
  { subst s. cbn -[ofClamp]. rewrite ofClamp_id; lra. }
  assert (HT : ofApp.oilTemperature s = 175) by reflexivity.
  split; [|split; [exact HT|]].
  - apply (reach_step (ofApp.setup 1024 768) _
             (ofApp.EKeyPressed ofApp.OF_KEY_UP)); [apply reach_setup|].
    reflexivity.
  - destruct (reset_then_step (ofApp.KeyChar "r") frame16 s
                (or_introl eq_refl)) as (s' & Hu & _ & Hf & HT').
    exists s'. split; [exact Hu|]. split; [exact Hf|].
    rewrite HT'. change (ofApp.isPaused s) with false. cbv iota.
    unfold smoothed. rewrite Ht, HT. rewrite ofClamp_id; lra.
Qed.

(** ** Heating of a submerged fry *)

Lemma exp_nonpos_bounds (u : R) : u <= 0 -> 0 < exp u <= 1.
Proof.
  intros Hu. split; [apply exp_pos|].
  destruct (Req_dec u 0) as [->|Hne].
  - rewrite exp_0; lra.
  - left. rewrite <- exp_0. apply exp_increasing. lra.
Qed.

Section Heating.

Variables dt oilTemp : R.
Variable p : Potato.t.

Hypothesis dt_range : 0 <= dt <= 0.1.
Hypothesis time_nonneg : 0 <= Potato.timeInOil p.

Lemma cook_time_nonneg : 0 <= cook_time dt p.
Proof. unfold cook_time. destruct (Potato.isInOil p); lra. Qed.

Lemma cook_crust_bounds : 0 <= cook_crust dt p <= 1.
Proof. apply ofClamp_bounds; lra. Qed.

(** The effective heat transfer coefficient stays between a half of the
    base coefficient (full crust, no boost) and five times the base
    coefficient (no crust, full boost). *)
Lemma cook_coeff_bounds : 0.0125 <= cook_coeff dt p <= 0.125.
Proof.
  unfold cook_coeff.
  pose proof cook_crust_bounds as Hc.
  pose proof cook_time_nonneg as Ht.
  set (c := cook_crust dt p) in *. set (t := cook_time dt p) in *.
  destruct (t <? 20).
  - assert (He : 0 < exp (- t / 20) <= 1)
      by (apply exp_nonpos_bounds; lra).
    set (e := exp (- t / 20)) in *.
    assert (HA : 0.025 <= 0.025 * (1 + 4 * e) <= 0.125) by lra.
    assert (HB : 0.5 <= 1 - 0.5 * c <= 1) by lra.
    set (A := 0.025 * (1 + 4 * e)) in *. set (B := 1 - 0.5 * c) in *.
    clearbody A B.
    assert (0 <= (A - 0.025) * (B - 0.5)) by (apply Rmult_le_pos; lra).
    assert (0 <= (0.125 - A) * B) by (apply Rmult_le_pos; lra).
    split; nra.
  - split; nra.
Qed.

Hypothesis temp_range : 20 <= Potato.temperature p <= oilTemp.


End Heating.

(** ** Runs of the application with the fry held by the pointer *)


Lemma run_reachable (es : list ofApp.Event) :
  forall s s', reachable s -> ofApp.run es s = Some s' -> reachable s'.
Proof.
  induction es as [|e es IH]; intros s s' Hr H; cbn in H.
  - now injection H as <-.
  - destruct (ofApp.handle e s) as [s1|] eqn:He; [|discriminate].
    apply (IH s1); [|exact H]. now apply (reach_step s s1 e).
Qed.

Lemma updateFry_defined (dt : R) (s : ofApp.t) (a : nat) (fry : Potato.t) :
  ofApp.potatoFry s = Some a ->
  ofApp.heap s a = Some fry ->
  (ofApp.currentDraggedFry s = None \/ ofApp.currentDraggedFry s = Some a) ->
  exists m, ofApp.updateFry dt s = Some m.
Proof.
  intros Hp Hh Hd. unfold ofApp.updateFry. rewrite Hp.
  destruct (ofApp.fryInOil s); [|eexists; reflexivity].
  rewrite Hh. cbv zeta.
  set (fry1 := Potato.update dt _ _ _ _ fry).
  set (s1 := ofApp.store a (Some fry1) s).
  unfold ofApp.dragOverride.
  change (ofApp.currentDraggedFry s1) with (ofApp.currentDraggedFry s).
  destruct Hd as [Hd|Hd]; rewrite Hd.
  - change (ofApp.heap s1 a)
      with (if Nat.eqb a a then Some fry1 else ofApp.heap s a).
    rewrite Nat.eqb_refl. eexists; reflexivity.
  - change (ofApp.heap s1 a)
      with (if Nat.eqb a a then Some fry1 else ofApp.heap s a).
    rewrite Nat.eqb_refl. cbv zeta.
    match goal with
    | |- context [ofApp.heap (ofApp.store a (Some ?v) s1) a] =>
        change (ofApp.heap (ofApp.store a (Some v) s1) a)
          with (if Nat.eqb a a then Some v else ofApp.heap s1 a)
    end.
    rewrite Nat.eqb_refl. eexists; reflexivity.
Qed.

Lemma update_defined (f : ofApp.Frame) (s : ofApp.t) (a : nat)
    (fry : Potato.t) :
  ofApp.potatoFry s = Some a ->
  ofApp.heap s a = Some fry ->
  (ofApp.currentDraggedFry s = None \/ ofApp.currentDraggedFry s = Some a) ->
  exists s', ofApp.update f s = Some s'.
Proof.
  intros Hp Hh Hd. unfold ofApp.update.
  destruct (ofApp.isPaused s); [eexists; reflexivity|].
  cbv zeta.
  set (s1 := ofApp.set_elapsedTime _ s).
  pose proof (updateOil_fields s1) as O. cbv zeta in O.
  set (s2 := ofApp.updateOil s1) in *.
  destruct O as (_ & _ & _ & _ & Op & Oc & Oh & _).
  destruct (updateFry_defined (ofClamp (ofApp.lastFrameTime f) 0 0.1) s2
              a fry) as [m Hm].
  - rewrite Op. exact Hp.
  - rewrite Oh. exact Hh.
  - rewrite Oc. exact Hd.
  - rewrite Hm. eexists; reflexivity.
Qed.











Lemma mousePressed_on_fry (mx my : Z) (s : ofApp.t) (a : nat)
    (fry : Potato.t) :
  ofApp.potatoFry s = Some a ->
  ofApp.heap s a = Some fry ->
  IZR mx = x (Potato.position fry) ->
  IZR my = y (Potato.position fry) ->
  ofApp.mousePressed mx my s
  = Some (ofApp.set_dragPosition (mkVec (IZR mx) (IZR my))
            (ofApp.set_currentDraggedFry (Some a) s)).
Proof.
  intros Hp Hh Hx Hy. unfold ofApp.mousePressed. rewrite Hp, Hh. cbv zeta.
  rewrite Hx, Hy.
  replace ((x (Potato.position fry) - x (Potato.position fry))
           * (x (Potato.position fry) - x (Potato.position fry))
           + (y (Potato.position fry) - y (Potato.position fry))
             * (y (Potato.position fry) - y (Potato.position fry)))
    with 0 by ring.
  rewrite sqrt_0, fltb_true by lra. reflexivity.
Qed.

Lemma grab_run :
  exists s,
    ofApp.run grab_events (ofApp.setup 1024 768) = Some s /\
    dragging (mkVec 512 400) s raw_fry /\
    ofApp.oilTemperature s = 175 /\
    ofApp.targetTemperature s = 175.
Proof.
  set (s1 := ofApp.keyPressed (ofApp.KeyChar " ") (ofApp.setup 1024 768)).
  assert (Hp : ofApp.potatoFry s1 = Some O) by reflexivity.
  assert (Hh : ofApp.heap s1 O = Some raw_fry) by reflexivity.
  assert (Hm : ofApp.mousePressed 512 235 s1
               = Some (ofApp.set_dragPosition (mkVec 512 235)
                         (ofApp.set_currentDraggedFry (Some O) s1))).
  { apply (mousePressed_on_fry 512 235 s1 O raw_fry Hp Hh); cbn; lra. }
  eexists. split.
  - unfold grab_events. cbn [ofApp.run ofApp.handle]. fold s1.
    rewrite Hm. reflexivity.
  - split; [|split; reflexivity].
    unfold dragging. repeat split; try reflexivity.
    intros a p. destruct a as [|a]; [reflexivity|]. discriminate.
Qed.











(** ** Cookedness *)


Section CookCookedness.

Variables dt oilTemp : R.
Variable p : Potato.t.

Hypothesis dt_range : 0 <= dt <= 0.1.
Hypothesis oil_range : 160 <= oilTemp <= 190.
Hypothesis sound : fry_sound p.

(** A fry above 100 degrees is not cooled to 100 or below by oil of at
    least 160 degrees. *)
Lemma cook_temperature_above_100 :
  100 < Potato.temperature p -> 100 < cook_temperature dt oilTemp p.
Proof.
  intros HT. destruct sound as ((_ & HT20 & _) & Hti & _).
  pose proof (cook_coeff_bounds dt p dt_range Hti) as Hh.
  unfold cook_temperature.
  set (h := cook_coeff dt p) in *. set (T := Potato.temperature p) in *.
  assert (Hr : 0 <= h * dt <= 1) by (split; nra).
  set (r := h * dt) in *.
  assert (Hv : 100 < T + (oilTemp - T) * r).
  { replace (T + (oilTemp - T) * r)
      with ((1 - r) * T + r * oilTemp) by ring.
    assert ((1 - r) * 100 <= (1 - r) * T)
      by (apply Rmult_le_compat_l; lra).
    assert (r * 100 <= r * oilTemp) by (apply Rmult_le_compat_l; lra).
    destruct (Req_dec r 1) as [->|Hne]; [lra|].
    assert ((1 - r) * 100 < (1 - r) * T)
      by (apply Rmult_lt_compat_l; lra).
    lra. }
  unfold ofClamp. fcmp; lra.
Qed.

Lemma cook_cookedness_at :
  cook_cookedness dt oilTemp p = cooked_at (cook_temperature dt oilTemp p).
Proof.
  destruct sound as (_ & _ & Hk).
  pose proof cook_temperature_above_100 as Habove.
  unfold cook_cookedness, cooked_at.
  set (T' := cook_temperature dt oilTemp p) in *.
  unfold fgtb, fltb, fgeb, fleb.
  destruct (Rgt_dec T' 100); destruct (Rlt_dec T' 170);
    destruct (Rle_dec T' 100); destruct (Rge_dec T' 170);
    cbn [andb]; try lra.
  - apply ofClamp_id.
    assert (0 <= (T' - 100) / 70 <= 1) by lra. split; nra.
  - rewrite Hk. unfold cooked_at.
    rewrite fleb_true; [reflexivity|].
    destruct (Rle_dec (Potato.temperature p) 100) as [|Hn]; [assumption|].
    apply Rnot_le_lt in Hn. specialize (Habove Hn). lra.
Qed.

End CookCookedness.

Lemma cook_sound (dt T : R) (p q : Potato.t) :
  0 <= dt <= 0.1 -> 160 <= T <= 190 ->
  fry_sound p ->
  thermal q = thermal (Potato.cook dt T p) ->
  fry_sound q.
Proof.
  intros Hdt HT Hs E. pose proof Hs as (Hd & Hti & Hk).
  destruct (thermal_eq _ _ E) as (Em & ET & Ek & Ec & Ed & Eti & _).
  destruct (cook_domain dt T p ltac:(lra) Hd) as [Hd' _].
  destruct (cook_fields dt T p) as (Ft & _ & _ & _ & _ & _ & FT & Fk & _).
  unfold fry_sound, fry_domain in *. rewrite Em, ET, Ek, Ec, Ed, Eti.
  split; [exact Hd'|]. rewrite Ft, FT, Fk.
  split; [now apply cook_time_nonneg|].
  now apply cook_cookedness_at.
Qed.

Lemma fry_reachable_sound (p : Potato.t) : fry_reachable p -> fry_sound p.
Proof.
  induction 1 as [pos sz|pos p _ IH|vel p _ IH
                 |dt T surf dens bask p _ IH Hdt HT].
  - unfold fry_sound, fry_domain, cooked_at. cbn.
    rewrite fleb_true by lra. repeat split; lra.
  - exact IH.
  - exact IH.
  - destruct (Rlt_dec surf (y (Potato.position p))) as [Hy|Hy].
    + apply (cook_sound dt T p); try assumption.
      now apply update_submerged_thermal.
    + apply Rnot_lt_le in Hy.
      destruct (thermal_eq _ _ (update_airborne_thermal dt T surf dens
                  bask p Hy)) as (Em & ET & Ek & Ec & Ed & Eti & _).
      unfold fry_sound, fry_domain in *.
      rewrite Em, ET, Ek, Ec, Ed, Eti. exact IH.
Qed.









(** ** Convergence of a fry held in oil of 180 degrees *)







Section Convergence.

Variables oilSurfaceY oilDensity basketBottomY : R.

Let run := fry_run 180 oilSurfaceY oilDensity basketBottomY.


End Convergence.





(** * Further properties of the code

    Properties of the functions around the ones above: the kinematics of
    the fry, the constructor and the update of a bubble, bubble
    generation, and the event handlers of the application. *)

(** ** Arithmetic and library helpers *)

Lemma fltb_true_inv (a b : R) : (a <? b) = true -> a < b.
Proof. fcmp; [tauto | discriminate]. Qed.

Lemma fltb_false_inv (a b : R) : (a <? b) = false -> b <= a.
Proof. fcmp; [discriminate | lra]. Qed.

Lemma fgtb_true_inv (a b : R) : (a >? b) = true -> b < a.
Proof. fcmp; [lra | discriminate]. Qed.

Lemma fgtb_false_inv (a b : R) : (a >? b) = false -> a <= b.
Proof. fcmp; [discriminate | lra]. Qed.

Lemma lerp_range (a b u : R) :
  a <= b -> 0 <= u <= 1 -> a <= a + (b - a) * u <= b.
Proof.
  intros Hab Hu.
  assert (0 <= (b - a) * u) by (apply Rmult_le_pos; lra).
  assert ((b - a) * u <= (b - a) * 1) by (apply Rmult_le_compat_l; lra).
  lra.
Qed.

Lemma scaled_range (s a b u : R) :
  0 <= s -> a <= b -> 0 <= u <= 1 ->
  s * a <= s * (a + (b - a) * u) <= s * b.
Proof.
  intros Hs Hab Hu. pose proof (lerp_range a b u Hab Hu).
  split; apply Rmult_le_compat_l; lra.
Qed.

Lemma truncZ_bounds (v : R) (a b : Z) :
  (0 <= a)%Z -> IZR a <= v <= IZR b -> (a <= truncZ v <= b)%Z.
Proof.
  intros Ha [Hlo Hhi]. unfold truncZ.
  assert (H0 : 0 <= v) by (apply Rle_trans with (IZR a); [apply IZR_le; lia | exact Hlo]).
  rewrite fleb_true by exact H0.
  destruct (base_Int_part v) as [Hi1 Hi2].
  split.
  - assert (IZR a < IZR (Int_part v) + 1) by lra.
    rewrite <- plus_IZR in H. apply lt_IZR in H. lia.
  - apply le_IZR. lra.
Qed.

Lemma unit_draws_tail (g : RNG) :
  unit_draws g -> unit_draws (fun n => g (S n)).
Proof. intros H n. apply H. Qed.

Lemma FLT_EPSILON_small : 0 < FLT_EPSILON < 1.
Proof.
  unfold FLT_EPSILON.
  assert (H : 1 < 2 ^ 23) by (simpl; lra).
  split.
  - apply Rinv_0_lt_compat. lra.
  - rewrite <- Rinv_1. apply Rinv_lt_contravar; lra.
Qed.


Lemma ofMap_clamped (v a b c d : R) :
  1 <= Rabs (a - b) -> c <= d ->
  ofMap v a b c d true
  = Rmax c (Rmin d ((v - a) / (b - a) * (d - c) + c)).
Proof.
  intros H Hcd. unfold ofMap.
  pose proof FLT_EPSILON_small.
  rewrite fltb_false by lra. cbv zeta.
  set (o := (v - a) / (b - a) * (d - c) + c).
  unfold Rmin. destruct (Rle_dec d o); unfold Rmax; fcmp; lra.
Qed.

(** ** The motion of the fry *)

Lemma applyBuoyancy_kinematic (dt oilDensity : R) (p : Potato.t) :
  let q := Potato.applyBuoyancy dt oilDensity p in
  -150 <= y (Potato.velocity q) <= 150 /\
  x (Potato.velocity q) = x (Potato.velocity p) /\
  Potato.position q = Potato.position p /\
  Potato.size q = Potato.size p /\
  Potato.density q = Potato.density p.
Proof.
  intros q. subst q. unfold Potato.applyBuoyancy. cbv zeta.
  cbn [Potato.set_velocity_y Potato.set_velocity Potato.velocity
       Potato.position Potato.size Potato.density x y].
  split; [apply ofClamp_bounds; lra|].
  repeat split; reflexivity.
Qed.

Lemma settleAtSurface_kinematic (oilSurfaceY oilDensity V : R)
    (p : Potato.t) :
  0 <= V ->
  - V <= y (Potato.velocity p) <= V ->
  let q := Potato.settleAtSurface oilSurfaceY oilDensity p in
  - V <= y (Potato.velocity q) <= V /\
  x (Potato.velocity q) = x (Potato.velocity p) /\
  x (Potato.position q) = x (Potato.position p) /\
  Potato.size q = Potato.size p.
Proof.
  intros HV Hv q. subst q. unfold Potato.settleAtSurface.
  destruct (_ && _)%bool; [|repeat split; try reflexivity; lra].
  cbv zeta.
  destruct (_ <? _).
  - split; [|repeat split; reflexivity].
    change (- V <= Rmax 0 (y (Potato.velocity p) * 0.85) <= V).
    unfold Rmax. destruct (Rle_dec _ _); lra.
  - split; [|repeat split; reflexivity].
    change (- V <= y (Potato.velocity p) * 0.85 <= V). lra.
Qed.

Lemma collideWithBasket_kinematic (basketBottomY V : R) (p : Potato.t) :
  - V <= y (Potato.velocity p) <= V ->
  let q := Potato.collideWithBasket basketBottomY p in
  - V <= y (Potato.velocity q) <= V /\
  y (Potato.position q) <= basketBottomY - y (Potato.size p) / 2 /\
  x (Potato.velocity q) = x (Potato.velocity p) /\
  x (Potato.position q) = x (Potato.position p) /\
  Potato.size q = Potato.size p.
Proof.
  intros Hv q. subst q. unfold Potato.collideWithBasket.
  destruct (_ >? _) eqn:Hc.
  - cbv zeta. split; [|split; [|repeat split; reflexivity]].
    + change (- V <= - y (Potato.velocity p) * 0.3 <= V). lra.
    + change (basketBottomY - y (Potato.size p) / 2
              <= basketBottomY - y (Potato.size p) / 2). lra.
  - revert Hc. fcmp; [discriminate|]. intros _.
    repeat split; try reflexivity; lra.
Qed.

Lemma buoyancy_kinematic (dt oilSurfaceY oilDensity basketBottomY : R)
    (p : Potato.t) :
  let q := Potato.buoyancy dt oilSurfaceY oilDensity basketBottomY p in
  -150 <= y (Potato.velocity q) <= 150 /\
  y (Potato.position q) <= basketBottomY - y (Potato.size p) / 2 /\
  x (Potato.velocity q) = x (Potato.velocity p) /\
  x (Potato.position q) = x (Potato.position p) /\
  Potato.size q = Potato.size p.
Proof.
  intros q. subst q. unfold Potato.buoyancy. cbv zeta.
  destruct (applyBuoyancy_kinematic dt oilDensity p)
    as (A1 & A2 & A3 & A4 & _).
  set (p1 := Potato.applyBuoyancy dt oilDensity p) in *.
  destruct (settleAtSurface_kinematic oilSurfaceY oilDensity 150 p1
              ltac:(lra) A1) as (S1 & S2 & S3 & S4).
  set (p2 := Potato.settleAtSurface oilSurfaceY oilDensity p1) in *.
  destruct (collideWithBasket_kinematic basketBottomY 150 p2 S1)
    as (C1 & C2 & C3 & C4 & C5).
  rewrite C3, C4, C5, S2, S3, S4, A2, A3, A4 in *.
  repeat split; try reflexivity; try lra.
Qed.

Lemma update_submerged_kinematic
    (dt oilTemp oilSurfaceY oilDensity basketBottomY : R) (p : Potato.t) :
  oilSurfaceY < y (Potato.position p) ->
  let b := Potato.buoyancy dt oilSurfaceY oilDensity basketBottomY
             (Potato.cook dt oilTemp p) in
  let q := Potato.update dt oilTemp oilSurfaceY oilDensity basketBottomY p in
  Potato.velocity q = Potato.velocity b /\
  Potato.position q
  = vadd (Potato.position b) (vscale (Potato.velocity b) dt).
Proof.
  intros Hy b q. subst q. unfold Potato.update.
  rewrite fgtb_true by exact Hy. split; reflexivity.
Qed.

Lemma update_airborne_kinematic
    (dt oilTemp oilSurfaceY oilDensity basketBottomY : R) (p : Potato.t) :
  y (Potato.position p) <= oilSurfaceY ->
  let q := Potato.update dt oilTemp oilSurfaceY oilDensity basketBottomY p in
  Potato.velocity q
  = mkVec (x (Potato.velocity p)) (y (Potato.velocity p) + 600 * dt) /\
  Potato.position q
  = vadd (Potato.position p) (vscale (Potato.velocity q) dt).
Proof.
  intros Hy q. subst q. unfold Potato.update.
  rewrite fgtb_false by exact Hy. split; reflexivity.
Qed.

(** X1. Terminal velocity. After an update that starts below the oil
    surface the vertical speed of the fry is at most 150, whatever it was
    before and whatever the time step. *)
Theorem potato_terminal_velocity
    (dt oilTemp oilSurfaceY oilDensity basketBottomY : R) (p : Potato.t) :
  oilSurfaceY < y (Potato.position p) ->
  let q := Potato.update dt oilTemp oilSurfaceY oilDensity basketBottomY p in
  -150 <= y (Potato.velocity q) <= 150.
Proof.
  intros Hy q. subst q.
  destruct (update_submerged_kinematic dt oilTemp oilSurfaceY oilDensity
              basketBottomY p Hy) as [Ev _].
  rewrite Ev.
  apply (buoyancy_kinematic dt oilSurfaceY oilDensity basketBottomY
           (Potato.cook dt oilTemp p)).
Qed.

Lemma potato_terminal_velocity_witness :
  -150 <= y (Potato.velocity
               (Potato.update 0.1 175 315 0.82 508.8 cooked_fry)) <= 150.
Proof.
  apply (potato_terminal_velocity 0.1 175 315 0.82 508.8 cooked_fry).
  cbn; lra.
Defined.

(** X2. Basket floor. After an update that starts below the oil surface
    with a time step [dt >= 0], the centre of the fry is at most [150 * dt]
    below the line [basketBottomY - size.y / 2] on which the basket stops
    it. *)
Theorem potato_basket_floor
    (dt oilTemp oilSurfaceY oilDensity basketBottomY : R) (p : Potato.t) :
  oilSurfaceY < y (Potato.position p) ->
  0 <= dt ->
  let q := Potato.update dt oilTemp oilSurfaceY oilDensity basketBottomY p in
  y (Potato.position q)
    <= basketBottomY - y (Potato.size p) / 2 + 150 * dt.
Proof.
  intros Hy Hdt q. subst q.
  destruct (update_submerged_kinematic dt oilTemp oilSurfaceY oilDensity
              basketBottomY p Hy) as [_ Ep].
  rewrite Ep.
  destruct (buoyancy_kinematic dt oilSurfaceY oilDensity basketBottomY
              (Potato.cook dt oilTemp p)) as (Hv & Hp & _).
  destruct (cook_fields dt oilTemp p) as (_ & _ & _ & _ & _ & _ & _ & _ & _ & _ & Es).
  rewrite Es in Hp.
  set (b := Potato.buoyancy _ _ _ _ _) in *.
  change (y (Potato.position b) + y (Potato.velocity b) * dt
          <= basketBottomY - y (Potato.size p) / 2 + 150 * dt).
  assert (y (Potato.velocity b) * dt <= 150 * dt)
    by (apply Rmult_le_compat_r; lra).
  lra.
Qed.

Lemma potato_basket_floor_witness :
  y (Potato.position (Potato.update 0.1 175 315 0.82 508.8 cooked_fry))
    <= 508.8 - y (Potato.size cooked_fry) / 2 + 150 * 0.1.
Proof.
  apply (potato_basket_floor 0.1 175 315 0.82 508.8 cooked_fry);
    cbn; lra.
Defined.

Lemma update_submerged_horizontal
    (dt oilTemp oilSurfaceY oilDensity basketBottomY : R) (p : Potato.t) :
  oilSurfaceY < y (Potato.position p) ->
  let q := Potato.update dt oilTemp oilSurfaceY oilDensity basketBottomY p in
  x (Potato.velocity q) = x (Potato.velocity p) /\
  x (Potato.position q)
  = x (Potato.position p) + x (Potato.velocity p) * dt /\
  Potato.size q = Potato.size p.
Proof.
  intros Hy q. subst q.
  destruct (update_submerged_kinematic dt oilTemp oilSurfaceY oilDensity
              basketBottomY p Hy) as [Ev Ep].
  destruct (thermal_eq _ _ (update_submerged_thermal dt oilTemp
              oilSurfaceY oilDensity basketBottomY p Hy))
    as (_ & _ & _ & _ & _ & _ & _ & _ & Es).
  rewrite Ev, Ep, Es.
  destruct (buoyancy_kinematic dt oilSurfaceY oilDensity basketBottomY
              (Potato.cook dt oilTemp p)) as (_ & _ & Hvx & Hpx & _).
  destruct (cook_fields dt oilTemp p)
    as (_ & _ & _ & _ & _ & _ & _ & _ & Cp & Cv & Cs).
  rewrite Cv, Cp in *.
  set (b := Potato.buoyancy _ _ _ _ _) in *.
  change (x (Potato.velocity b) = x (Potato.velocity p) /\
          x (Potato.position b) + x (Potato.velocity b) * dt
          = x (Potato.position p) + x (Potato.velocity p) * dt /\
          Potato.size (Potato.cook dt oilTemp p) = Potato.size p).
  rewrite Hvx, Hpx. split; [reflexivity|]. split; [reflexivity | exact Cs].
Qed.

Lemma update_airborne_horizontal
    (dt oilTemp oilSurfaceY oilDensity basketBottomY : R) (p : Potato.t) :
  y (Potato.position p) <= oilSurfaceY ->
  let q := Potato.update dt oilTemp oilSurfaceY oilDensity basketBottomY p in
  x (Potato.velocity q) = x (Potato.velocity p) /\
  x (Potato.position q)
  = x (Potato.position p) + x (Potato.velocity p) * dt /\
  Potato.size q = Potato.size p.
Proof.
  intros Hy q. subst q.
  destruct (update_airborne_kinematic dt oilTemp oilSurfaceY oilDensity
              basketBottomY p Hy) as [Ev Ep].
  destruct (thermal_eq _ _ (update_airborne_thermal dt oilTemp
              oilSurfaceY oilDensity basketBottomY p Hy))
    as (_ & _ & _ & _ & _ & _ & _ & _ & Es).
  rewrite Ep, Ev, Es. repeat split; reflexivity.
Qed.

(** X3. [Potato::update] has no horizontal dynamics: in both branches
    the horizontal velocity and the size are unchanged and the horizontal
    position advances by [velocity.x * dt]. *)
Theorem potato_horizontal_motion
    (dt oilTemp oilSurfaceY oilDensity basketBottomY : R) (p : Potato.t) :
  let q := Potato.update dt oilTemp oilSurfaceY oilDensity basketBottomY p in
  x (Potato.velocity q) = x (Potato.velocity p) /\
  x (Potato.position q)
  = x (Potato.position p) + x (Potato.velocity p) * dt /\
  Potato.size q = Potato.size p.
Proof.
  intros q. subst q.
  destruct (Rlt_dec oilSurfaceY (y (Potato.position p))) as [Hy|Hy].
  - (* below the surface: buoyancy, settling and the basket act on the
       vertical components only *)
    now apply update_submerged_horizontal.
  - (* at or above the surface: gravity acts on the vertical velocity *)
    apply Rnot_lt_le in Hy. now apply update_airborne_horizontal.
Qed.

(** X4. The frying clock counts the current immersion only. An update
    that starts at or above the surface clears [isInOil] and keeps
    [timeInOil]; when the fry is then below the surface (it fell, or its
    position was written by the drag override), the next update restarts
    [timeInOil] at the time step of that update and recomputes the
    vigorous phase from it. *)
Theorem potato_reentry_restarts_clock
    (dt1 T1 surf1 dens1 bask1 dt2 T2 surf2 dens2 bask2 : R)
    (pos vel : ofVec2f) (p : Potato.t) :
  y (Potato.position p) <= surf1 ->
  surf2 < y pos ->
  let q := Potato.update dt1 T1 surf1 dens1 bask1 p in
  let q' := Potato.set_velocity vel (Potato.set_position pos q) in
  let r := Potato.update dt2 T2 surf2 dens2 bask2 q' in
  Potato.isInOil q = false /\
  Potato.timeInOil q = Potato.timeInOil p /\
  Potato.isInOil r = true /\
  Potato.timeInOil r = dt2 /\
  Potato.vigorousBubblingPhase r = (dt2 <? 20).
Proof.
  intros Hy1 Hy2 q q' r.
  destruct (thermal_eq _ _ (update_airborne_thermal dt1 T1 surf1 dens1 bask1
                              p Hy1))
    as (_ & _ & _ & _ & _ & Et & Ei & _).
  fold q in Et, Ei.
  change (Potato.timeInOil q = Potato.timeInOil p) in Et.
  change (Potato.isInOil q = false) in Ei.
  clearbody q.
  assert (Hy' : surf2 < y (Potato.position q')) by exact Hy2.
  destruct (thermal_eq _ _ (update_submerged_thermal dt2 T2 surf2 dens2
                              bask2 q' Hy'))
    as (_ & _ & _ & _ & _ & Et' & Ei' & Ev' & _).
  fold r in Et', Ei', Ev'.
  destruct (cook_fields dt2 T2 q') as (Ct & Ci & Cv & _).
  rewrite Ct in Et'. rewrite Ci in Ei'. rewrite Cv in Ev'.
  unfold cook_time in Et', Ev'.
  change (Potato.isInOil q') with (Potato.isInOil q) in Et', Ev'.
  rewrite Ei in Et', Ev'. rewrite Rplus_0_l in Et', Ev'.
  repeat split; assumption.
Qed.

Lemma potato_reentry_restarts_clock_witness :
  Potato.timeInOil
    (Potato.update 0.1 175 315 0.82 508.8
       (Potato.set_velocity (mkVec 0 0)
          (Potato.set_position (mkVec 512 400)
             (Potato.update 0.1 175 315 0.82 508.8
                (Potato.set_position (mkVec 512 200) cooked_fry)))))
  = 0.1.
Proof.
  apply (potato_reentry_restarts_clock 0.1 175 315 0.82 508.8
           0.1 175 315 0.82 508.8 (mkVec 512 400) (mkVec 0 0)
           (Potato.set_position (mkVec 512 200) cooked_fry));
    cbn; lra.
Defined.

Lemma cook_moisture_le (dt : R) (p : Potato.t) :
  0 <= dt ->
  0.01 <= Potato.moistureContent p <= 0.79 ->
  0 <= Potato.crustThickness p <= 1 ->
  0.01 <= cook_moisture dt p <= Potato.moistureContent p.
Proof.
  intros Hdt Hm Hc. unfold cook_moisture.
  destruct (_ >? 100) eqn:HT; [|lra].
  apply fgtb_true_inv in HT.
  set (T := Potato.temperature p) in *.
  set (c := Potato.crustThickness p) in *.
  assert (Hg : 0 <= dt * (T - 100)) by (apply Rmult_le_pos; lra).
  assert (Hb : 0 <= dt * (T - 100) * (1 - 0.3 * c))
    by (apply Rmult_le_pos; lra).
  set (G := dt * (T - 100)) in *.
  assert (Hrate :
    0 <= (if cook_time dt p <? 20 then 0.02 * dt * (T - 100) / 75
          else 0.015 * dt * (T - 100) / 75) * (1 - 0.3 * c)).
  { destruct (_ <? 20).
    - replace (0.02 * dt * (T - 100) / 75 * (1 - 0.3 * c))
        with (0.02 / 75 * (G * (1 - 0.3 * c))) by (unfold G; field).
      apply Rmult_le_pos; lra.
    - replace (0.015 * dt * (T - 100) / 75 * (1 - 0.3 * c))
        with (0.015 / 75 * (G * (1 - 0.3 * c))) by (unfold G; field).
      apply Rmult_le_pos; lra. }
  set (rate := (if _ <? 20 then _ else _) * _) in *.
  unfold ofClamp. fcmp; lra.
Qed.

Lemma cook_crust_ge (dt : R) (p : Potato.t) :
  0 <= dt ->
  0 <= Potato.crustThickness p <= 1 ->
  Potato.crustThickness p <= cook_crust dt p <= 1.
Proof.
  intros Hdt Hc. unfold cook_crust.
  set (c := Potato.crustThickness p) in *.
  assert (Hk : 0 <= (if cook_time dt p <? 40 then 0.035 else 0.010) * dt)
    by (destruct (_ <? 40); apply Rmult_le_pos; lra).
  set (k := _ * dt) in *.
  assert (0 <= k * (1 - c)) by (apply Rmult_le_pos; lra).
  unfold ofClamp. fcmp; lra.
Qed.

Lemma cook_density_moisture (dt : R) (p : Potato.t) :
  0.01 <= cook_moisture dt p <= 0.79 ->
  cook_density dt p = 0.60 + 0.48 * (cook_moisture dt p / 0.79).
Proof.
  intros Hm. unfold cook_density.
  set (m := cook_moisture dt p) in *.
  clearbody m. rewrite ofClamp_id; [lra|]. split; lra.
Qed.

Lemma fry_reachable_density (p : Potato.t) :
  fry_reachable p ->
  Potato.density p = 0.60 + 0.48 * (Potato.moistureContent p / 0.79).
Proof.
  induction 1 as [pos sz|pos p Hr IH|vel p Hr IH
                 |dt T surf dens bask p Hr IH Hdt HT].
  - cbn [Potato.new Potato.density Potato.moistureContent]. lra.
  - exact IH.
  - exact IH.
  - destruct (fry_reachable_sound p Hr) as ((Hm & _ & _ & Hc & _) & _).
    destruct (Rlt_dec surf (y (Potato.position p))) as [Hy|Hy].
    + destruct (thermal_eq _ _ (update_submerged_thermal dt T surf dens
                  bask p Hy)) as (Em & _ & _ & _ & Ed & _).
      destruct (cook_fields dt T p) as (_ & _ & _ & Fm & Fd & _).
      rewrite Em, Ed, Fm, Fd. apply cook_density_moisture.
      destruct (cook_moisture_le dt p ltac:(lra) Hm Hc). lra.
    + apply Rnot_lt_le in Hy.
      destruct (thermal_eq _ _ (update_airborne_thermal dt T surf dens
                  bask p Hy)) as (Em & _ & _ & _ & Ed & _).
      rewrite Em, Ed. exact IH.
Qed.

(** X5. Density follows moisture. For every fry the program can produce,
    [density = 0.60 + 0.48 * moistureContent / 0.79]; as the moisture never
    falls below 0.01, the density stays above 0.606 and never reaches the
    fried density 0.60. *)
Theorem fry_density_follows_moisture (p : Potato.t) :
  fry_reachable p ->
  Potato.density p = 0.60 + 0.48 * (Potato.moistureContent p / 0.79) /\
  0.606 < Potato.density p.
Proof.
  intros Hr. pose proof (fry_reachable_density p Hr) as E.
  split; [exact E|].
  destruct (fry_reachable_sound p Hr) as ((Hm & _) & _).
  rewrite E. unfold Rdiv.
  assert (0.01 * / 0.79 <= Potato.moistureContent p * / 0.79)
    by (apply Rmult_le_compat_r; lra).
  lra.
Qed.

Lemma fry_density_follows_moisture_witness :
  0.606 < Potato.density (Potato.new (mkVec 512 235) (mkVec 120 20)).
Proof.
  apply (fry_density_follows_moisture
           (Potato.new (mkVec 512 235) (mkVec 120 20))).
  apply fr_new.
Defined.

(** X6. Drying is irreversible. For every fry the program can produce
    and every update with a time step [dt >= 0], at any oil temperature,
    the moisture does not increase, the crust thickness does not decrease
    and the density does not increase. *)
Theorem fry_drying_is_irreversible
    (dt oilTemp oilSurfaceY oilDensity basketBottomY : R) (p : Potato.t) :
  fry_reachable p ->
  0 <= dt ->
  let q := Potato.update dt oilTemp oilSurfaceY oilDensity basketBottomY p in
  Potato.moistureContent q <= Potato.moistureContent p /\
  Potato.crustThickness p <= Potato.crustThickness q /\
  Potato.density q <= Potato.density p.
Proof.
  intros Hr Hdt q. subst q.
  destruct (fry_reachable_sound p Hr) as ((Hm & _ & _ & Hc & _) & _).
  destruct (Rlt_dec oilSurfaceY (y (Potato.position p))) as [Hy|Hy].
  - destruct (thermal_eq _ _ (update_submerged_thermal dt oilTemp
                oilSurfaceY oilDensity basketBottomY p Hy))
      as (Em & _ & _ & Ec & Ed & _).
    destruct (cook_fields dt oilTemp p) as (_ & _ & _ & Fm & Fd & Fc & _).
    rewrite Em, Ec, Ed, Fm, Fc, Fd.
    destruct (cook_moisture_le dt p Hdt Hm Hc) as [Hlo Hle].
    split; [exact Hle|]. split; [apply cook_crust_ge; assumption|].
    rewrite cook_density_moisture by lra.
    rewrite (fry_reachable_density p Hr). unfold Rdiv.
    assert (cook_moisture dt p * / 0.79
            <= Potato.moistureContent p * / 0.79)
      by (apply Rmult_le_compat_r; lra).
    lra.
  - apply Rnot_lt_le in Hy.
    destruct (thermal_eq _ _ (update_airborne_thermal dt oilTemp
                oilSurfaceY oilDensity basketBottomY p Hy))
      as (Em & _ & _ & Ec & Ed & _).
    rewrite Em, Ec, Ed. cbn. lra.
Qed.

Lemma fry_drying_is_irreversible_witness :
  Potato.moistureContent
    (Potato.update 0.1 175 315 0.82 508.8
       (Potato.new (mkVec 512 400) (mkVec 120 20)))
  <= Potato.moistureContent (Potato.new (mkVec 512 400) (mkVec 120 20)).
Proof.
  apply (fry_drying_is_irreversible 0.1 175 315 0.82 508.8
           (Potato.new (mkVec 512 400) (mkVec 120 20))).
  - apply fr_new.
  - lra.
Defined.

(** ** The colour of the fry and the bubble sites *)

(** X7. The cooking colour. For cookedness in [[0,1]] the blue channel of
    [getCookingColor] does not increase as cookedness grows (the fry browns),
    red stays in [[190,245]], green in [[150,230]], blue in [[80,175]] and
    the colour is opaque. *)
Theorem cooking_color_browns (p q : Potato.t) :
  0 <= Potato.cookedness p ->
  Potato.cookedness p <= Potato.cookedness q ->
  Potato.cookedness q <= 1 ->
  cb (Potato.getCookingColor q) <= cb (Potato.getCookingColor p) /\
  190 <= cr (Potato.getCookingColor p) <= 245 /\
  150 <= cg (Potato.getCookingColor p) <= 230 /\
  80 <= cb (Potato.getCookingColor p) <= 175 /\
  ca (Potato.getCookingColor p) = 255.
Proof.
  intros H0 Hle H1. unfold Potato.getCookingColor. cbv zeta.
  set (c1 := Potato.cookedness p) in *.
  set (c2 := Potato.cookedness q) in *.
  clearbody c1 c2.
  unfold getLerped, rgb.
  destruct (Rlt_dec c1 0.25) as [A1|A1];
    [rewrite (fltb_true c1 0.25) by lra
    |rewrite (fltb_false c1 0.25) by lra;
     destruct (Rlt_dec c1 0.5) as [A2|A2];
     [rewrite (fltb_true c1 0.5) by lra
     |rewrite (fltb_false c1 0.5) by lra;
      destruct (Rlt_dec c1 0.65) as [A3|A3];
      [rewrite (fltb_true c1 0.65) by lra
      |rewrite (fltb_false c1 0.65) by lra;
       destruct (Rlt_dec c1 0.85) as [A4|A4];
       [rewrite (fltb_true c1 0.85) by lra
       |rewrite (fltb_false c1 0.85) by lra]]]];
  (destruct (Rlt_dec c2 0.25) as [B1|B1];
    [rewrite (fltb_true c2 0.25) by lra
    |rewrite (fltb_false c2 0.25) by lra;
     destruct (Rlt_dec c2 0.5) as [B2|B2];
     [rewrite (fltb_true c2 0.5) by lra
     |rewrite (fltb_false c2 0.5) by lra;
      destruct (Rlt_dec c2 0.65) as [B3|B3];
      [rewrite (fltb_true c2 0.65) by lra
      |rewrite (fltb_false c2 0.65) by lra;
       destruct (Rlt_dec c2 0.85) as [B4|B4];
       [rewrite (fltb_true c2 0.85) by lra
       |rewrite (fltb_false c2 0.85) by lra]]]]);
  cbn [cr cg cb ca]; repeat split; lra.
Qed.

Lemma cooking_color_browns_witness :
  cb (Potato.getCookingColor cooked_fry)
  <= cb (Potato.getCookingColor (Potato.new (mkVec 512 400) (mkVec 120 20))).
Proof.
  apply (cooking_color_browns (Potato.new (mkVec 512 400) (mkVec 120 20))
           cooked_fry); cbn; lra.
Defined.
Lemma ofRandom2_range (a b : R) (g : RNG) :
  a <= b -> 0 <= g O <= 1 ->
  a <= fst (ofRandom2 a b g) <= b.
Proof.
  intros Hab Hg. unfold ofRandom2, bind, draw, ret. cbn [fst].
  rewrite Rmin_left, Rmax_right by lra.
  assert (0 <= (b - a) * g O) by (apply Rmult_le_pos; lra).
  assert ((b - a) * g O <= (b - a) * 1)
    by (apply Rmult_le_compat_l; lra).
  lra.
Qed.

Lemma getSurfacePointForBubble_eval (p : Potato.t) (g : RNG) :
  let hx := x (Potato.size p) / 2 in
  let hy := y (Potato.size p) / 2 in
  let x_offset := fst (ofRandom2 (- x (Potato.size p) / 2) hx g) in
  let y_offset :=
    fst (ofRandom2 (- y (Potato.size p) / 2) hy (fun n => g (S n))) in
  fst (Potato.getSurfacePointForBubble p g)
  = if 1 * g 2%nat <? 0.90 then
      if 1 * g 3%nat <? 0.5 then
        mkVec (x (Potato.position p) + x_offset)
              (y (Potato.position p)
               + (if 1 * g 4%nat <? 0.5 then - y (Potato.size p) / 2
                  else hy))
      else
        mkVec (x (Potato.position p)
               + (if 1 * g 4%nat <? 0.5 then - x (Potato.size p) / 2
                  else hx))
              (y (Potato.position p) + y_offset)
    else mkVec (x (Potato.position p) + x_offset)
               (y (Potato.position p) + y_offset).
Proof.
  cbv beta iota zeta delta
    [Potato.getSurfacePointForBubble bind ofRandom2 ofRandom1 draw ret
     fst snd].
  destruct (1 * g 2%nat <? 0.90); [|reflexivity].
  cbv beta iota zeta delta [fst snd].
  destruct (1 * g 3%nat <? 0.5); reflexivity.
Qed.



(** X8. Bubble sites. For draws of the generator in [[0,1]] and a fry of
    non-negative size, [getSurfacePointForBubble] returns a point of the
    rectangle of the fry; when the third draw is below 0.90 the point lies
    on one of its four edges. *)
Theorem surface_point_on_fry (p : Potato.t) (g : RNG) :
  unit_draws g ->
  0 <= x (Potato.size p) -> 0 <= y (Potato.size p) ->
  let pt := fst (Potato.getSurfacePointForBubble p g) in
  let hx := x (Potato.size p) / 2 in
  let hy := y (Potato.size p) / 2 in
  x (Potato.position p) - hx <= x pt <= x (Potato.position p) + hx /\
  y (Potato.position p) - hy <= y pt <= y (Potato.position p) + hy /\
  (g 2%nat < 0.90 ->
   x pt = x (Potato.position p) - hx \/ x pt = x (Potato.position p) + hx \/
   y pt = y (Potato.position p) - hy \/ y pt = y (Potato.position p) + hy).
Proof.
  intros Hg Hsx Hsy pt hx hy. subst pt.
  rewrite getSurfacePointForBubble_eval. cbv zeta. fold hx hy.
  assert (Hx : - x (Potato.size p) / 2
               <= fst (ofRandom2 (- x (Potato.size p) / 2) hx g) <= hx)
    by (apply ofRandom2_range; [unfold hx; lra | apply Hg]).
  assert (Hy : - y (Potato.size p) / 2
               <= fst (ofRandom2 (- y (Potato.size p) / 2) hy
                         (fun n => g (S n))) <= hy)
    by (apply ofRandom2_range; [unfold hy; lra | apply Hg]).
  set (xo := fst (ofRandom2 _ hx g)) in *.
  set (yo := fst (ofRandom2 _ hy _)) in *.
  assert (Ex : - x (Potato.size p) / 2 = - hx) by (unfold hx; lra).
  assert (Ey : - y (Potato.size p) / 2 = - hy) by (unfold hy; lra).
  rewrite Ex, Ey in *.
  assert (Hhx : 0 <= hx) by (unfold hx; lra).
  assert (Hhy : 0 <= hy) by (unfold hy; lra).
  clearbody xo yo hx hy.
  destruct (1 * g 2%nat <? 0.90) eqn:H90.
  - destruct (1 * g 3%nat <? 0.5);
      destruct (1 * g 4%nat <? 0.5); cbn [x y];
      (split; [lra|]); (split; [lra|]); intros _.
    + right; right; left; lra.
    + right; right; right; lra.
    + left; lra.
    + right; left; lra.
  - cbn [x y]. split; [lra|]. split; [lra|].
    intros Hlt. apply fltb_false_inv in H90. lra.
Qed.

Lemma surface_point_on_fry_witness :
  512 - 120 / 2
  <= x (fst (Potato.getSurfacePointForBubble cooked_fry (fun _ => 0)))
  <= 512 + 120 / 2.
Proof.
  apply (surface_point_on_fry cooked_fry (fun _ => 0)).
  - intros n. lra.
  - cbn; lra.
  - cbn; lra.
Defined.

(** ** Heat transfer *)



(** X10. The effective heat transfer coefficient. For a crust thickness in
    [[0,1]] and a non-negative frying clock the coefficient lies between
    0.0125 (full crust, no boost) and 0.125 (no crust, full boost); outside
    the vigorous phase it is [0.025 * (1 - 0.5 * crustThickness)]. *)
Theorem heat_transfer_coefficient_range (p : Potato.t) :
  0 <= Potato.crustThickness p <= 1 ->
  0 <= Potato.timeInOil p ->
  0.0125 <= Potato.getEffectiveHeatTransferCoefficient p <= 0.125 /\
  (Potato.vigorousBubblingPhase p = false ->
   Potato.getEffectiveHeatTransferCoefficient p
   = 0.025 * (1 - 0.5 * Potato.crustThickness p)).
Proof.
  intros Hc Ht. unfold Potato.getEffectiveHeatTransferCoefficient.
  cbv zeta.
  set (c := Potato.crustThickness p) in *.
  set (t := Potato.timeInOil p) in *.
  destruct (Potato.vigorousBubblingPhase p).
  - split; [|discriminate].
    assert (He : 0 < exp (- t / 20) <= 1)
      by (apply exp_nonpos_bounds; lra).
    set (e := exp (- t / 20)) in *.
    assert (HA : 0.025 <= 0.025 * (1 + 4 * e) <= 0.125) by lra.
    assert (HB : 0.5 <= 1 - 0.5 * c <= 1) by lra.
    set (A := 0.025 * (1 + 4 * e)) in *. set (B := 1 - 0.5 * c) in *.
    clearbody A B.
    assert (0 <= (A - 0.025) * (B - 0.5)) by (apply Rmult_le_pos; lra).
    assert (0 <= (0.125 - A) * B) by (apply Rmult_le_pos; lra).
    split; nra.
  - split; [split; nra | reflexivity].
Qed.

Lemma heat_transfer_coefficient_range_witness :
  0.0125 <= Potato.getEffectiveHeatTransferCoefficient cooked_fry <= 0.125.
Proof.
  apply (heat_transfer_coefficient_range cooked_fry); cbn; lra.
Defined.

(** ** Construction of a bubble *)

Lemma radius_ratio (depth u : R) :
  0 <= u <= 1 ->
  let r := 2.5 + (7.0 - 2.5) * u in
  (depth < 1.25 -> depth / r < 0.5) /\
  (3.5 <= depth -> 0.5 <= depth / r) /\
  (depth < 3.75 -> depth / r < 1.5) /\
  (10.5 <= depth -> 1.5 <= depth / r).
Proof.
  intros Hu r.
  assert (Hr : 2.5 <= r <= 7) by (unfold r; lra).
  assert (Hp : 0 < r) by lra.
  assert (Hi : 0 < / r) by (apply Rinv_0_lt_compat; lra).
  assert (E : forall k, k = k * r * / r) by (intros; field; lra).
  clearbody r. unfold Rdiv.
  repeat split; intros Hd.
  - rewrite (E 0.5). apply Rmult_lt_compat_r; lra.
  - rewrite (E 0.5). apply Rmult_le_compat_r; lra.
  - rewrite (E 1.5). apply Rmult_lt_compat_r; lra.
  - rewrite (E 1.5). apply Rmult_le_compat_r; lra.
Qed.

Lemma PI_nonneg : 0 <= Bubble.TWO_PI.
Proof. unfold Bubble.TWO_PI. pose proof PI_RGT_0. lra. Qed.

Lemma bubble_new_fields (pos : ofVec2f) (oilTemp depth surfaceY : R)
    (g : RNG) :
  unit_draws g ->
  let b := fst (Bubble.new pos oilTemp depth surfaceY g) in
  let r := 2.5 + (7.0 - 2.5) * g O in
  fresh_bubble pos depth surfaceY b /\
  type_ranges b /\
  Bubble.bubbleType b
  = (if depth / r <? 0.5 then 0%Z else if depth / r <? 1.5 then 1%Z
     else 2%Z) /\
  Bubble.color b
  = (let baseIntensity := truncZ (ofMap oilTemp 160 190 200 255 true) in
     mkColor (IZR baseIntensity) (IZR (baseIntensity - 5))
       (IZR (baseIntensity - 30)) 200).
Proof.
  intros Hg b r. subst b.
  pose proof PI_nonneg as Hpi.
  unfold Bubble.new, bind, ofRandom2, draw, ret.
  cbn -[Rmin Rmax ofMap truncZ Bubble.TWO_PI fltb Z.eqb]. eval_minmax.
  fold r.
  pose proof (Hg 1%nat) as G1. pose proof (Hg 2%nat) as G2.
  pose proof (Hg 3%nat) as G3. pose proof (Hg 4%nat) as G4.
  pose proof (Hg 5%nat) as G5. pose proof (Hg 6%nat) as G6.
  pose proof (Hg 7%nat) as G7.
  destruct (depth / r <? 0.5);
    [|destruct (depth / r <? 1.5)];
    cbn -[Rmin Rmax ofMap truncZ Bubble.TWO_PI]; eval_minmax;
    unfold fresh_bubble, type_ranges;
    cbn -[Rmin Rmax ofMap truncZ Bubble.TWO_PI];
    (split; [repeat split; try reflexivity;
             try (apply lerp_range; lra); try lra|]);
    (split; [|split; reflexivity]).
  - pose proof (lerp_range (-70) 70 (g 1%nat)).
    pose proof (lerp_range (-200) (-140) (g 2%nat)).
    pose proof (lerp_range 3 7 (g 3%nat)).
    pose proof (lerp_range 0.4 0.9 (g 5%nat)).
    pose proof (scaled_range (3 + (7 - 3) * g 3%nat) 0.15 0.35 (g 4%nat)).
    repeat split; try reflexivity; lra.
  - pose proof (lerp_range (-20) 20 (g 1%nat)).
    pose proof (lerp_range (-220) (-150) (g 2%nat)).
    pose proof (lerp_range 3 6 (g 3%nat)).
    pose proof (lerp_range 0.7 1.4 (g 5%nat)).
    pose proof (scaled_range (3 + (6 - 3) * g 3%nat) 1.8 2.8 (g 4%nat)).
    repeat split; try reflexivity; lra.
  - pose proof (lerp_range (-25) 25 (g 1%nat)).
    pose proof (lerp_range (-130) (-80) (g 2%nat)).
    pose proof (lerp_range 6 14 (g 3%nat)).
    pose proof (lerp_range 1.2 2.5 (g 5%nat)).
    pose proof (lerp_range 14 30 (g 6%nat)).
    pose proof (scaled_range (6 + (14 - 6) * g 3%nat) 0.9 1.3 (g 4%nat)).
    repeat split; try reflexivity; lra.
Qed.



(** X12. Bubble type by depth. For draws of the generator in [[0,1]] the
    estimated radius is in [[2.5,7]], so a depth below 1.25 always gives an
    explosion bubble (type 0), a depth of at least 3.5 never does, a depth
    below 3.75 never gives an oscillating bubble (type 2), and a depth of
    at least 10.5 always does. *)
Theorem bubble_type_by_depth (pos : ofVec2f)
    (oilTemp depth surfaceY : R) (g : RNG) :
  unit_draws g ->
  let b := fst (Bubble.new pos oilTemp depth surfaceY g) in
  (depth < 1.25 -> Bubble.bubbleType b = 0%Z) /\
  (3.5 <= depth -> Bubble.bubbleType b <> 0%Z) /\
  (depth < 3.75 -> Bubble.bubbleType b <> 2%Z) /\
  (10.5 <= depth -> Bubble.bubbleType b = 2%Z).
Proof.
  intros Hg b.
  destruct (bubble_new_fields pos oilTemp depth surfaceY g Hg)
    as (_ & _ & Ht & _).
  fold b in Ht. rewrite Ht. clear Ht. cbv zeta.
  destruct (radius_ratio depth (g O) (Hg O)) as (R1 & R2 & R3 & R4).
  cbv zeta in R1, R2, R3, R4.
  set (r := 2.5 + (7.0 - 2.5) * g O) in *.
  repeat split; intros Hd.
  - rewrite fltb_true by auto. reflexivity.
  - rewrite fltb_false by auto. destruct (_ <? 1.5); discriminate.
  - destruct (_ <? 0.5); [discriminate|].
    rewrite fltb_true by auto. discriminate.
  - assert (1.5 <= depth / r) by auto.
    rewrite (fltb_false _ 0.5) by lra. rewrite fltb_false by lra.
    reflexivity.
Qed.

Lemma bubble_type_by_depth_witness :
  Bubble.bubbleType
    (fst (Bubble.new (mkVec 500 400) 175 85 315 (fun _ => 0))) = 2%Z.
Proof.
  apply (bubble_type_by_depth (mkVec 500 400) 175 85 315 (fun _ => 0)).
  - intros n. lra.
  - lra.
Defined.

(** ** One update of a bubble *)

Lemma shape_eq (b c : Bubble.t) :
  shape b = shape c ->
  Bubble.bubbleType b = Bubble.bubbleType c /\
  Bubble.startSize b = Bubble.startSize c /\
  Bubble.endSize b = Bubble.endSize c /\
  Bubble.lifespan b = Bubble.lifespan c /\
  Bubble.oscillationSpeed b = Bubble.oscillationSpeed c /\
  Bubble.wobblePhase b = Bubble.wobblePhase c /\
  Bubble.maxTrailLength b = Bubble.maxTrailLength c /\
  Bubble.initialDepth b = Bubble.initialDepth c /\
  Bubble.oilSurfaceY b = Bubble.oilSurfaceY c.
Proof.
  unfold shape; intros H; injection H; intros; repeat split; assumption.
Qed.

Lemma detectSurface_shape (b : Bubble.t) :
  shape (Bubble.detectSurface b) = shape b.
Proof. unfold Bubble.detectSurface; cbv zeta; split_ifs; reflexivity. Qed.

Lemma move_shape (now dt visc : R) (b : Bubble.t) :
  shape (Bubble.move now dt visc b) = shape b.
Proof. reflexivity. Qed.

Lemma resize_shape (dt : R) (b : Bubble.t) :
  shape (Bubble.resize dt b) = shape b.
Proof. unfold Bubble.resize; cbv zeta; split_ifs; reflexivity. Qed.

Lemma updateTrail_shape (b : Bubble.t) :
  shape (Bubble.updateTrail b) = shape b.
Proof. unfold Bubble.updateTrail; cbv zeta; split_ifs; reflexivity. Qed.

Lemma fade_shape (b : Bubble.t) : shape (Bubble.fade b) = shape b.
Proof. unfold Bubble.fade; cbv zeta; split_ifs; reflexivity. Qed.

Lemma set_acceleration_shape (a : ofVec2f) (b : Bubble.t) :
  shape (Bubble.set_acceleration a b) = shape b.
Proof. reflexivity. Qed.

Lemma update_shape (now dt visc : R) (b : Bubble.t) :
  shape (Bubble.update now dt visc b) = shape b.
Proof.
  unfold Bubble.update. cbv zeta.
  destruct (_ <=? 0); [reflexivity|].
  name_update_blocks now dt visc.
  rewrite set_acceleration_shape.
  unfold b5, b4, b3, b2, b1.
  rewrite fade_shape, updateTrail_shape, resize_shape, move_shape,
    detectSurface_shape. reflexivity.
Qed.

(** The trail after the trail block. *)
Lemma updateTrail_trail (b : Bubble.t) :
  trail_bounded b -> trail_bounded (Bubble.updateTrail b).
Proof.
  unfold trail_bounded, Bubble.updateTrail. cbv zeta. intros H.
  destruct (_ || _)%bool; [|exact H].
  cbn [Bubble.set_trail Bubble.trail Bubble.maxTrailLength].
  destruct (_ >? _)%Z eqn:Hgt.
  - cbn [Bubble.set_trail Bubble.trail Bubble.maxTrailLength].
    destruct (Bubble.trail b) as [|p0 t]; cbn [app tl length] in *.
    + lia.
    + rewrite length_app in *. cbn [length] in *. lia.
  - rewrite Z.gtb_ltb in Hgt. apply Z.ltb_ge in Hgt.
    cbn [Bubble.set_trail Bubble.trail Bubble.maxTrailLength]. exact Hgt.
Qed.

Lemma trail_bounded_ext (b c : Bubble.t) :
  Bubble.trail c = Bubble.trail b ->
  Bubble.maxTrailLength c = Bubble.maxTrailLength b ->
  trail_bounded b -> trail_bounded c.
Proof. unfold trail_bounded. intros -> ->. tauto. Qed.

Lemma detectSurface_trail (b : Bubble.t) :
  Bubble.trail (Bubble.detectSurface b) = Bubble.trail b.
Proof. unfold Bubble.detectSurface; cbv zeta; split_ifs; reflexivity. Qed.

Lemma resize_trail (dt : R) (b : Bubble.t) :
  Bubble.trail (Bubble.resize dt b) = Bubble.trail b.
Proof. unfold Bubble.resize; cbv zeta; split_ifs; reflexivity. Qed.

Lemma fade_trail (b : Bubble.t) :
  Bubble.trail (Bubble.fade b) = Bubble.trail b.
Proof. unfold Bubble.fade; cbv zeta; split_ifs; reflexivity. Qed.

Lemma update_trail_bounded (now dt visc : R) (b : Bubble.t) :
  trail_bounded b -> trail_bounded (Bubble.update now dt visc b).
Proof.
  intros H. unfold Bubble.update. cbv zeta.
  destruct (_ <=? 0); [exact H|].
  name_update_blocks now dt visc.
  assert (H1 : trail_bounded b1).
  { apply (trail_bounded_ext b);
      [apply (detectSurface_trail
                (Bubble.set_life (Bubble.life b - dt / Bubble.lifespan b) b))
      | |exact H].
    destruct (shape_eq _ _ (detectSurface_shape
                              (Bubble.set_life
                                 (Bubble.life b - dt / Bubble.lifespan b) b)))
      as (_ & _ & _ & _ & _ & _ & E & _).
    exact E. }
  assert (H3 : trail_bounded b3).
  { apply (trail_bounded_ext b1);
      [transitivity (Bubble.trail b2); [apply resize_trail | reflexivity]
      | |exact H1].
    destruct (shape_eq _ _ (resize_shape dt b2))
      as (_ & _ & _ & _ & _ & _ & E & _).
    transitivity (Bubble.maxTrailLength b2); [exact E | reflexivity]. }
  apply updateTrail_trail in H3. fold b4 in H3.
  apply (trail_bounded_ext b4); [apply fade_trail| |exact H3].
  destruct (shape_eq _ _ (fade_shape b4))
    as (_ & _ & _ & _ & _ & _ & E & _).
  exact E.
Qed.

(** The visible fields after the size and fade blocks. *)
Lemma resize_look (dt : R) (b : Bubble.t) :
  let eased := (1 - Bubble.life b) * (1 - Bubble.life b) in
  let s := ofLerp (Bubble.startSize b) (Bubble.endSize b) eased in
  Bubble.size (Bubble.resize dt b)
  = (if (Bubble.bubbleType b =? 2)%Z
     then s + sin (Bubble.oscillation b + Bubble.oscillationSpeed b * dt)
              * (Bubble.startSize b * 0.22)
     else s) /\
  Bubble.oscillation (Bubble.resize dt b)
  = (if (Bubble.bubbleType b =? 2)%Z
     then Bubble.oscillation b + Bubble.oscillationSpeed b * dt
     else Bubble.oscillation b) /\
  Bubble.color (Bubble.resize dt b) = Bubble.color b.
Proof.
  unfold Bubble.resize. cbv zeta.
  cbn [Bubble.set_size Bubble.bubbleType].
  destruct (_ =? 2)%Z; repeat split; reflexivity.
Qed.

Lemma fade_look (b : Bubble.t) :
  let pop := 1 - Bubble.life b / 0.15 in
  Bubble.size (Bubble.fade b)
  = (if Bubble.reachedSurface b then Bubble.size b * (1 + pop * 0.5)
     else Bubble.size b) /\
  ca (Bubble.color (Bubble.fade b))
  = (if Bubble.reachedSurface b then ofMap pop 0 1 200 0 false
     else ofMap (Bubble.life b) 0 1 60 200 true) /\
  cr (Bubble.color (Bubble.fade b)) = cr (Bubble.color b) /\
  cg (Bubble.color (Bubble.fade b)) = cg (Bubble.color b) /\
  cb (Bubble.color (Bubble.fade b)) = cb (Bubble.color b) /\
  Bubble.oscillation (Bubble.fade b) = Bubble.oscillation b.
Proof.
  unfold Bubble.fade. cbv zeta.
  destruct (Bubble.reachedSurface b); repeat split; reflexivity.
Qed.

Lemma detectSurface_look (b : Bubble.t) :
  Bubble.size (Bubble.detectSurface b) = Bubble.size b /\
  Bubble.color (Bubble.detectSurface b) = Bubble.color b /\
  Bubble.oscillation (Bubble.detectSurface b) = Bubble.oscillation b.
Proof.
  unfold Bubble.detectSurface; cbv zeta; split_ifs; repeat split; reflexivity.
Qed.

Lemma updateTrail_look (b : Bubble.t) :
  Bubble.size (Bubble.updateTrail b) = Bubble.size b /\
  Bubble.color (Bubble.updateTrail b) = Bubble.color b /\
  Bubble.oscillation (Bubble.updateTrail b) = Bubble.oscillation b.
Proof.
  unfold Bubble.updateTrail; cbv zeta; split_ifs; repeat split; reflexivity.
Qed.

Lemma update_alive_eq (now dt visc : R) (b : Bubble.t) :
  0 < Bubble.life b - dt / Bubble.lifespan b ->
  Bubble.update now dt visc b
  = let b5 :=
      Bubble.fade (Bubble.updateTrail (Bubble.resize dt
        (Bubble.move now dt visc (Bubble.detectSurface
           (Bubble.set_life (Bubble.life b - dt / Bubble.lifespan b) b)))))
    in Bubble.set_acceleration (vscale (Bubble.acceleration b5) 0) b5.
Proof.
  intros H. unfold Bubble.update. cbv zeta.
  change (Bubble.life (Bubble.set_life ?l b)) with l.
  rewrite fleb_false by exact H. reflexivity.
Qed.

(** The size, the oscillation phase and the colour of a surviving bubble
    after [update], in terms of the life and the flag that [update_alive]
    gives. *)
Lemma update_alive_look (now dt visc : R) (b : Bubble.t) :
  0 < Bubble.life b - dt / Bubble.lifespan b ->
  let b' := Bubble.update now dt visc b in
  let pop := 1 - Bubble.life b' / 0.15 in
  let eased := (1 - Bubble.life b') * (1 - Bubble.life b') in
  let s := ofLerp (Bubble.startSize b) (Bubble.endSize b) eased in
  let s := if (Bubble.bubbleType b =? 2)%Z
           then s + sin (Bubble.oscillation b
                         + Bubble.oscillationSpeed b * dt)
                    * (Bubble.startSize b * 0.22)
           else s in
  Bubble.size b'
  = (if Bubble.reachedSurface b' then s * (1 + pop * 0.5) else s) /\
  ca (Bubble.color b')
  = (if Bubble.reachedSurface b' then ofMap pop 0 1 200 0 false
     else ofMap (Bubble.life b') 0 1 60 200 true) /\
  cr (Bubble.color b') = cr (Bubble.color b) /\
  cg (Bubble.color b') = cg (Bubble.color b) /\
  cb (Bubble.color b') = cb (Bubble.color b) /\
  Bubble.oscillation b'
  = (if (Bubble.bubbleType b =? 2)%Z
     then Bubble.oscillation b + Bubble.oscillationSpeed b * dt
     else Bubble.oscillation b).
Proof.
  intros H. cbv zeta. rewrite update_alive_eq by exact H. cbv zeta.
  remember (Bubble.set_life (Bubble.life b - dt / Bubble.lifespan b) b)
    as b0 eqn:E0.
  assert (S0 : shape b0 = shape b) by (subst b0; reflexivity).
  assert (C0 : Bubble.color b0 = Bubble.color b) by (subst b0; reflexivity).
  assert (O0 : Bubble.oscillation b0 = Bubble.oscillation b)
    by (subst b0; reflexivity).
  clear E0.
  pose proof (detectSurface_shape b0) as S1.
  destruct (detectSurface_look b0) as (_ & C1 & O1).
  remember (Bubble.detectSurface b0) as b1 eqn:E1. clear E1.
  assert (S2 : shape (Bubble.move now dt visc b1) = shape b1)
    by reflexivity.
  assert (K2 : core (Bubble.move now dt visc b1)
               = (Bubble.life b1, Bubble.isDead b1, Bubble.reachedSurface b1,
                  Bubble.lifespan b1, Bubble.oilSurfaceY b1,
                  Bubble.velocity (Bubble.move now dt visc b1),
                  Bubble.acceleration (Bubble.move now dt visc b1),
                  Bubble.position (Bubble.move now dt visc b1)))
    by reflexivity.
  assert (C2 : Bubble.color (Bubble.move now dt visc b1) = Bubble.color b1)
    by reflexivity.
  assert (O2 : Bubble.oscillation (Bubble.move now dt visc b1)
               = Bubble.oscillation b1) by reflexivity.
  remember (Bubble.move now dt visc b1) as b2 eqn:E2. clear E2.
  injection K2 as L2 _ R2 _ _.
  pose proof (resize_shape dt b2) as S3.
  destruct (core_eq _ _ (resize_core dt b2)) as (L3 & _ & R3 & _).
  destruct (resize_look dt b2) as (Z3 & O3 & C3). cbv zeta in Z3.
  remember (Bubble.resize dt b2) as b3 eqn:E3. clear E3.
  pose proof (updateTrail_shape b3) as S4.
  destruct (core_eq _ _ (updateTrail_core b3)) as (L4 & _ & R4 & _).
  destruct (updateTrail_look b3) as (Z4 & C4 & O4).
  remember (Bubble.updateTrail b3) as b4 eqn:E4. clear E4.
  destruct (core_eq _ _ (fade_core b4)) as (L5 & _ & R5 & _).
  destruct (fade_look b4) as (Z5 & A5 & Cr5 & Cg5 & Cb5 & O5).
  cbv zeta in Z5, A5.
  remember (Bubble.fade b4) as b5 eqn:E5. clear E5.
  cbn [Bubble.set_acceleration Bubble.size Bubble.life Bubble.color
       Bubble.reachedSurface Bubble.oscillation].
  destruct (shape_eq _ _ S0) as (T0 & A0 & B0 & _ & P0 & _).
  destruct (shape_eq _ _ S1) as (T1 & A1 & B1 & _ & P1 & _).
  destruct (shape_eq _ _ S2) as (T2 & A2 & B2 & _ & P2 & _).
  rewrite Z5, A5, Cr5, Cg5, Cb5, O5, L5, R5, Z4, C4, O4, L4, R4, Z3, O3, C3,
    L3, T2, A2, B2, P2, C2, O2, T1, A1, B1, P1, C1, O1, T0, A0, B0, P0,
    C0, O0.
  repeat split; reflexivity.
Qed.

Lemma updateTrail_nonempty (b : Bubble.t) :
  (1 <= Bubble.maxTrailLength b)%Z ->
  Bubble.trail (Bubble.updateTrail b) <> [].
Proof.
  intros Hmax. unfold Bubble.updateTrail. cbv zeta.
  destruct (Bubble.trail b) as [|p0 t] eqn:Et.
  - cbn [length Nat.eqb orb app].
    cbn [Bubble.set_trail Bubble.trail Bubble.maxTrailLength app length].
    destruct (_ >? _)%Z eqn:Hgt.
    + rewrite Z.gtb_ltb in Hgt. apply Z.ltb_lt in Hgt. cbn in Hgt. lia.
    + cbn [Bubble.set_trail Bubble.trail]. intros E; discriminate E.
  - destruct (_ || _)%bool; [|rewrite Et; intros E; discriminate E].
    cbn [Bubble.set_trail Bubble.trail Bubble.maxTrailLength app length].
    destruct (_ >? _)%Z.
    + cbn [Bubble.set_trail Bubble.trail tl].
      destruct t; intros E; discriminate E.
    + cbn [Bubble.set_trail Bubble.trail]. intros E; discriminate E.
Qed.

(** X13. The trail of a bubble. [Bubble::update] keeps [maxTrailLength]
    and keeps the trail within [maxTrailLength] points; a bubble that
    survives the update with [maxTrailLength >= 1] has a non-empty trail. *)
Theorem bubble_trail_stays_bounded (now dt visc : R) (b : Bubble.t) :
  trail_bounded b ->
  let b' := Bubble.update now dt visc b in
  trail_bounded b' /\
  Bubble.maxTrailLength b' = Bubble.maxTrailLength b /\
  (0 < Bubble.life b - dt / Bubble.lifespan b ->
   (1 <= Bubble.maxTrailLength b)%Z -> Bubble.trail b' <> []).
Proof.
  intros H b'. subst b'.
  split; [now apply update_trail_bounded|].
  destruct (shape_eq _ _ (update_shape now dt visc b))
    as (_ & _ & _ & _ & _ & _ & Em & _).
  split; [exact Em|].
  intros Halive Hmax. rewrite update_alive_eq by exact Halive. cbv zeta.
  remember (Bubble.resize dt (Bubble.move now dt visc
              (Bubble.detectSurface
                 (Bubble.set_life (Bubble.life b - dt / Bubble.lifespan b)
                    b)))) as b3 eqn:E3.
  assert (M3 : Bubble.maxTrailLength b3 = Bubble.maxTrailLength b).
  { subst b3.
    destruct (shape_eq _ _ (resize_shape dt (Bubble.move now dt visc
                (Bubble.detectSurface
                   (Bubble.set_life (Bubble.life b - dt / Bubble.lifespan b)
                      b))))) as (_ & _ & _ & _ & _ & _ & E & _).
    rewrite E.
    destruct (shape_eq _ _ (detectSurface_shape
                (Bubble.set_life (Bubble.life b - dt / Bubble.lifespan b)
                   b))) as (_ & _ & _ & _ & _ & _ & E' & _).
    exact E'. }
  clear E3.
  pose proof (updateTrail_nonempty b3 ltac:(lia)) as Hne.
  pose proof (fade_trail (Bubble.updateTrail b3)) as Ef.
  remember (Bubble.fade (Bubble.updateTrail b3)) as b5 eqn:E5. clear E5.
  cbn [Bubble.set_acceleration Bubble.trail]. rewrite Ef. exact Hne.
Qed.

Lemma bubble_trail_stays_bounded_witness :
  trail_bounded (Bubble.update 0 0.1 0.003 (Bubble.set_life 1 late_bubble)).
Proof.
  apply (bubble_trail_stays_bounded 0 0.1 0.003
           (Bubble.set_life 1 late_bubble)).
  unfold trail_bounded. cbn. lia.
Defined.


(** X15. Bubbles keep rising. For a bubble with zero vertical acceleration
    that does not move down, a time step [dt >= 0] and a drag factor
    [oilViscosity * 20 * dt] in [[0,1]], a surviving update multiplies the
    vertical velocity by [1 - oilViscosity * 20 * dt]: the bubble slows
    down, never reverses, does not move down, and its acceleration is reset
    to zero. *)
Theorem bubble_keeps_rising (now dt visc : R) (b : Bubble.t) :
  0 <= dt -> 0 <= visc * 20 * dt <= 1 ->
  y (Bubble.acceleration b) = 0 ->
  y (Bubble.velocity b) <= 0 ->
  0 < Bubble.life b - dt / Bubble.lifespan b ->
  let b' := Bubble.update now dt visc b in
  y (Bubble.velocity b')
  = y (Bubble.velocity b) * (1 - visc * 20 * dt) /\
  y (Bubble.velocity b) <= y (Bubble.velocity b') <= 0 /\
  y (Bubble.position b')
  = y (Bubble.position b) + y (Bubble.velocity b') * dt /\
  y (Bubble.position b') <= y (Bubble.position b) /\
  Bubble.acceleration b' = mkVec 0 0.
Proof.
  intros Hdt Hk Ha Hv Halive b'. subst b'.
  destruct (update_alive now dt visc b Halive)
    as (_ & _ & _ & _ & _ & Aa & Av & Ay).
  rewrite Ha in Av.
  assert (Ev : y (Bubble.velocity (Bubble.update now dt visc b))
               = y (Bubble.velocity b) * (1 - visc * 20 * dt))
    by (rewrite Av; ring).
  set (v := y (Bubble.velocity b)) in *.
  set (v' := y (Bubble.velocity (Bubble.update now dt visc b))) in *.
  assert (Hv' : v <= v' <= 0).
  { rewrite Ev. set (k := visc * 20 * dt) in *.
    assert (0 <= (- v) * k) by (apply Rmult_le_pos; lra).
    assert ((- v) * k <= (- v) * 1) by (apply Rmult_le_compat_l; lra).
    split; lra. }
  split; [exact Ev|]. split; [exact Hv'|]. split; [exact Ay|].
  split.
  - rewrite Ay. assert (0 <= (- v') * dt) by (apply Rmult_le_pos; lra). lra.
  - rewrite Aa. unfold vscale. cbn [x y]. f_equal; ring.
Qed.

Lemma bubble_keeps_rising_witness :
  y (Bubble.position
       (Bubble.update 0 0.1 0.003 (Bubble.set_life 1 late_bubble)))
  <= y (Bubble.position (Bubble.set_life 1 late_bubble)).
Proof.
  apply (bubble_keeps_rising 0 0.1 0.003 (Bubble.set_life 1 late_bubble));
    cbn; lra.
Defined.

(** X16. The size of a bubble. For a bubble as in X14 whose end size is
    between 0.15 and 2.8 times its positive start size, and at least 0.9
    times it for an oscillating bubble (the ranges of the constructor), the
    size after a surviving update is between 0.15 and 4.6 times the start
    size; in particular it is positive. *)
Theorem bubble_size_range (now dt visc : R) (b : Bubble.t) :
  0 <= dt -> 0 < Bubble.lifespan b ->
  Bubble.life b <= 1 ->
  (Bubble.reachedSurface b = true -> Bubble.life b <= 0.15) ->
  0 < Bubble.life b - dt / Bubble.lifespan b ->
  0 < Bubble.startSize b ->
  Bubble.startSize b * 0.15 <= Bubble.endSize b
    <= Bubble.startSize b * 2.8 ->
  (Bubble.bubbleType b = 2%Z ->
   Bubble.startSize b * 0.9 <= Bubble.endSize b) ->
  let b' := Bubble.update now dt visc b in
  Bubble.startSize b * 0.15 <= Bubble.size b'
    <= Bubble.startSize b * 4.6.
Proof.
  intros Hdt HL Hl Hr Halive Hs0 Hs1 Hosc b'. subst b'.
  destruct (update_alive now dt visc b Halive)
    as (_ & _ & _ & Ar & Al & _).
  destruct (update_alive_look now dt visc b Halive) as (Es & _).
  assert (Hq : 0 <= dt / Bubble.lifespan b)
    by (apply Rmult_le_pos; [lra | left; now apply Rinv_0_lt_compat]).
  set (life' := Bubble.life b - dt / Bubble.lifespan b) in *.
  assert (Hl1 : life' <= 1) by (unfold life'; lra).
  assert (Hl2 : Bubble.reachedSurface b = true -> life' <= 0.15)
    by (intros E; specialize (Hr E); unfold life'; lra).
  assert (Hlife : 0 < Bubble.life (Bubble.update now dt visc b) <= 1 /\
                  (Bubble.reachedSurface (Bubble.update now dt visc b) = true
                   -> Bubble.life (Bubble.update now dt visc b) <= 0.15)).
  { rewrite Al, Ar.
    destruct ((_ <=? _) && _)%bool eqn:Harr.
    - unfold Rmin. destruct (Rle_dec life' 0.15); split; intros; lra.
    - cbn [orb]. split; [lra|]. exact Hl2. }
  destruct Hlife as [H1 H2]. clear Al Ar. clearbody life'.
  rewrite Es. clear Es.
  set (l := Bubble.life (Bubble.update now dt visc b)) in *.
  clearbody l.
  set (s0 := Bubble.startSize b) in *. set (s1 := Bubble.endSize b) in *.
  (* the interpolated size *)
  assert (He : 0 <= (1 - l) * (1 - l) <= 1).
  { split; [apply Rmult_le_pos; lra|].
    assert ((1 - l) * (1 - l) <= 1 * 1)
      by (apply Rmult_le_compat; lra). lra. }
  set (e := (1 - l) * (1 - l)) in *.
  assert (Hlerp : Rmin s0 s1 <= ofLerp s0 s1 e <= Rmax s0 s1).
  { unfold ofLerp, Rmin, Rmax. destruct (Rle_dec s0 s1).
    - assert (0 <= (s1 - s0) * e) by (apply Rmult_le_pos; lra).
      assert ((s1 - s0) * e <= (s1 - s0) * 1)
        by (apply Rmult_le_compat_l; lra). lra.
    - assert (0 <= (s0 - s1) * e) by (apply Rmult_le_pos; lra).
      assert ((s0 - s1) * e <= (s0 - s1) * 1)
        by (apply Rmult_le_compat_l; lra). lra. }
  set (lerp := ofLerp s0 s1 e) in *.
  assert (Hbase :
    s0 * 0.15
    <= (if (Bubble.bubbleType b =? 2)%Z
        then lerp + sin (Bubble.oscillation b
                         + Bubble.oscillationSpeed b * dt) * (s0 * 0.22)
        else lerp)
    <= s0 * 3.02).
  { destruct (Bubble.bubbleType b =? 2)%Z eqn:Ht.
    - apply Z.eqb_eq in Ht. specialize (Hosc Ht).
      pose proof (SIN_bound (Bubble.oscillation b
                             + Bubble.oscillationSpeed b * dt)) as [Hs Hs'].
      set (sn := sin _) in *.
      assert (- (s0 * 0.22) <= sn * (s0 * 0.22) <= s0 * 0.22).
      { split.
        - assert (-1 * (s0 * 0.22) <= sn * (s0 * 0.22))
            by (apply Rmult_le_compat_r; lra). lra.
        - assert (sn * (s0 * 0.22) <= 1 * (s0 * 0.22))
            by (apply Rmult_le_compat_r; lra). lra. }
      revert Hlerp. unfold Rmin, Rmax. destruct (Rle_dec s0 s1); intros; lra.
    - revert Hlerp. unfold Rmin, Rmax. destruct (Rle_dec s0 s1); intros; lra. }
  set (base := if (_ =? 2)%Z then _ else lerp) in *.
  clearbody base.
  destruct (Bubble.reachedSurface (Bubble.update now dt visc b)).
  - specialize (H2 eq_refl).
    assert (Hp : 0 <= 1 - l / 0.15 <= 1) by (split; lra).
    set (pop := 1 - l / 0.15) in *.
    assert (base * 1 <= base * (1 + pop * 0.5))
      by (apply Rmult_le_compat_l; lra).
    assert (base * (1 + pop * 0.5) <= base * 1.5)
      by (apply Rmult_le_compat_l; lra).
    lra.
  - lra.
Qed.

Lemma bubble_size_range_witness :
  Bubble.startSize (Bubble.set_life 1 late_bubble) * 0.15
  <= Bubble.size (Bubble.update 0 0.1 0.003 (Bubble.set_life 1 late_bubble))
  <= Bubble.startSize (Bubble.set_life 1 late_bubble) * 4.6.
Proof.
  apply (bubble_size_range 0 0.1 0.003 (Bubble.set_life 1 late_bubble));
    cbn; lra.
Defined.

(** ** Bubble generation *)


Lemma spawnBubble_particles (pos : ofVec2f) (T d : R) (s : ofApp.t)
    (g : RNG) :
  ofApp.particles (fst (ofApp.spawnBubble pos T d s g))
  = ofApp.particles s
    ++ [fst (Bubble.new pos T d (ofApp.oilTopY (ofApp.geom s)) g)] /\
  snd (ofApp.spawnBubble pos T d s g)
  = snd (Bubble.new pos T d (ofApp.oilTopY (ofApp.geom s)) g).
Proof.
  unfold ofApp.spawnBubble, bind, ret.
  destruct (Bubble.new pos T d (ofApp.oilTopY (ofApp.geom s)) g).
  split; reflexivity.
Qed.

Lemma spawnLoop_length (n : nat) (fry : Potato.t) :
  forall (s : ofApp.t) (g : RNG),
  exists bs,
    ofApp.particles (fst (ofApp.spawnLoop n fry s g))
    = ofApp.particles s ++ bs /\
    length bs = n.
Proof.
  induction n as [|n IH]; intros s g.
  - exists []. cbn. rewrite app_nil_r. split; reflexivity.
  - cbn [ofApp.spawnLoop]. unfold bind at 1.
    destruct (Potato.getSurfacePointForBubble fry g) as [pos g1].
    unfold bind at 1.
    match goal with
    | |- context [ofApp.spawnBubble ?a ?b ?c s g1] =>
        destruct (spawnBubble_particles a b c s g1) as [E _];
        set (nb := fst (Bubble.new a b c (ofApp.oilTopY (ofApp.geom s)) g1))
          in *;
        destruct (ofApp.spawnBubble a b c s g1) as [s1 g2]
    end.
    cbn [fst] in E.
    destruct (IH s1 g2) as (bs & Ebs & Hlen).
    exists (nb :: bs). rewrite Ebs, E, <- app_assoc. split; [reflexivity|].
    cbn. now rewrite Hlen.
Qed.


Lemma generateBubbles_loop (fry : Potato.t) (s : ofApp.t) (g : RNG) :
  exists (n : nat) (g' : RNG),
    (n <= 20)%nat /\
    ofApp.generateBubbles fry s g = ofApp.spawnLoop n fry s g' /\
    (unit_draws g -> unit_draws g') /\
    (Potato.getBubbleGenerationFactor (ofApp.oilTemperature s) fry <= 0 ->
     n = O).
Proof.
  unfold ofApp.generateBubbles. cbv zeta.
  destruct (_ >? 0) eqn:Hf.
  - apply fgtb_true_inv in Hf.
    unfold bind at 1. unfold ofRandom2 at 1, bind at 1, draw at 1, ret at 1.
    set (r := Rmin _ _ + _ * g O).
    set (nb := truncZ (ofClamp (IZR (truncZ r)) 0 (IZR (truncZ 20)))).
    assert (H20 : truncZ 20 = 20%Z).
    { assert (H : (20 <= truncZ 20 <= 20)%Z)
        by (apply truncZ_bounds; [lia | lra]).
      lia. }
    assert (Hnb : (0 <= nb <= 20)%Z).
    { unfold nb. rewrite H20. apply truncZ_bounds; [lia|].
      apply ofClamp_bounds. lra. }
    clearbody nb r.
    unfold bind at 1.
    destruct (nb <? 2)%Z.
    + unfold ofRandom1, bind, draw, ret.
      set (g1 := fun n : nat => g (S n)).
      set (g2 := fun n : nat => g1 (S n)).
      destruct (_ >? _).
      * exists O, g2. split; [lia|]. split; [reflexivity|].
        split; [intros Hg n; apply Hg | reflexivity].
      * exists (Z.to_nat nb), g2. split; [lia|]. split; [reflexivity|].
        split; [intros Hg n; apply Hg | intros; exfalso; lra].
    + unfold ret.
      exists (Z.to_nat nb), (fun n : nat => g (S n)).
      split; [lia|]. split; [reflexivity|].
      split; [intros Hg n; apply Hg | intros; exfalso; lra].
  - apply fgtb_false_inv in Hf. exists O, g.
    split; [lia|]. split; [reflexivity|]. split; [tauto | reflexivity].
Qed.

(** X17. Bubbles per frame. Bubble generation appends at most 20 bubbles
    to the particle list and changes no existing particle, for any draws
    of the generator; it appends none when the bubble generation factor of
    the fry is not positive. *)
Theorem bubbles_spawned_per_frame (fry : Potato.t) (s : ofApp.t) (g : RNG) :
  let s' := fst (ofApp.generateBubbles fry s g) in
  exists bs,
    ofApp.particles s' = ofApp.particles s ++ bs /\
    (length bs <= 20)%nat /\
    (Potato.getBubbleGenerationFactor (ofApp.oilTemperature s) fry <= 0 ->
     bs = []).
Proof.
  intros s'. subst s'.
  destruct (generateBubbles_loop fry s g) as (n & g' & Hn & E & _ & H0).
  rewrite E.
  destruct (spawnLoop_length n fry s g') as (bs & Ebs & Hlen).
  exists bs. split; [exact Ebs|]. split; [lia|].
  intros Hf. specialize (H0 Hf). subst n.
  destruct bs; [reflexivity | discriminate].
Qed.



(** ** Frames of the application *)

Lemma spawnBubble_clocks (pos : ofVec2f) (T d : R) (s : ofApp.t) (g : RNG) :
  clocks (fst (ofApp.spawnBubble pos T d s g)) = clocks s.
Proof.
  unfold ofApp.spawnBubble, bind, ret.
  destruct (Bubble.new pos T d (ofApp.oilTopY (ofApp.geom s)) g).
  reflexivity.
Qed.

Lemma spawnLoop_clocks (n : nat) (fry : Potato.t) :
  forall (s : ofApp.t) (g : RNG),
  clocks (fst (ofApp.spawnLoop n fry s g)) = clocks s.
Proof.
  induction n as [|n IH]; intros s g.
  - reflexivity.
  - cbn [ofApp.spawnLoop]. unfold bind at 1.
    destruct (Potato.getSurfacePointForBubble fry g) as [pos g1].
    unfold bind at 1.
    match goal with
    | |- context [ofApp.spawnBubble ?a ?b ?c s g1] =>
        pose proof (spawnBubble_clocks a b c s g1) as E;
        destruct (ofApp.spawnBubble a b c s g1) as [s1 g2]
    end.
    cbn [fst] in E. rewrite IH. exact E.
Qed.

(** The fry part of a frame leaves the layout, the oil and the clocks
    alone and appends at most 20 bubbles. *)
Lemma updateFry_frame (dt : R) (s : ofApp.t) (m : Rand ofApp.t) (g : RNG) :
  ofApp.updateFry dt s = Some m ->
  let s' := fst (m g) in
  clocks s' = clocks s /\
  ofApp.geom s' = ofApp.geom s /\
  ofApp.oilViscosity s' = ofApp.oilViscosity s /\
  exists bs, ofApp.particles s' = ofApp.particles s ++ bs /\
             (length bs <= 20)%nat.
Proof.
  intros Hm s'. subst s'. unfold ofApp.updateFry in Hm.
  assert (Hid : forall s0 : ofApp.t,
            clocks s0 = clocks s -> ofApp.geom s0 = ofApp.geom s ->
            ofApp.oilViscosity s0 = ofApp.oilViscosity s ->
            ofApp.particles s0 = ofApp.particles s ->
            forall fry,
            let s' := fst (ofApp.generateBubbles fry s0 g) in
            clocks s' = clocks s /\
            ofApp.geom s' = ofApp.geom s /\
            ofApp.oilViscosity s' = ofApp.oilViscosity s /\
            exists bs, ofApp.particles s' = ofApp.particles s ++ bs /\
                       (length bs <= 20)%nat).
  { intros s0 Ec Eg Ev Ep fry s'. subst s'.
    destruct (sim_eq _ _ (generateBubbles_sim fry s0 g))
      as (Gg & _ & _ & Gv & _).
    destruct (generateBubbles_loop fry s0 g) as (n & g' & Hn & E & _).
    rewrite Gg, Gv, Eg, Ev. rewrite E.
    rewrite spawnLoop_clocks, Ec.
    destruct (spawnLoop_length n fry s0 g') as (bs & Ebs & Hlen).
    repeat split; try reflexivity.
    exists bs. rewrite Ebs, Ep. split; [reflexivity | lia]. }
  assert (Hret : clocks (fst (ret s g)) = clocks s /\
                 ofApp.geom (fst (ret s g)) = ofApp.geom s /\
                 ofApp.oilViscosity (fst (ret s g)) = ofApp.oilViscosity s /\
                 exists bs, ofApp.particles (fst (ret s g))
                            = ofApp.particles s ++ bs /\
                            (length bs <= 20)%nat).
  { repeat split. exists []. cbn. rewrite app_nil_r. split; [reflexivity|lia]. }
  destruct (ofApp.potatoFry s) as [a|]; [|injection Hm as <-; exact Hret].
  destruct (ofApp.fryInOil s); [|injection Hm as <-; exact Hret].
  destruct (ofApp.heap s a) as [fry|]; [|discriminate].
  cbv zeta in Hm.
  set (s1 := ofApp.store a _ s) in Hm.
  unfold ofApp.dragOverride in Hm.
  destruct (ofApp.currentDraggedFry s1) as [d|].
  - destruct (ofApp.heap s1 d) as [dragged|]; [|discriminate].
    cbv zeta in Hm.
    set (s2 := ofApp.store d _ s1) in Hm.
    destruct (ofApp.heap s2 a) as [fry2|]; [|discriminate].
    injection Hm as <-. apply Hid; reflexivity.
  - destruct (ofApp.heap s1 a) as [fry2|]; [|discriminate].
    injection Hm as <-. apply Hid; reflexivity.
Qed.

(** One unpaused frame, field by field. *)
Lemma update_unpaused (f : ofApp.Frame) (s s' : ofApp.t) :
  ofApp.isPaused s = false ->
  ofApp.update f s = Some s' ->
  let dt := ofClamp (ofApp.lastFrameTime f) 0 0.1 in
  ofApp.geom s' = ofApp.geom s /\
  ofApp.oilTemperature s' = smoothed s /\
  ofApp.oilViscosity s' = viscosity_spec (smoothed s) /\
  ofApp.targetTemperature s' = ofApp.targetTemperature s /\
  ofApp.elapsedTime s' = ofApp.elapsedTime s + dt /\
  ofApp.oilSurface s'
  = Oil.update dt (Oil.set_temperature (smoothed s) (ofApp.oilSurface s)) /\
  exists bs,
    (length bs <= 20)%nat /\
    ofApp.particles s'
    = filter (fun p => negb (Bubble.isDead p))
        (map (ofApp.updateParticle (ofApp.elapsedTimef f) dt
                (viscosity_spec (smoothed s)) (wall_left s) (wall_right s))
             (ofApp.particles s ++ bs)).
Proof.
  intros Hp Hu dt. unfold ofApp.update in Hu. rewrite Hp in Hu.
  cbv zeta in Hu. fold dt in Hu.
  set (s1 := ofApp.set_elapsedTime _ s) in Hu.
  pose proof (updateOil_fields s1) as O. cbv zeta in O.
  assert (Oc : clocks (ofApp.updateOil s1)
               = (Oil.set_temperature (smoothed s) (ofApp.oilSurface s),
                  ofApp.elapsedTime s + dt)).
  { reflexivity. }
  set (s2 := ofApp.updateOil s1) in *.
  change (smoothed s1) with (smoothed s) in O.
  change (ofApp.geom s1) with (ofApp.geom s) in O.
  change (ofApp.targetTemperature s1) with (ofApp.targetTemperature s) in O.
  change (ofApp.particles s1) with (ofApp.particles s) in O.
  destruct O as (OT & Ov & Og & Ot & _ & _ & _ & _ & _ & _ & _ & Ops).
  destruct (ofApp.updateFry dt s2) as [m|] eqn:Hm; [|discriminate].
  injection Hu as <-.
  destruct (updateFry_frame dt s2 m (ofApp.rng f) Hm)
    as (Fc & Fg & Fv & bs & Fp & Hlen).
  assert (FT : ofApp.oilTemperature (fst (m (ofApp.rng f)))
               = ofApp.oilTemperature s2 /\
               ofApp.targetTemperature (fst (m (ofApp.rng f)))
               = ofApp.targetTemperature s2).
  { clear - Hm. unfold ofApp.updateFry in Hm.
    assert (Hid : forall s0 fry,
              ofApp.oilTemperature s0 = ofApp.oilTemperature s2 ->
              ofApp.targetTemperature s0 = ofApp.targetTemperature s2 ->
              ofApp.oilTemperature
                (fst (ofApp.generateBubbles fry s0 (ofApp.rng f)))
              = ofApp.oilTemperature s2 /\
              ofApp.targetTemperature
                (fst (ofApp.generateBubbles fry s0 (ofApp.rng f)))
              = ofApp.targetTemperature s2).
    { intros s0 fry E1 E2.
      destruct (sim_eq _ _ (generateBubbles_sim fry s0 (ofApp.rng f)))
        as (_ & GT & Gt & _).
      rewrite GT, Gt. split; assumption. }
    destruct (ofApp.potatoFry s2) as [a|];
      [|injection Hm as <-; split; reflexivity].
    destruct (ofApp.fryInOil s2);
      [|injection Hm as <-; split; reflexivity].
    destruct (ofApp.heap s2 a) as [fry|]; [|discriminate].
    cbv zeta in Hm.
    set (s3 := ofApp.store a _ s2) in Hm.
    unfold ofApp.dragOverride in Hm.
    destruct (ofApp.currentDraggedFry s3) as [d|].
    - destruct (ofApp.heap s3 d) as [dragged|]; [|discriminate].
      cbv zeta in Hm.
      set (s4 := ofApp.store d _ s3) in Hm.
      destruct (ofApp.heap s4 a) as [fry2|]; [|discriminate].
      injection Hm as <-. apply Hid; reflexivity.
    - destruct (ofApp.heap s3 a) as [fry2|]; [|discriminate].
      injection Hm as <-. apply Hid; reflexivity. }
  destruct FT as [FT Ft].
  set (s3 := fst (m (ofApp.rng f))) in *.
  unfold clocks in Fc, Oc. rewrite Oc in Fc. injection Fc as Fo Fe.
  destruct (sim_eq _ _ (updateParticles_sim (ofApp.elapsedTimef f) dt s3))
    as (Ug & UT & Ut & Uv & _).
  rewrite Ug, UT, Ut, Uv, Fg, FT, Ft, Fv, Og, OT, Ot, Ov.
  repeat split; try reflexivity.
  - change (ofApp.elapsedTime (ofApp.updateParticles (ofApp.elapsedTimef f)
                                 dt s3)) with (ofApp.elapsedTime s3).
    exact Fe.
  - change (ofApp.oilSurface (ofApp.updateParticles (ofApp.elapsedTimef f)
                                dt s3))
      with (Oil.update dt (ofApp.oilSurface s3)).
    now rewrite Fo.
  - exists bs. split; [exact Hlen|].
    rewrite updateParticles_alive, Fp, Fv, Fg, Ov, Og, Ops. reflexivity.
Qed.
Lemma scene_eq (s r : ofApp.t) :
  scene r = scene s ->
  ofApp.geom r = ofApp.geom s /\
  ofApp.oilTemperature r = ofApp.oilTemperature s /\
  ofApp.targetTemperature r = ofApp.targetTemperature s /\
  ofApp.oilViscosity r = ofApp.oilViscosity s /\
  ofApp.oilSurface r = ofApp.oilSurface s /\
  ofApp.elapsedTime r = ofApp.elapsedTime s /\
  ofApp.particles r = ofApp.particles s /\
  ofApp.isPaused r = ofApp.isPaused s.
Proof.
  unfold scene; intros H; injection H; intros; repeat split; assumption.
Qed.

(** What a key press does to the scene. *)
Lemma keyPressed_scene (key : ofApp.Key) (s : ofApp.t) :
  let r := ofApp.keyPressed key s in
  ofApp.geom r = ofApp.geom s /\
  ofApp.oilTemperature r = ofApp.oilTemperature s /\
  ofApp.oilViscosity r = ofApp.oilViscosity s /\
  ofApp.oilSurface r = ofApp.oilSurface s /\
  (ofApp.elapsedTime r = ofApp.elapsedTime s \/ ofApp.elapsedTime r = 0) /\
  (ofApp.particles r = ofApp.particles s \/ ofApp.particles r = []) /\
  (ofApp.targetTemperature r = ofApp.targetTemperature s \/
   ofApp.targetTemperature r
   = ofClamp (ofApp.targetTemperature s + 5) 160 190 \/
   ofApp.targetTemperature r
   = ofClamp (ofApp.targetTemperature s - 5) 160 190).
Proof.
  intros r. subst r. unfold ofApp.keyPressed.
  destruct (_ || _)%bool; [repeat split; auto|].
  destruct (ofApp.is_up key); [repeat split; auto|].
  destruct (ofApp.is_down key); [repeat split; auto|].
  destruct (ofApp.is_char key " ").
  { destruct (ofApp.fryInOil s).
    - destruct (ofApp.potatoFry s); repeat split; auto.
    - unfold ofApp.alloc. repeat split; auto. }
  destruct (_ || _)%bool; [|repeat split; auto].
  cbv zeta. destruct (ofApp.potatoFry s); repeat split; auto.
Qed.

Lemma mousePressed_scene (mx my : Z) (s r : ofApp.t) :
  ofApp.mousePressed mx my s = Some r -> scene r = scene s.
Proof.
  unfold ofApp.mousePressed.
  destruct (ofApp.potatoFry s) as [a|]; [|intros H; now injection H as <-].
  destruct (ofApp.heap s a) as [fry|]; [|discriminate].
  destruct (_ <? 60); intros H; injection H as <-; reflexivity.
Qed.

Lemma mouseDragged_scene (mx my : Z) (s : ofApp.t) :
  scene (ofApp.mouseDragged mx my s) = scene s.
Proof.
  unfold ofApp.mouseDragged. destruct (ofApp.currentDraggedFry s); reflexivity.
Qed.




Lemma run_paused_frames (fs : list ofApp.Frame) (es : list ofApp.Event)
    (s : ofApp.t) :
  ofApp.isPaused s = true ->
  ofApp.run (map ofApp.EUpdate fs ++ es) s = ofApp.run es s.
Proof.
  intros Hp. induction fs as [|f fs IH]; [reflexivity|].
  cbn [map app ofApp.run ofApp.handle]. unfold ofApp.update. rewrite Hp.
  exact IH.
Qed.

(** X20. Pause. From an unpaused state, pressing [p], any number of
    frames, and pressing [P] lead back to exactly the same state: a paused
    frame changes nothing, not even the clocks. *)
Theorem pause_round_trip (fs : list ofApp.Frame) (s : ofApp.t) :
  ofApp.isPaused s = false ->
  ofApp.run (paused_run fs) s = Some s.
Proof.
  intros Hp. unfold paused_run.
  cbn [ofApp.run ofApp.handle].
  rewrite run_paused_frames.
  - destruct s. cbn in Hp. subst. reflexivity.
  - destruct s. cbn in Hp. subst. reflexivity.
Qed.

Lemma pause_round_trip_witness :
  ofApp.run (paused_run [frame16; frame16]) (ofApp.setup 1024 768)
  = Some (ofApp.setup 1024 768).
Proof.
  apply (pause_round_trip [frame16; frame16] (ofApp.setup 1024 768)).
  reflexivity.
Defined.

Lemma thermostat_step (T : R) :
  thermostat_setting T ->
  thermostat_setting (ofClamp (T + 5) 160 190) /\
  thermostat_setting (ofClamp (T - 5) 160 190).
Proof.
  intros (k & Hk & ->). split.
  - destruct (Z.eq_dec k 6) as [->|Hne].
    + exists 6%Z. split; [lia|]. unfold ofClamp. fcmp; lra.
    + exists (k + 1)%Z. split; [lia|].
      assert (H : IZR k <= 5) by (apply IZR_le; lia).
      assert (H0 : 0 <= IZR k) by (apply IZR_le; lia).
      rewrite plus_IZR. rewrite ofClamp_id; lra.
  - destruct (Z.eq_dec k 0) as [->|Hne].
    + exists 0%Z. split; [lia|]. unfold ofClamp. fcmp; lra.
    + exists (k - 1)%Z. split; [lia|].
      assert (H : IZR k <= 6) by (apply IZR_le; lia).
      assert (H0 : 1 <= IZR k) by (apply IZR_le; lia).
      rewrite minus_IZR. rewrite ofClamp_id; lra.
Qed.

(** X21. The thermostat. In every reachable state the target temperature
    is one of 160, 165, ..., 190. *)
Theorem target_is_thermostat_setting (s : ofApp.t) :
  reachable s -> thermostat_setting (ofApp.targetTemperature s).
Proof.
  induction 1 as [w h|s s' e Hr IH He].
  - exists 3%Z. split; [lia|]. cbn. lra.
  - destruct e as [key|mx my|mx my| |f]; cbn [ofApp.handle] in He.
    + injection He as <-.
      destruct (keyPressed_scene key s) as (_ & _ & _ & _ & _ & _ & Et).
      destruct (thermostat_step _ IH) as [Hup Hdown].
      destruct Et as [Et|[Et|Et]]; rewrite Et; assumption.
    + destruct (scene_eq _ _ (mousePressed_scene mx my s s' He))
        as (_ & _ & Et & _).
      now rewrite Et.
    + injection He as <-.
      destruct (scene_eq _ _ (mouseDragged_scene mx my s))
        as (_ & _ & Et & _).
      now rewrite Et.
    + injection He as <-. exact IH.
    + destruct (ofApp.isPaused s) eqn:Hp.
      * unfold ofApp.update in He. rewrite Hp in He. injection He as <-.
        exact IH.
      * destruct (update_unpaused f s s' Hp He) as (_ & _ & _ & Et & _).
        now rewrite Et.
Qed.

Lemma target_is_thermostat_setting_witness :
  thermostat_setting (ofApp.targetTemperature (ofApp.setup 1024 768)).
Proof.
  apply (target_is_thermostat_setting (ofApp.setup 1024 768)).
  apply reach_setup.
Defined.

(** X22. Oil temperature. In a reachable state every unpaused frame keeps
    the target and moves the oil temperature toward it so that the gap is
    exactly 0.95 times the gap before, whatever the frame time. *)
Theorem oil_approaches_target (f : ofApp.Frame) (s s' : ofApp.t) :
  reachable s ->
  ofApp.isPaused s = false ->
  ofApp.update f s = Some s' ->
  ofApp.targetTemperature s' = ofApp.targetTemperature s /\
  ofApp.oilTemperature s' - ofApp.targetTemperature s
  = 0.95 * (ofApp.oilTemperature s - ofApp.targetTemperature s).
Proof.
  intros Hr Hp Hu.
  destruct (reachable_inv s Hr) as (HT & Ht & _).
  destruct (update_unpaused f s s' Hp Hu) as (_ & ET & _ & Et & _).
  split; [exact Et|]. rewrite ET. unfold smoothed.
  rewrite ofClamp_id; lra.
Qed.

Lemma oil_approaches_target_witness :
  exists s',
    ofApp.update frame16
      (ofApp.keyPressed ofApp.OF_KEY_UP (ofApp.setup 1024 768)) = Some s' /\
    ofApp.oilTemperature s' - 180 = 0.95 * (175 - 180).
Proof.
  destruct (update_without_fry frame16
              (ofApp.keyPressed ofApp.OF_KEY_UP (ofApp.setup 1024 768))
              eq_refl) as (s' & Hu & _).
  exists s'. split; [exact Hu|].
  assert (Hr : reachable
                 (ofApp.keyPressed ofApp.OF_KEY_UP (ofApp.setup 1024 768))).
  { apply (reach_step (ofApp.setup 1024 768) _
             (ofApp.EKeyPressed ofApp.OF_KEY_UP)); [apply reach_setup|].
    reflexivity. }
  destruct (oil_approaches_target frame16 _ s' Hr eq_refl Hu) as [_ E].
  assert (Et : ofApp.targetTemperature
                 (ofApp.keyPressed ofApp.OF_KEY_UP (ofApp.setup 1024 768))
               = 180).
  { cbn -[ofClamp]. rewrite ofClamp_id; lra. }
  rewrite Et in E. exact E.
Defined.

Lemma oil_mirrored_ext (s r : ofApp.t) :
  scene r = scene s -> oil_mirrored s -> oil_mirrored r.
Proof.
  intros E. destruct (scene_eq _ _ E) as (Eg & ET & _ & _ & Eo & Ee & _).
  unfold oil_mirrored. now rewrite Eg, ET, Eo, Ee.
Qed.

(** X23. The [Oil] object. In every reachable state its temperature is
    the oil temperature of the application and its surface is [oilTopY];
    the elapsed time is non-negative and at most the clock of the [Oil]
    object (a reset clears only the former). *)
Theorem oil_object_mirrors_state (s : ofApp.t) :
  reachable s -> oil_mirrored s.
Proof.
  induction 1 as [w h|s s' e Hr IH He].
  - unfold oil_mirrored. cbn. repeat split; lra.
  - destruct e as [key|mx my|mx my| |f]; cbn [ofApp.handle] in He.
    + injection He as <-.
      destruct (keyPressed_scene key s) as (Eg & ET & _ & Eo & Ee & _).
      destruct IH as (I1 & I2 & I3).
      unfold oil_mirrored. rewrite Eg, ET, Eo.
      split; [exact I1|]. split; [exact I2|].
      destruct Ee as [Ee|Ee]; rewrite Ee; lra.
    + apply (oil_mirrored_ext s); [|exact IH].
      now apply (mousePressed_scene mx my).
    + injection He as <-.
      apply (oil_mirrored_ext s); [|exact IH]. apply mouseDragged_scene.
    + injection He as <-. exact IH.
    + destruct (ofApp.isPaused s) eqn:Hp.
      * unfold ofApp.update in He. rewrite Hp in He. injection He as <-.
        exact IH.
      * destruct (update_unpaused f s s' Hp He)
          as (Eg & ET & _ & _ & Ee & Eo & _).
        destruct IH as (I1 & I2 & I3).
        assert (Hdt : 0 <= ofClamp (ofApp.lastFrameTime f) 0 0.1 <= 0.1)
          by (apply ofClamp_bounds; lra).
        unfold oil_mirrored. rewrite Eg, ET, Eo, Ee.
        cbn [Oil.update Oil.set_temperature Oil.temperature Oil.surfaceY
             Oil.time].
        split; [reflexivity|]. split; [exact I2|]. lra.
Qed.

Lemma oil_object_mirrors_state_witness :
  oil_mirrored (ofApp.setup 1024 768).
Proof.
  apply (oil_object_mirrors_state (ofApp.setup 1024 768)).
  apply reach_setup.
Defined.

(** ** The fry pointers *)

Lemma keyPressed_heap_ok (key : ofApp.Key) (s : ofApp.t) :
  single_fry s -> heap_ok s -> heap_ok (ofApp.keyPressed key s).
Proof.
  intros Hs [Hl Hf]. unfold ofApp.keyPressed.
  destruct (_ || _)%bool; [split; assumption|].
  destruct (ofApp.is_up key); [split; assumption|].
  destruct (ofApp.is_down key); [split; assumption|].
  assert (Hrel : forall b, heap_ok (ofApp.set_fryInOil b (release s))).
  { intros b. destruct (release_empty s Hs) as (Rp & Rh & _).
    split.
    - intros a E.
      change (ofApp.potatoFry (release s) = Some a) in E.
      rewrite Rp in E. discriminate.
    - intros a p E.
      change (ofApp.heap (release s) a = Some p) in E.
      rewrite Rh in E. discriminate. }
  destruct (ofApp.is_char key " ").
  { destruct (ofApp.fryInOil s); [apply Hrel|].
    split.
    - intros a. cbn. intros E. injection E as <-.
      rewrite Nat.eqb_refl. eexists; reflexivity.
    - intros a p. cbn.
      destruct (Nat.eqb a (ofApp.nextAddr s)) eqn:E.
      + apply Nat.eqb_eq in E. subst a. lia.
      + intros H. apply Hf in H. lia. }
  destruct (_ || _)%bool; [|split; assumption].
  apply (Hrel false).
Qed.

Lemma reachable_heap_ok (s : ofApp.t) : reachable s -> heap_ok s.
Proof.
  induction 1 as [w h|s s' e Hr IH He].
  - split; cbn; intros; discriminate.
  - pose proof (reachable_inv s Hr) as (_ & _ & _ & Hs & _).
    assert (Hkeep : sim s' = sim s -> heap_ok s').
    { intros E.
      destruct (sim_eq _ _ E) as (_ & _ & _ & _ & Ep & _ & Eh & En & _).
      unfold heap_ok. rewrite Ep, Eh, En. exact IH. }
    destruct e as [key|mx my|mx my| |f]; cbn [ofApp.handle] in He.
    + injection He as <-. now apply keyPressed_heap_ok.
    + unfold ofApp.mousePressed in He.
      destruct (ofApp.potatoFry s) as [a|] eqn:Hp;
        [|injection He as <-; exact IH].
      destruct (ofApp.heap s a) as [fry|] eqn:Hh; [|discriminate].
      destruct IH as [Hl Hf].
      destruct (_ <? 60); injection He as <-; split; cbn; assumption.
    + injection He as <-. unfold ofApp.mouseDragged.
      destruct (ofApp.currentDraggedFry s); exact IH.
    + injection He as <-. exact IH.
    + destruct (ofApp.isPaused s) eqn:Hq.
      * unfold ofApp.update in He. rewrite Hq in He. injection He as <-.
        exact IH.
      * destruct (update_result f s s' Hs Hq He)
          as (_ & _ & _ & _ & Ep & _ & En & _ & _ & _ & Eh).
        destruct IH as [Hl Hf]. unfold heap_ok. rewrite Ep, En.
        destruct Eh as [(_ & Eh & _)|(a & fry & Ha & _ & Hfry & Eh)].
        -- rewrite Eh. split; assumption.
        -- split.
           ++ intros a0 E. rewrite Ha in E. injection E as <-.
              rewrite Eh, Nat.eqb_refl. eexists; reflexivity.
           ++ intros a0 p. rewrite Eh.
              destruct (Nat.eqb a0 a) eqn:E.
              ** apply Nat.eqb_eq in E. subst a0. intros _.
                 now apply (Hf a fry).
              ** apply Hf.
Qed.

(** X28. Defined behaviour. In a reachable state whose drag pointer is
    null or equal to the fry pointer, every event (key, mouse, frame) is
    handled without dereferencing a dead pointer. *)
Theorem events_are_defined (e : ofApp.Event) (s : ofApp.t) :
  reachable s -> drag_ok s -> exists s', ofApp.handle e s = Some s'.
Proof.
  intros Hr Hd. destruct (reachable_heap_ok s Hr) as [Hl _].
  destruct e as [key|mx my|mx my| |f]; cbn [ofApp.handle];
    try (eexists; reflexivity).
  - unfold ofApp.mousePressed.
    destruct (ofApp.potatoFry s) as [a|] eqn:Hp; [|eexists; reflexivity].
    destruct (Hl a eq_refl) as [fry Hh]. rewrite Hh.
    destruct (_ <? 60); eexists; reflexivity.
  - destruct (ofApp.potatoFry s) as [a|] eqn:Hp.
    + destruct (Hl a eq_refl) as [fry Hh].
      apply (update_defined f s a fry Hp Hh).
      destruct Hd as [Hd|Hd]; [now left | right; congruence].
    + destruct (update_without_fry f s Hp) as (s' & Hu & _).
      now exists s'.
Qed.

Lemma events_are_defined_witness :
  exists s',
    ofApp.handle (ofApp.EUpdate frame16) (ofApp.setup 1024 768) = Some s'.
Proof.
  apply (events_are_defined (ofApp.EUpdate frame16) (ofApp.setup 1024 768)).
  - apply reach_setup.
  - left. reflexivity.
Defined.

Lemma space_removes (s : ofApp.t) (a : nat) :
  single_fry s ->
  ofApp.fryInOil s = true ->
  let r := ofApp.keyPressed (ofApp.KeyChar " ") s in
  ofApp.potatoFry r = None /\ ofApp.fryInOil r = false /\
  (forall a', ofApp.heap r a' = None) /\
  ofApp.currentDraggedFry r = ofApp.currentDraggedFry s /\
  ofApp.nextAddr r = ofApp.nextAddr s /\
  ofApp.isPaused r = ofApp.isPaused s.
Proof.
  intros Hs Hin r. subst r. unfold ofApp.keyPressed.
  cbn [ofApp.is_char ofApp.is_up ofApp.is_down Ascii.eqb Bool.eqb orb].
  rewrite Hin. fold (release s).
  destruct (release_empty s Hs) as (Rp & Rh & _ & _ & _ & Rq & _).
  repeat split; try assumption.
  - unfold release. destruct (ofApp.potatoFry s); reflexivity.
  - unfold release. destruct (ofApp.potatoFry s); reflexivity.
Qed.

Lemma space_drops (s : ofApp.t) :
  ofApp.fryInOil s = false ->
  let r := ofApp.keyPressed (ofApp.KeyChar " ") s in
  ofApp.potatoFry r = Some (ofApp.nextAddr s) /\
  ofApp.fryInOil r = true /\
  (forall a', ofApp.heap r a'
              = if Nat.eqb a' (ofApp.nextAddr s)
                then Some (Potato.set_velocity (mkVec 0 100)
                             (Potato.new
                                (mkVec (ofApp.screenWidth (ofApp.geom s) / 2)
                                   (ofApp.oilTopY (ofApp.geom s) - 80))
                                (mkVec 120 20)))
                else ofApp.heap s a') /\
  ofApp.currentDraggedFry r = ofApp.currentDraggedFry s /\
  ofApp.isPaused r = ofApp.isPaused s.
Proof.
  intros Hin r. subst r. unfold ofApp.keyPressed.
  cbn [ofApp.is_char ofApp.is_up ofApp.is_down Ascii.eqb Bool.eqb orb].
  rewrite Hin. cbn. repeat split.
  intros a'. destruct (Nat.eqb a' (ofApp.nextAddr s)); reflexivity.
Qed.

(** X27. A dangling drag pointer. In a reachable unpaused state in which
    the fry is the dragged object, removing the fry with the space bar and
    dropping a new one leave [currentDraggedFry] pointing to the deleted
    object; the next frame writes through it, which is undefined
    behaviour ([None]). *)
Theorem removing_a_dragged_fry_dangles (f : ofApp.Frame) (s : ofApp.t)
    (a : nat) :
  reachable s ->
  ofApp.isPaused s = false ->
  ofApp.potatoFry s = Some a ->
  ofApp.currentDraggedFry s = Some a ->
  ofApp.run [space; space; ofApp.EUpdate f] s = None.
Proof.
  intros Hr Hq Hp Hc.
  pose proof (reachable_inv s Hr) as (_ & _ & _ & Hs & Hin & _).
  destruct (reachable_heap_ok s Hr) as [Hl Hf].
  destruct (Hl a Hp) as [fry Hh]. specialize (Hf a fry Hh).
  specialize (Hin a Hp).
  unfold space. cbn [ofApp.run ofApp.handle].
  destruct (space_removes s a Hs Hin) as (R1 & R2 & R3 & R4 & R5 & R6).
  set (s1 := ofApp.keyPressed (ofApp.KeyChar " ") s) in *.
  destruct (space_drops s1 R2) as (D1 & D2 & D3 & D4 & D5).
  set (s2 := ofApp.keyPressed (ofApp.KeyChar " ") s1) in *.
  clearbody s2 s1.
  rewrite R5 in D1, D3. rewrite R4, Hc in D4. rewrite R6, Hq in D5.
  assert (Hu : ofApp.update f s2 = None); [|now rewrite Hu].
  unfold ofApp.update. rewrite D5. cbv zeta.
  set (s3 := ofApp.updateOil _).
  assert (E3 : ofApp.updateFry (ofClamp (ofApp.lastFrameTime f) 0 0.1) s3
               = None); [|now rewrite E3].
  pose proof (updateOil_fields
                (ofApp.set_elapsedTime
                   (ofApp.elapsedTime s2
                    + ofClamp (ofApp.lastFrameTime f) 0 0.1) s2)) as O.
  cbv zeta in O. fold s3 in O.
  destruct O as (_ & _ & _ & _ & Op & Oc & Oh & _ & Oi & _).
  change (ofApp.potatoFry (ofApp.set_elapsedTime _ s2))
    with (ofApp.potatoFry s2) in Op.
  change (ofApp.currentDraggedFry (ofApp.set_elapsedTime _ s2))
    with (ofApp.currentDraggedFry s2) in Oc.
  change (ofApp.heap (ofApp.set_elapsedTime _ s2))
    with (ofApp.heap s2) in Oh.
  change (ofApp.fryInOil (ofApp.set_elapsedTime _ s2))
    with (ofApp.fryInOil s2) in Oi.
  clearbody s3.
  unfold ofApp.updateFry. rewrite Op, D1, Oi, D2, Oh, D3, Nat.eqb_refl.
  cbv zeta. unfold ofApp.dragOverride.
  match goal with
  | |- context [ofApp.store ?n ?v s3] => set (s4 := ofApp.store n v s3)
  end.
  change (ofApp.currentDraggedFry s4) with (ofApp.currentDraggedFry s3).
  rewrite Oc, D4.
  change (ofApp.heap s4 a)
    with (if Nat.eqb a (ofApp.nextAddr s)
          then Some (Potato.update (ofClamp (ofApp.lastFrameTime f) 0 0.1)
                       (ofApp.oilTemperature s3)
                       (ofApp.oilTopY (ofApp.geom s3))
                       (ofApp.getOilDensity s3)
                       (ofApp.basketBottomY (ofApp.geom s3))
                       (Potato.set_velocity (mkVec 0 100)
                          (Potato.new
                             (mkVec (ofApp.screenWidth (ofApp.geom s1) / 2)
                                (ofApp.oilTopY (ofApp.geom s1) - 80))
                             (mkVec 120 20))))
          else ofApp.heap s3 a).
  assert (Hne : Nat.eqb a (ofApp.nextAddr s) = false)
    by (apply Nat.eqb_neq; lia).
  rewrite Hne, Oh, D3, Hne, R3. reflexivity.
Qed.

Lemma removing_a_dragged_fry_dangles_witness :
  exists s,
    ofApp.run grab_events (ofApp.setup 1024 768) = Some s /\
    ofApp.run [space; space; ofApp.EUpdate frame16] s = None.
Proof.
  destruct grab_run as (s & Hrun & Hdrag & _).
  pose proof Hdrag as (Hq & Hp & _ & Hc & _).
  assert (Hr : reachable s)
    by (eapply run_reachable; [apply reach_setup | exact Hrun]).
  exists s. split; [exact Hrun|].
  exact (removing_a_dragged_fry_dangles frame16 s O Hr Hq Hp Hc).
Defined.

(** ** Oil, dragging and layout *)

(** X24. Oil density. In every reachable state the oil density is between
    0.8062 (at 190 degrees) and 0.8254 (at 160 degrees), the values the
    source documents, and falls linearly with the oil temperature. *)
Theorem oil_density_range (s : ofApp.t) :
  reachable s ->
  0.8062 <= ofApp.getOilDensity s <= 0.8254 /\
  ofApp.getOilDensity s
  = 0.8254 - 0.00064 * (ofApp.oilTemperature s - 160).
Proof.
  intros Hr. destruct (reachable_inv s Hr) as (HT & _).
  unfold ofApp.getOilDensity. split; [split|]; lra.
Qed.

Lemma oil_density_range_witness :
  0.8062 <= ofApp.getOilDensity (ofApp.setup 1024 768) <= 0.8254.
Proof.
  apply (oil_density_range (ofApp.setup 1024 768)).
  apply reach_setup.
Defined.

Lemma oil_fraction (T : R) :
  let t := ofMap T 160 190 0 1 true in
  0 <= t <= 1 /\ t = Rmax 0 (Rmin 1 ((T - 160) / 30)).
Proof.
  intros t. subst t.
  rewrite ofMap_clamped by (try (unfold Rabs; destruct (Rcase_abs _)); lra).
  replace ((T - 160) / (190 - 160) * (1 - 0) + 0) with ((T - 160) / 30)
    by (field; lra).
  split; [|reflexivity].
  unfold Rmin. destruct (Rle_dec _ _); unfold Rmax; destruct (Rle_dec _ _);
    lra.
Qed.

(** X25. The colour of the oil. Every channel of [getTemperatureColor] is
    non-decreasing in the temperature of the oil and lies between the
    channel of the cool oil and the channel of the hot oil. *)
Theorem oil_color_warms (o1 o2 : Oil.t) :
  Oil.temperature o1 <= Oil.temperature o2 ->
  color_le (Oil.getTemperatureColor o1) (Oil.getTemperatureColor o2) /\
  color_le (mkColor 210 170 70 180) (Oil.getTemperatureColor o1) /\
  color_le (Oil.getTemperatureColor o2) (mkColor 245 200 100 200).
Proof.
  intros Hle. unfold Oil.getTemperatureColor. cbv zeta.
  destruct (oil_fraction (Oil.temperature o1)) as [H1 E1].
  destruct (oil_fraction (Oil.temperature o2)) as [H2 E2].
  cbv zeta in H1, E1, H2, E2.
  assert (Hmono : ofMap (Oil.temperature o1) 160 190 0 1 true
                  <= ofMap (Oil.temperature o2) 160 190 0 1 true).
  { rewrite E1, E2.
    assert ((Oil.temperature o1 - 160) / 30
            <= (Oil.temperature o2 - 160) / 30) by lra.
    unfold Rmin.
    repeat match goal with
           | |- context [Rle_dec ?u ?v] => destruct (Rle_dec u v)
           end;
    unfold Rmax;
    repeat match goal with
           | |- context [Rle_dec ?u ?v] => destruct (Rle_dec u v)
           end; lra. }
  set (t1 := ofMap (Oil.temperature o1) 160 190 0 1 true) in *.
  set (t2 := ofMap (Oil.temperature o2) 160 190 0 1 true) in *.
  clearbody t1 t2. clear E1 E2.
  unfold color_le, getLerped.
  destruct (Rlt_dec t1 0.5);
    [rewrite (fltb_true t1) by lra | rewrite (fltb_false t1) by lra];
    (destruct (Rlt_dec t2 0.5);
     [rewrite (fltb_true t2) by lra | rewrite (fltb_false t2) by lra]);
    cbn [cr cg cb ca]; repeat split; lra.
Qed.

Lemma oil_color_warms_witness :
  color_le (Oil.getTemperatureColor (Oil.new 315 160))
    (Oil.getTemperatureColor (Oil.new 315 190)).
Proof.
  apply (oil_color_warms (Oil.new 315 160) (Oil.new 315 190)).
  cbn; lra.
Defined.

(** X26. Dragging. In a reachable unpaused state in which the fry is the
    dragged object, a frame leaves the fry at the drag position with zero
    velocity, while its thermal state is the one [Potato::update] computes
    for the oil of that frame. *)
Theorem dragged_fry_is_pinned (f : ofApp.Frame) (s s' : ofApp.t)
    (a : nat) (fry : Potato.t) :
  reachable s ->
  ofApp.isPaused s = false ->
  ofApp.potatoFry s = Some a ->
  ofApp.currentDraggedFry s = Some a ->
  ofApp.heap s a = Some fry ->
  ofApp.update f s = Some s' ->
  exists fry',
    ofApp.heap s' a = Some fry' /\
    Potato.position fry' = ofApp.dragPosition s /\
    Potato.velocity fry' = mkVec 0 0 /\
    thermal fry'
    = thermal (Potato.update (ofClamp (ofApp.lastFrameTime f) 0 0.1)
                 (ofApp.oilTemperature s') (ofApp.oilTopY (ofApp.geom s))
                 (ofApp.getOilDensity s')
                 (ofApp.basketBottomY (ofApp.geom s)) fry).
Proof.
  intros Hr Hq Hp Hc Hh Hu.
  pose proof (reachable_inv s Hr) as (_ & _ & _ & Hs & _).
  destruct (update_result f s s' Hs Hq Hu)
    as (ET & _ & _ & _ & _ & _ & _ & _ & _ & _ & Eh).
  destruct Eh as [([Hn|Hn] & _)|(a0 & fry0 & Ha & _ & Hfry & Eh)].
  - congruence.
  - pose proof (reachable_inv s Hr) as (_ & _ & _ & _ & Hin & _).
    specialize (Hin a Hp). congruence.
  - rewrite Hp in Ha. injection Ha as <-.
    rewrite Hh in Hfry. injection Hfry as <-.
    eexists. split; [rewrite Eh, Nat.eqb_refl; reflexivity|].
    unfold fry_step. rewrite Hc. unfold ofApp.getOilDensity. rewrite ET.
    repeat split; reflexivity.
Qed.

Lemma dragged_fry_is_pinned_witness :
  exists s s' fry',
    ofApp.run grab_events (ofApp.setup 1024 768) = Some s /\
    ofApp.update frame10 s = Some s' /\
    ofApp.heap s' O = Some fry' /\
    Potato.position fry' = mkVec 512 400.
Proof.
  destruct grab_run as (s & Hrun & Hdrag & _).
  pose proof Hdrag as (Hq & Hp & _ & Hc & Hd & _ & _ & Hh).
  assert (Hr : reachable s)
    by (eapply run_reachable; [apply reach_setup | exact Hrun]).
  destruct (update_defined frame10 s O raw_fry Hp Hh (or_intror Hc))
    as [s' Hu].
  destruct (dragged_fry_is_pinned frame10 s s' O raw_fry Hr Hq Hp Hc Hh Hu)
    as (fry' & Hh' & Hpos & _).
  exists s, s', fry'. rewrite Hd in Hpos. repeat split; assumption.
Defined.

(** X29. Layout. For a window wider than 160 and higher than 300 pixels,
    [setup] places the basket strictly inside the fryer with the spawn
    column of the fry between its walls, orders fryer top, oil surface,
    basket top, basket bottom and oil bottom from top to bottom, puts the
    oil surface at 315, and leaves room between the oil walls and for the
    band in which bubbles are spawned. *)
Theorem setup_layout (w h : Z) :
  (160 < w)%Z -> (300 < h)%Z ->
  let G := ofApp.geom (ofApp.setup w h) in
  ofApp.fryerLeftX G < ofApp.basketLeftX G /\
  ofApp.basketLeftX G < ofApp.screenWidth G / 2 /\
  ofApp.screenWidth G / 2 < ofApp.basketRightX G /\
  ofApp.basketRightX G < ofApp.fryerRightX G /\
  ofApp.fryerTopY G < ofApp.oilTopY G /\
  ofApp.oilTopY G < ofApp.basketTopY G /\
  ofApp.basketTopY G < ofApp.basketBottomY G /\
  ofApp.basketBottomY G < ofApp.oilBottomY G /\
  ofApp.oilTopY G = 315 /\
  wall_left (ofApp.setup w h) < wall_right (ofApp.setup w h) /\
  ofApp.oilTopY G + 5 <= ofApp.oilBottomY G - 5.
Proof.
  intros Hw Hh G. subst G.
  apply IZR_lt in Hw, Hh.
  unfold wall_left, wall_right.
  cbn [ofApp.setup ofApp.updateOilViscosity ofApp.set_oilViscosity
       ofApp.geom ofApp.fryerLeftX ofApp.fryerRightX ofApp.fryerTopY
       ofApp.oilTopY ofApp.oilBottomY ofApp.basketLeftX ofApp.basketRightX
       ofApp.basketTopY ofApp.basketBottomY ofApp.screenWidth].
  repeat split; lra.
Qed.

Lemma setup_layout_witness :
  ofApp.oilTopY (ofApp.geom (ofApp.setup 1024 768)) + 5
  <= ofApp.oilBottomY (ofApp.geom (ofApp.setup 1024 768)) - 5.
Proof.
  apply (setup_layout 1024 768); lia.
Defined.

Lemma keyPressed_heap_vx (key : ofApp.Key) (s : ofApp.t) (a : nat)
    (p : Potato.t) :
  ofApp.heap (ofApp.keyPressed key s) a = Some p ->
  ofApp.heap s a = Some p \/ x (Potato.velocity p) = 0.
Proof.
  unfold ofApp.keyPressed.
  destruct (_ || _)%bool; [now left|].
  destruct (ofApp.is_up key); [now left|].
  destruct (ofApp.is_down key); [now left|].
  assert (Hrel : forall b,
             ofApp.heap (ofApp.set_fryInOil b (release s)) a = Some p ->
             ofApp.heap s a = Some p).
  { intros b. unfold release.
    destruct (ofApp.potatoFry s) as [a0|]; [|now intros H].
    cbn. destruct (Nat.eqb a a0); [discriminate|now intros H]. }
  destruct (ofApp.is_char key " ").
  { destruct (ofApp.fryInOil s).
    - intros H. left. now apply (Hrel false).
    - cbn. destruct (Nat.eqb a (ofApp.nextAddr s)).
      + intros H. injection H as <-. right. reflexivity.
      + now left. }
  destruct (_ || _)%bool; [|now left].
  intros H. left. apply (Hrel false). exact H.
Qed.

(** X30. The fry never drifts. In every reachable state the horizontal
    velocity of a live fry is zero: it is spawned falling straight down,
    the drag override stops it, and [Potato::update] never changes the
    horizontal velocity. *)
Theorem fry_never_drifts (s : ofApp.t) (a : nat) (fry : Potato.t) :
  reachable s ->
  ofApp.heap s a = Some fry ->
  x (Potato.velocity fry) = 0.
Proof.
  intros Hr. revert a fry.
  induction Hr as [w h|s s' e Hr IH He]; intros a fry Hh.
  - discriminate.
  - pose proof (reachable_inv s Hr) as (_ & _ & _ & Hs & _).
    destruct e as [key|mx my|mx my| |f]; cbn [ofApp.handle] in He.
    + injection He as <-.
      destruct (keyPressed_heap_vx key s a fry Hh) as [H|H];
        [now apply (IH a) | exact H].
    + unfold ofApp.mousePressed in He.
      destruct (ofApp.potatoFry s) as [a0|];
        [|injection He as <-; now apply (IH a)].
      destruct (ofApp.heap s a0) as [fry0|]; [|discriminate].
      destruct (_ <? 60); injection He as <-; now apply (IH a).
    + injection He as <-. unfold ofApp.mouseDragged in Hh.
      destruct (ofApp.currentDraggedFry s); now apply (IH a).
    + injection He as <-. now apply (IH a).
    + destruct (ofApp.isPaused s) eqn:Hq.
      * unfold ofApp.update in He. rewrite Hq in He. injection He as <-.
        now apply (IH a).
      * destruct (update_result f s s' Hs Hq He)
          as (_ & _ & _ & _ & _ & _ & _ & _ & _ & _ & Eh).
        destruct Eh as [(_ & Eh & _)|(a0 & fry0 & Ha & _ & Hfry & Eh)].
        -- rewrite Eh in Hh. now apply (IH a).
        -- rewrite Eh in Hh. destruct (Nat.eqb a a0) eqn:E.
           ++ injection Hh as <-. unfold fry_step.
              destruct (ofApp.currentDraggedFry s); [reflexivity|].
              assert (Ev : x (Potato.velocity
                                (Potato.update
                                   (ofClamp (ofApp.lastFrameTime f) 0 0.1)
                                   (smoothed s)
                                   (ofApp.oilTopY (ofApp.geom s))
                                   (0.915 - 0.00064 * (smoothed s - 20))
                                   (ofApp.basketBottomY (ofApp.geom s))
                                   fry0))
                           = x (Potato.velocity fry0)).
              { destruct (Rlt_dec (ofApp.oilTopY (ofApp.geom s))
                            (y (Potato.position fry0))) as [Hy|Hy].
                - now apply update_submerged_horizontal.
                - apply Rnot_lt_le in Hy.
                  now apply update_airborne_horizontal. }
              rewrite Ev. now apply (IH a0).
           ++ now apply (IH a).
Qed.

Lemma fry_never_drifts_witness :
  x (Potato.velocity raw_fry) = 0.
Proof.
  apply (fry_never_drifts
           (ofApp.keyPressed (ofApp.KeyChar " ") (ofApp.setup 1024 768))
           O raw_fry).
  - apply (reach_step (ofApp.setup 1024 768) _
             (ofApp.EKeyPressed (ofApp.KeyChar " "))); [apply reach_setup|].
    reflexivity.
  - reflexivity.
Defined.
